(** * Resources API: referential integrity of the Prisma-backed services

    A shallow embedding of the service layer of the Topcoder Resources API
    (resource-dependency-service, resource-service and the role service of
    the migration guide) over an explicit model of the relational store
    described by the Prisma schema: four tables keyed by their primary key,
    the unique and foreign-key constraints of the schema, and interactive
    transactions that roll the tables back when their body throws. *)

From stdpp Require Import base option list strings gmap fin_maps sorting.

Set Default Proof Using "Type".
Open Scope string_scope.

(** ** Request values

    The fields of a request body are absent, [null] or a string. *)

Inductive jsval : Type :=
| JUndefined
| JNull
| JStr (s : string).

(** JavaScript truthiness: [undefined], [null] and the empty string are
    falsy. *)
Definition truthy (v : jsval) : bool :=
  match v with
  | JStr s => negb (String.eqb s "")
  | _ => false
  end.

Definition isUndefined (v : jsval) : bool :=
  match v with JUndefined => true | _ => false end.

(** What Prisma stores for a nullable string column. *)
Definition to_column (v : jsval) : option string :=
  match v with JStr s => Some s | _ => None end.

(** A nullable column read back as a JavaScript value. *)
Definition of_column (c : option string) : jsval :=
  match c with Some s => JStr s | None => JNull end.

(** [a || b] on request values. *)
Definition js_or (a b : jsval) : jsval := if truthy a then a else b.

(** ** Errors *)

Inductive prisma_code : Type :=
| P2002   (* unique constraint failed *)
| P2003   (* foreign key constraint failed *)
| P2025   (* record to update or delete not found *)
| PInvalid (* a required argument is missing *).

Inductive error : Type :=
| ValidationError
| BadRequestError
| NotFoundError
| ConflictError
| PrismaError (code : prisma_code).

Inductive result (A : Type) : Type :=
| Ok (a : A)
| Err (e : error).
Arguments Ok {A} a.
Arguments Err {A} e.

Definition succeeded {A : Type} (r : result A) : bool :=
  match r with Ok _ => true | Err _ => false end.

(** ** Rows of the four tables (schema.prisma) *)

Record Role : Type := mkRole {
  role_id : string;
  role_name : string;
  role_fullAccess : bool;
  role_selfObtainable : bool;
  role_created : nat;
  role_createdBy : string;
  role_updated : nat;
  role_updatedBy : option string;
  role_legacyId : option string
}.

Record Phase : Type := mkPhase {
  phase_id : string;
  phase_name : string;
  phase_description : option string;
  phase_created : nat;
  phase_createdBy : string;
  phase_updated : nat;
  phase_updatedBy : option string
}.

Record Resource : Type := mkResource {
  res_id : string;
  res_challengeId : option string;
  res_memberId : option string;
  res_memberHandle : option string;
  res_roleId : string;
  res_created : nat;
  res_createdBy : string;
  res_updated : nat;
  res_updatedBy : option string;
  res_legacyId : option string
}.

Record ResourcePhase : Type := mkResourcePhase {
  rp_id : string;
  rp_resourceId : string;
  rp_phaseId : string;
  rp_created : nat;
  rp_createdBy : string;
  rp_updated : nat;
  rp_updatedBy : option string
}.

Record Tables : Type := mkTables {
  roles : gmap string Role;
  phases : gmap string Phase;
  resources : gmap string Resource;
  resourcePhases : gmap string ResourcePhase
}.

(** ** The world a service call runs in

    Besides the tables it holds the identity generator ([helper.generateUUID],
    an arbitrary source of strings read at an advancing position), the clock
    read by [new Date()], and the log of calls made on the Prisma client. *)

Inductive table : Type := TRole | TPhase | TResource | TResourcePhase.

Inductive op : Type :=
| OpFindUnique | OpFindFirst | OpFindMany | OpCount
| OpCreate | OpCreateMany | OpUpdate | OpDelete | OpDeleteMany.

Inductive event : Type :=
| Query (t : table) (o : op)
| TxBegin
| TxCommit
| TxRollback.

Record World : Type := mkWorld {
  db : Tables;
  uuid_source : nat → string;
  uuid_next : nat;
  clock : nat;
  trace : list event
}.

Definition set_db (t : Tables) (w : World) : World :=
  mkWorld t (uuid_source w) (uuid_next w) (clock w) (trace w).

Definition log (e : event) (w : World) : World :=
  mkWorld (db w) (uuid_source w) (uuid_next w) (clock w) (e :: trace w).

(** ** The monad of service calls: state passing with typed errors *)

Definition M (A : Type) : Type := World → result A * World.

#[export] Instance M_ret : MRet M := λ A a w, (Ok a, w).

#[export] Instance M_bind : MBind M := λ A B f m w,
  match m w with
  | (Ok a, w') => f a w'
  | (Err e, w') => (Err e, w')
  end.

Definition throw {A : Type} (e : error) : M A := λ w, (Err e, w).

(** [helper.generateUUID()] *)
Definition generateUUID : M string := λ w,
  (Ok (uuid_source w (uuid_next w)),
   mkWorld (db w) (uuid_source w) (S (uuid_next w)) (clock w) (trace w)).

(** [new Date()] *)
Definition newDate : M nat := λ w, (Ok (clock w), w).

(** [t ? new Date(t) : new Date()]: an absent timestamp and the number 0
    are falsy and give the time of the call. *)
Definition date_or_now (t : option nat) : M nat :=
  match t with
  | Some (S k) => mret (S k)
  | _ => newDate
  end.

(** A store call whose outcome is computed from the tables. *)
Definition store_call {A : Type} (t : table) (o : op)
    (f : Tables → result (A * Tables)) : M A := λ w,
  let w1 := log (Query t o) w in
  match f (db w1) with
  | Ok (a, t') => (Ok a, set_db t' w1)
  | Err e => (Err e, w1)
  end.

(** A store call that only reads. *)
Definition store_read {A : Type} (t : table) (o : op) (f : Tables → A) : M A := λ w,
  (Ok (f (db w)), log (Query t o) w).

(** [prisma.$transaction(async tx => body)]: the body runs on the
    connection; when it throws, the tables return to their state at the
    start of the transaction and the error is rethrown. *)
Definition transaction {A : Type} (body : M A) : M A := λ w,
  match body (log TxBegin w) with
  | (Ok a, w') => (Ok a, log TxCommit w')
  | (Err e, w') => (Err e, log TxRollback (set_db (db w) w'))
  end.

(** [for (const x of l) { await f(x) }] *)
Fixpoint forM_ {A : Type} (f : A → M unit) (l : list A) : M unit :=
  match l with
  | [] => mret tt
  | a :: l' => f a;; forM_ f l'
  end.

(** ** Queries on one table *)

Section table_queries.
Context {A : Type}.

(** [findMany({ where })] *)
Definition find_many (P : A → bool) (m : gmap string A) : list A :=
  List.filter P (map_to_list m).*2.

(** [findFirst({ where })] *)
Definition find_first (P : A → bool) (m : gmap string A) : option A :=
  head (find_many P m).

(** [count({ where })] *)
Definition count_rows (P : A → bool) (m : gmap string A) : nat :=
  length (find_many P m).

(** [deleteMany({ where })] *)
Definition delete_many (P : A → bool) (m : gmap string A) : gmap string A :=
  filter (λ kv, P kv.2 = false) m.
End table_queries.

(** An optional equality filter of a [where] object on a required column. *)
Definition where_eq (f : option string) (col : string) : bool :=
  match f with
  | None => true
  | Some v => bool_decide (col = v)
  end.

(** The same on a nullable column: a filter value never matches NULL. *)
Definition where_eq_null (f : option string) (col : option string) : bool :=
  match f with
  | None => true
  | Some v => bool_decide (col = Some v)
  end.

(** [where] objects on Resource: [{ roleId, id: { not }, challengeId, memberId }],
    every key optional. *)
Record ResourceWhere : Type := mkResourceWhere {
  where_roleId : option string;
  where_idNot : option string;
  where_challengeId : option string;
  where_memberId : option string
}.

Definition resource_matches (c : ResourceWhere) (r : Resource) : bool :=
  where_eq (where_roleId c) (res_roleId r)
  && match where_idNot c with
     | None => true
     | Some i => negb (bool_decide (res_id r = i))
     end
  && where_eq_null (where_challengeId c) (res_challengeId r)
  && where_eq_null (where_memberId c) (res_memberId r).

(** [where] objects on ResourcePhase: [{ resourceId, phaseId }] and
    [{ resourceId, phaseId: { in } }]. *)
Definition rp_of_resource (rid : string) (rp : ResourcePhase) : bool :=
  bool_decide (rp_resourceId rp = rid).

Definition rp_pair (rid pid : string) (rp : ResourcePhase) : bool :=
  bool_decide (rp_resourceId rp = rid) && bool_decide (rp_phaseId rp = pid).

Definition rp_in (rid : string) (pids : list string) (rp : ResourcePhase) : bool :=
  bool_decide (rp_resourceId rp = rid) && bool_decide (rp_phaseId rp ∈ pids).

(** ** The Prisma client *)

Definition with_roles (m : gmap string Role) (d : Tables) : Tables :=
  mkTables m (phases d) (resources d) (resourcePhases d).
Definition with_resources (m : gmap string Resource) (d : Tables) : Tables :=
  mkTables (roles d) (phases d) m (resourcePhases d).
Definition with_resourcePhases (m : gmap string ResourcePhase) (d : Tables) : Tables :=
  mkTables (roles d) (phases d) (resources d) m.

Module prisma.

(** A required string argument: the client refuses [undefined] and [null]
    before any query is sent. *)
Definition arg (v : jsval) : M string :=
  match v with
  | JStr s => mret s
  | _ => throw (PrismaError PInvalid)
  end.

Module role.
Definition findUnique (id : string) : M (option Role) :=
  store_read TRole OpFindUnique (λ d, roles d !! id).

(** The object passed as [data] to [create]. [created] and [updated]
    default to the time of the insert ([@default(now())], [@updatedAt]);
    a key that is left out is stored as NULL. *)
Record Data : Type := mkData {
  data_id : jsval;
  data_name : jsval;
  data_fullAccess : bool;
  data_selfObtainable : bool;
  data_created : option nat;
  data_createdBy : jsval;
  data_updated : option nat;
  data_updatedBy : jsval;
  data_legacyId : jsval
}.

(** [id], [name] and [createdBy] are required columns (the services never
    leave [id] to the schema default). *)
Definition row_of (now : nat) (x : Data) : option Role :=
  match data_id x, data_name x, data_createdBy x with
  | JStr i, JStr name, JStr by_ =>
      Some (mkRole i name (data_fullAccess x) (data_selfObtainable x)
              (default now (data_created x)) by_
              (default now (data_updated x))
              (to_column (data_updatedBy x)) (to_column (data_legacyId x)))
  | _, _, _ => None
  end.

(** [findUnique({ where: { name } })]: [name] is a unique column. *)
Definition findUniqueByName (name : string) : M (option Role) :=
  store_read TRole OpFindUnique
    (λ d, find_first (λ r, bool_decide (role_name r = name)) (roles d)).

(** [create({ data })]: the primary key and the unique [name] are
    enforced by the store. *)
Definition create (x : Data) : M Role :=
  now ← newDate;
  match row_of now x with
  | None => throw (PrismaError PInvalid)
  | Some r =>
      store_call TRole OpCreate (λ d,
        if bool_decide (is_Some (roles d !! role_id r)) then Err (PrismaError P2002)
        else if (0 <? count_rows (λ r', bool_decide (role_name r' = role_name r)) (roles d))%nat
        then Err (PrismaError P2002)
        else Ok (r, with_roles (<[role_id r := r]> (roles d)) d))
  end.

(** The object passed as [data] to [update]: a key that is [undefined]
    leaves its column alone; [updated] is [@updatedAt]. *)
Record Changes : Type := mkChanges {
  set_name : jsval;
  set_fullAccess : option bool;
  set_selfObtainable : option bool;
  set_updatedBy : jsval
}.

(** [name] is a required column: [null] is refused by the client. *)
Definition changes_ok (x : Changes) : bool :=
  match set_name x with JNull => false | _ => true end.

Definition apply_changes (now : nat) (x : Changes) (r : Role) : Role :=
  mkRole (role_id r)
    (match set_name x with JStr n => n | _ => role_name r end)
    (default (role_fullAccess r) (set_fullAccess x))
    (default (role_selfObtainable r) (set_selfObtainable x))
    (role_created r) (role_createdBy r) now
    (match set_updatedBy x with
     | JUndefined => role_updatedBy r
     | v => to_column v
     end)
    (role_legacyId r).

(** [update({ where: { id }, data })]: the row must exist, and a new name
    must not be the name of another role. *)
Definition update (id : string) (x : Changes) : M Role :=
  now ← newDate;
  if negb (changes_ok x) then throw (PrismaError PInvalid)
  else
    store_call TRole OpUpdate (λ d,
      match roles d !! id with
      | None => Err (PrismaError P2025)
      | Some r =>
          let r' := apply_changes now x r in
          if (0 <? count_rows (λ o, bool_decide (role_name o = role_name r')
                                      && negb (bool_decide (role_id o = role_id r)))
                     (roles d))%nat
          then Err (PrismaError P2002)
          else Ok (r', with_roles (<[id := r']> (roles d)) d)
      end).

(** [delete({ where: { id } })]: Resource.roleId references Role.id
    without a cascade, so a referenced role cannot be removed. *)
Definition delete (id : string) : M unit :=
  store_call TRole OpDelete (λ d,
    match roles d !! id with
    | None => Err (PrismaError P2025)
    | Some _ =>
        if (0 <? count_rows (λ r, bool_decide (res_roleId r = id)) (resources d))%nat
        then Err (PrismaError P2003)
        else Ok (tt, with_roles (base.delete id (roles d)) d)
    end).
End role.

Module phase.
Definition findUnique (id : string) : M (option Phase) :=
  store_read TPhase OpFindUnique (λ d, phases d !! id).
End phase.

Module resource.
(** [findUnique({ where: { id } })], without the relations. *)
Definition findUnique (id : string) : M (option Resource) :=
  store_read TResource OpFindUnique (λ d, resources d !! id).

Definition findFirst (c : ResourceWhere) : M (option Resource) :=
  store_read TResource OpFindFirst (λ d, find_first (resource_matches c) (resources d)).

Definition count (c : ResourceWhere) : M nat :=
  store_read TResource OpCount (λ d, count_rows (resource_matches c) (resources d)).

(** A resource with the relations asked for by [include]. *)
Record WithRelations : Type := mkWithRelations {
  rel_resource : Resource;
  rel_role : option Role;
  rel_resourcePhases : option (list (ResourcePhase * Phase))
}.

(** The rows of ResourcePhase of one resource, each joined with its
    phase (a required relation: the foreign key makes it resolve). *)
Definition joined_phases (d : Tables) (id : string) : list (ResourcePhase * Phase) :=
  omap (λ rp, p ← phases d !! rp_phaseId rp; Some (rp, p))
       (find_many (rp_of_resource id) (resourcePhases d)).

(** [findUnique({ where: { id }, include: { role, resourcePhases: { include: { phase: true } } } })] *)
Definition findUniqueInclude (id : string) (includeRole includePhases : bool)
    : M (option WithRelations) :=
  store_read TResource OpFindUnique (λ d,
    r ← resources d !! id;
    Some (mkWithRelations r
            (if includeRole then roles d !! res_roleId r else None)
            (if includePhases then Some (joined_phases d id) else None))).

(** [count({ where })] for any filter. *)
Definition countWhere (P : Resource → bool) : M nat :=
  store_read TResource OpCount (λ d, count_rows P (resources d)).

(** [orderBy: { created: 'desc' }]; rows created at the same instant come
    in the order of the table. *)
Definition newer_or_same (a b : Resource) : Prop :=
  (res_created b ≤ res_created a)%nat.

#[export] Instance newer_or_same_dec a b : Decision (newer_or_same a b) :=
  decide (res_created b ≤ res_created a)%nat.

Definition newest_first (l : list Resource) : list Resource :=
  merge_sort newer_or_same l.

(** [findMany({ where, skip, take, include, orderBy: { created: 'desc' } })] *)
Definition findManyPaged (P : Resource → bool) (skip take_ : nat)
    (includeRole includePhases : bool) : M (list WithRelations) :=
  store_read TResource OpFindMany (λ d,
    (λ r, mkWithRelations r
            (if includeRole then roles d !! res_roleId r else None)
            (if includePhases then Some (joined_phases d (res_id r)) else None))
    <$> take take_ (drop skip (newest_first (find_many P (resources d))))).

(** The object passed as [data] to [create], as [buildDBResource] makes it. *)
Record Data : Type := mkData {
  data_id : jsval;
  data_challengeId : jsval;
  data_memberId : jsval;
  data_memberHandle : jsval;
  data_roleId : jsval;
  data_created : nat;
  data_createdBy : jsval;
  data_updated : nat;
  data_updatedBy : jsval;
  data_legacyId : jsval
}.

(** [id], [roleId] and [createdBy] are required columns (the services
    never leave [id] to the schema default). *)
Definition row_of (x : Data) : option Resource :=
  match data_id x, data_roleId x, data_createdBy x with
  | JStr i, JStr role_, JStr by_ =>
      Some (mkResource i (to_column (data_challengeId x)) (to_column (data_memberId x))
              (to_column (data_memberHandle x)) role_ (data_created x) by_
              (data_updated x) (to_column (data_updatedBy x))
              (to_column (data_legacyId x)))
  | _, _, _ => None
  end.

(** [create({ data })]: primary key, then the foreign key to Role. *)
Definition create (x : Data) : M Resource :=
  match row_of x with
  | None => throw (PrismaError PInvalid)
  | Some r =>
      store_call TResource OpCreate (λ d,
        if bool_decide (is_Some (resources d !! res_id r)) then Err (PrismaError P2002)
        else if bool_decide (is_Some (roles d !! res_roleId r))
        then Ok (r, with_resources (<[res_id r := r]> (resources d)) d)
        else Err (PrismaError P2003))
  end.

(** [update({ where: { id }, data })]: [f] writes the columns named in
    [data]; the foreign key is checked when [roleId] changes. *)
Definition update (id : string) (f : Resource → Resource) : M Resource :=
  store_call TResource OpUpdate (λ d,
    match resources d !! id with
    | None => Err (PrismaError P2025)
    | Some r =>
        let r' := f r in
        if bool_decide (res_roleId r' = res_roleId r)
           || bool_decide (is_Some (roles d !! res_roleId r'))
        then Ok (r', with_resources (<[id := r']> (resources d)) d)
        else Err (PrismaError P2003)
    end).

(** [delete({ where: { id } })]: ResourcePhase.resourceId is declared
    [onDelete: Cascade]. *)
Definition delete (id : string) : M unit :=
  store_call TResource OpDelete (λ d,
    match resources d !! id with
    | None => Err (PrismaError P2025)
    | Some _ =>
        Ok (tt, mkTables (roles d) (phases d) (base.delete id (resources d))
                  (delete_many (rp_of_resource id) (resourcePhases d)))
    end).
End resource.

Module resourcePhase.
Definition findMany (P : ResourcePhase → bool) : M (list ResourcePhase) :=
  store_read TResourcePhase OpFindMany (λ d, find_many P (resourcePhases d)).

Definition findFirst (P : ResourcePhase → bool) : M (option ResourcePhase) :=
  store_read TResourcePhase OpFindFirst (λ d, find_first P (resourcePhases d)).

(** One row of an INSERT: the primary key and the composite unique
    pair [(resourceId, phaseId)] are checked as the row goes in. *)
Definition insert_row (rp : ResourcePhase) (m : gmap string ResourcePhase)
    : result (gmap string ResourcePhase) :=
  if bool_decide (is_Some (m !! rp_id rp)) then Err (PrismaError P2002)
  else if (0 <? count_rows (rp_pair (rp_resourceId rp) (rp_phaseId rp)) m)%nat
  then Err (PrismaError P2002)
  else Ok (<[rp_id rp := rp]> m).

Fixpoint insert_rows (rows : list ResourcePhase) (m : gmap string ResourcePhase)
    : result (gmap string ResourcePhase) :=
  match rows with
  | [] => Ok m
  | rp :: rows' =>
      match insert_row rp m with
      | Ok m' => insert_rows rows' m'
      | Err e => Err e
      end
  end.

(** Both foreign keys of a row resolve. *)
Definition references_ok (d : Tables) (rp : ResourcePhase) : bool :=
  bool_decide (is_Some (resources d !! rp_resourceId rp))
  && bool_decide (is_Some (phases d !! rp_phaseId rp)).

(** The objects passed as [data]: [createdBy] and [updatedBy] are
    whatever the caller had at hand. *)
Record Data : Type := mkData {
  data_id : string;
  data_resourceId : string;
  data_phaseId : string;
  data_created : nat;
  data_createdBy : jsval;
  data_updated : nat;
  data_updatedBy : jsval
}.

(** [createdBy] is a required column, [updatedBy] a nullable one. *)
Definition row_of (x : Data) : option ResourcePhase :=
  match data_createdBy x with
  | JStr by_ =>
      Some (mkResourcePhase (data_id x) (data_resourceId x) (data_phaseId x)
              (data_created x) by_ (data_updated x) (to_column (data_updatedBy x)))
  | _ => None
  end.

(** [createMany({ data })]: one INSERT statement. A row whose required
    [createdBy] is missing is refused by the client before anything is
    sent; the statement then inserts the rows in order and checks the
    foreign keys at its end; a failure leaves the table as it was. *)
Definition createMany (data : list Data) : M nat :=
  match mapM row_of data with
  | None => throw (PrismaError PInvalid)
  | Some rows =>
      store_call TResourcePhase OpCreateMany (λ d,
        match insert_rows rows (resourcePhases d) with
        | Err e => Err e
        | Ok m' =>
            if forallb (references_ok d) rows
            then Ok (length rows, with_resourcePhases m' d)
            else Err (PrismaError P2003)
        end)
  end.

Definition deleteMany (P : ResourcePhase → bool) : M unit :=
  store_call TResourcePhase OpDeleteMany (λ d,
    Ok (tt, with_resourcePhases (delete_many P (resourcePhases d)) d)).

Definition delete (id : string) : M unit :=
  store_call TResourcePhase OpDelete (λ d,
    match resourcePhases d !! id with
    | None => Err (PrismaError P2025)
    | Some _ => Ok (tt, with_resourcePhases (base.delete id (resourcePhases d)) d)
    end).
End resourcePhase.

End prisma.

(** ** resource-dependency-service *)

Module ResourceDependencyService.

(** [!phaseIds || phaseIds.length === 0] *)
Definition no_phases (phaseIds : option (list string)) : bool :=
  match phaseIds with
  | None | Some [] => true
  | Some (_ :: _) => false
  end.

Definition ensureRolePhasesDependency (roleId : string)
    (phaseIds : option (list string)) : M unit :=
  if no_phases phaseIds then mret tt
  else
    role ← prisma.role.findUnique roleId;
    match role with
    | None => throw NotFoundError
    | Some _ =>
        forM_ (λ phaseId,
                 phase ← prisma.phase.findUnique phaseId;
                 match phase with
                 | None => throw NotFoundError
                 | Some _ => mret tt
                 end)
              (default [] phaseIds)
    end.

(** The loop of [createResourcePhases] that looks every phase up and
    collects the rows. *)
Definition lookup_phases (phaseIds : list string) : M (list Phase) :=
  mapM (λ phaseId,
          phase ← prisma.phase.findUnique phaseId;
          match phase with
          | None => throw NotFoundError
          | Some p => mret p
          end)
       phaseIds.

(** [phaseIds.map(phaseId => ({ id: helper.generateUUID(), resourceId, phaseId, ... }))] *)
Definition new_rows (resourceId : string) (createdBy updatedBy : jsval)
    (phaseIds : list string) : M (list prisma.resourcePhase.Data) :=
  mapM (λ phaseId,
          id ← generateUUID;
          created ← newDate;
          updated ← newDate;
          mret (prisma.resourcePhase.mkData id resourceId phaseId
                  created createdBy updated updatedBy))
       phaseIds.

Definition createResourcePhases (resourceId : string)
    (phaseIds : option (list string)) (userId : jsval) : M (list Phase) :=
  if no_phases phaseIds then mret []
  else
    let ids := default [] phaseIds in
    resource ← prisma.resource.findUniqueInclude resourceId true false;
    match resource with
    | None => throw NotFoundError
    | Some resource =>
        phases ← lookup_phases ids;
        existingResourcePhases ← prisma.resourcePhase.findMany (rp_in resourceId ids);
        if (0 <? length existingResourcePhases)%nat then throw ConflictError
        else
          ensureRolePhasesDependency
            (res_roleId (prisma.resource.rel_resource resource)) phaseIds;;
          resourcePhases ← new_rows resourceId userId userId ids;
          prisma.resourcePhase.createMany resourcePhases;;
          mret phases
    end.

(** The summaries [getResourcePhases] returns. *)
Record PhaseInfo : Type := mkPhaseInfo {
  info_id : string; info_name : string; info_description : option string
}.

Definition getResourcePhases (resourceId : string) : M (list PhaseInfo) :=
  resource ← prisma.resource.findUniqueInclude resourceId false true;
  match resource with
  | None => throw NotFoundError
  | Some resource =>
      mret ((λ rp : ResourcePhase * Phase,
               mkPhaseInfo (phase_id rp.2) (phase_name rp.2) (phase_description rp.2))
              <$> default [] (prisma.resource.rel_resourcePhases resource))
  end.

Definition deleteResourcePhase (resourceId phaseId : string) : M unit :=
  resource ← prisma.resource.findUnique resourceId;
  match resource with
  | None => throw NotFoundError
  | Some _ =>
      phase ← prisma.phase.findUnique phaseId;
      match phase with
      | None => throw NotFoundError
      | Some _ =>
          resourcePhase ← prisma.resourcePhase.findFirst (rp_pair resourceId phaseId);
          match resourcePhase with
          | None => throw NotFoundError
          | Some rp => prisma.resourcePhase.delete (rp_id rp)
          end
      end
  end.

End ResourceDependencyService.

(** ** resource-service *)

Module ResourceService.

(** The request body of [createResource]. *)
Record Input : Type := mkInput {
  id : jsval;
  challengeId : jsval;
  memberId : jsval;
  memberHandle : jsval;
  roleId : jsval;
  created : option nat;
  createdBy : jsval;
  updated : option nat;
  updatedBy : jsval;
  legacyId : jsval;
  phases : option (list string)
}.

(** The patch of [updateResource]. *)
Record Patch : Type := mkPatch {
  patch_challengeId : jsval;
  patch_memberId : jsval;
  patch_memberHandle : jsval;
  patch_roleId : jsval;
  patch_updatedBy : jsval;
  patch_legacyId : jsval;
  patch_phases : option (list string)
}.

(** What the API returns: the picked columns, the role summary and the
    phase summaries. *)
Record RoleSummary : Type := mkRoleSummary {
  rs_id : string; rs_name : string; rs_fullAccess : bool; rs_selfObtainable : bool
}.
Record PhaseSummary : Type := mkPhaseSummary {
  ps_id : string; ps_name : string; ps_description : option string
}.
Record Output : Type := mkOutput {
  out_resource : Resource;
  out_role : option RoleSummary;
  out_phases : option (list PhaseSummary)
}.

Definition buildDBResource (resource : Input) : M prisma.resource.Data :=
  created_ ← date_or_now (created resource);
  updated_ ← date_or_now (updated resource);
  mret (prisma.resource.mkData (id resource) (challengeId resource) (memberId resource)
          (memberHandle resource) (roleId resource) created_ (createdBy resource)
          updated_ (updatedBy resource) (legacyId resource)).

Definition transformResource (resource : option prisma.resource.WithRelations)
    (includeRole includePhases : bool) : option Output :=
  match resource with
  | None => None
  | Some r =>
      Some (mkOutput (prisma.resource.rel_resource r)
              (if includeRole
               then (λ role, mkRoleSummary (role_id role) (role_name role)
                               (role_fullAccess role) (role_selfObtainable role))
                      <$> prisma.resource.rel_role r
               else None)
              (if includePhases
               then fmap (M := list)
                      (λ rp, mkPhaseSummary (phase_id rp.2) (phase_name rp.2)
                               (phase_description rp.2))
                      <$> prisma.resource.rel_resourcePhases r
               else None))
  end.

Section validation.
(** Joi's GUID format test, a library predicate. *)
Variable isGuid : string → bool.

(** [Joi.string()]: absent is fine, [null] and the empty string are not. *)
Definition joi_string (v : jsval) : bool :=
  match v with
  | JUndefined => true
  | JNull => false
  | JStr s => negb (String.eqb s "")
  end.

(** [Joi.string().allow(null)] *)
Definition joi_string_null (v : jsval) : bool :=
  match v with
  | JNull => true
  | _ => joi_string v
  end.

(** [Joi.string().required()] *)
Definition joi_string_required (v : jsval) : bool :=
  match v with
  | JStr s => negb (String.eqb s "")
  | _ => false
  end.

(** [Joi.string().uuid()] *)
Definition joi_uuid (v : jsval) : bool :=
  match v with
  | JStr s => joi_string v && isGuid s
  | _ => joi_string v
  end.

Definition schema (resource : Input) : bool :=
  joi_uuid (id resource)
  && joi_string_null (challengeId resource)
  && joi_string_null (memberId resource)
  && joi_string_null (memberHandle resource)
  && joi_string_required (roleId resource)
  && joi_string_required (createdBy resource)
  && joi_string_null (updatedBy resource)
  && joi_string_null (legacyId resource)
  && match phases resource with
     | None => true
     | Some l => forallb (λ p, joi_uuid (JStr p)) l
     end.

Definition validateResource (resource : Input) : M unit :=
  if negb (schema resource) then throw ValidationError
  else if negb (truthy (challengeId resource)) && negb (truthy (memberId resource))
  then throw ValidationError
  else mret tt.
End validation.

(** The value a [where] key gets when it is only set for a truthy input. *)
Definition truthy_string (v : jsval) : option string :=
  if truthy v then to_column v else None.

(** [v || old] where [old] is a required string column. *)
Definition or_column (v : jsval) (old : string) : string :=
  default old (truthy_string v).

(** [_.isUndefined(v) ? old : v], as stored in a nullable column. *)
Definition defined_or (v : jsval) (old : option string) : option string :=
  to_column (if isUndefined v then of_column old else v).

Definition with_id (i : string) (x : prisma.resource.Data) : prisma.resource.Data :=
  prisma.resource.mkData (JStr i)
    (prisma.resource.data_challengeId x) (prisma.resource.data_memberId x)
    (prisma.resource.data_memberHandle x) (prisma.resource.data_roleId x)
    (prisma.resource.data_created x) (prisma.resource.data_createdBy x)
    (prisma.resource.data_updated x) (prisma.resource.data_updatedBy x)
    (prisma.resource.data_legacyId x).

Definition getResource (id : string) (includeRole includePhases : bool)
    : M (option Output) :=
  resource ← prisma.resource.findUniqueInclude id includeRole includePhases;
  match resource with
  | None => throw NotFoundError
  | Some _ => mret (transformResource resource includeRole includePhases)
  end.

Definition createResource (isGuid : string → bool) (resource : Input)
    : M (option Output) :=
  validateResource isGuid resource;;
  roleId_ ← prisma.arg (roleId resource);
  role ← prisma.role.findUnique roleId_;
  match role with
  | None => throw BadRequestError
  | Some _ =>
      let whereCondition :=
        mkResourceWhere (Some roleId_) None
          (truthy_string (challengeId resource))
          (truthy_string (memberId resource)) in
      existingResource ← prisma.resource.findFirst whereCondition;
      match existingResource with
      | Some _ => throw ConflictError
      | None =>
          let phaseIds := default [] (phases resource) in
          dbResource ← buildDBResource resource;
          dbResource ← (if negb (truthy (prisma.resource.data_id dbResource))
                        then i ← generateUUID; mret (with_id i dbResource)
                        else mret dbResource);
          result ← transaction (
            created ← prisma.resource.create dbResource;
            (if (0 <? length phaseIds)%nat
             then
               resourcePhases ←
                 ResourceDependencyService.new_rows (res_id created)
                   (createdBy resource) (updatedBy resource) phaseIds;
               prisma.resourcePhase.createMany resourcePhases;;
               mret tt
             else mret tt);;
            prisma.resource.findUniqueInclude (res_id created) true true);
          mret (transformResource result true true)
      end
  end.

Definition updateResource (id : string) (data : Patch) : M (option Output) :=
  existingResource ← prisma.resource.findUnique id;
  match existingResource with
  | None => throw NotFoundError
  | Some existingResource =>
      (if truthy (patch_roleId data)
       then
         roleId_ ← prisma.arg (patch_roleId data);
         role ← prisma.role.findUnique roleId_;
         match role with
         | None => throw BadRequestError
         | Some _ => mret tt
         end
       else mret tt);;
      (if truthy (patch_challengeId data) || truthy (patch_memberId data)
          || truthy (patch_roleId data)
       then
         let whereCondition :=
           mkResourceWhere
             (Some (or_column (patch_roleId data) (res_roleId existingResource)))
             (Some id)
             (truthy_string (js_or (patch_challengeId data)
                               (of_column (res_challengeId existingResource))))
             (truthy_string (js_or (patch_memberId data)
                               (of_column (res_memberId existingResource)))) in
         duplicateResource ← prisma.resource.findFirst whereCondition;
         match duplicateResource with
         | Some _ => throw ConflictError
         | None => mret tt
         end
       else mret tt);;
      let phaseIds := default [] (patch_phases data) in
      updated_ ← newDate;
      let updatedBy_ := js_or (patch_updatedBy data) (of_column (res_updatedBy existingResource)) in
      let updateData (r : Resource) : Resource :=
        mkResource (res_id r)
          (defined_or (patch_challengeId data) (res_challengeId existingResource))
          (defined_or (patch_memberId data) (res_memberId existingResource))
          (defined_or (patch_memberHandle data) (res_memberHandle existingResource))
          (or_column (patch_roleId data) (res_roleId existingResource))
          (res_created r) (res_createdBy r)
          updated_
          (to_column updatedBy_)
          (defined_or (patch_legacyId data) (res_legacyId existingResource)) in
      result ← transaction (
        prisma.resource.update id updateData;;
        (if (0 <? length phaseIds)%nat
         then
           prisma.resourcePhase.deleteMany (rp_of_resource id);;
           resourcePhases ←
             ResourceDependencyService.new_rows id updatedBy_ updatedBy_ phaseIds;
           prisma.resourcePhase.createMany resourcePhases;;
           mret tt
         else mret tt);;
        prisma.resource.findUniqueInclude id true true);
      mret (transformResource result true true)
  end.

Definition deleteResource (id : string) : M unit :=
  existingResource ← prisma.resource.findUnique id;
  match existingResource with
  | None => throw NotFoundError
  | Some _ => prisma.resource.delete id
  end.

(** The criteria of [searchResources]: the page numbers are absent or
    numbers, the flags are compared with [=== true]. *)
Record Criteria : Type := mkCriteria {
  crit_page : option nat;
  crit_perPage : option nat;
  crit_challengeId : jsval;
  crit_memberId : jsval;
  crit_memberHandle : jsval;
  crit_roleId : jsval;
  crit_legacyId : jsval;
  crit_includeRole : bool;
  crit_includePhases : bool
}.

Record Page : Type := mkPage {
  page_total : nat;
  page_page : nat;
  page_perPage : nat;
  page_result : list (option Output)
}.

(** [n || d] on a page number: absent and [0] give the default. *)
Definition number_or (n : option nat) (d : nat) : nat :=
  match n with
  | Some (S k) => S k
  | _ => d
  end.

Section search.
(** [{ contains: needle, mode: 'insensitive' }], the store's own
    case-insensitive substring test. *)
Variable icontains : string → string → bool.

Definition whereConditions (criteria : Criteria) (r : Resource) : bool :=
  where_eq_null (truthy_string (crit_challengeId criteria)) (res_challengeId r)
  && where_eq_null (truthy_string (crit_memberId criteria)) (res_memberId r)
  && match truthy_string (crit_memberHandle criteria) with
     | None => true
     | Some needle =>
         match res_memberHandle r with
         | Some handle => icontains needle handle
         | None => false
         end
     end
  && where_eq (truthy_string (crit_roleId criteria)) (res_roleId r)
  && where_eq_null (truthy_string (crit_legacyId criteria)) (res_legacyId r).

Definition searchResources (criteria : Criteria) : M Page :=
  let page := number_or (crit_page criteria) 1 in
  let perPage := number_or (crit_perPage criteria) 20 in
  let skip := ((page - 1) * perPage)%nat in
  totalCount ← prisma.resource.countWhere (whereConditions criteria);
  resources ← prisma.resource.findManyPaged (whereConditions criteria) skip perPage
                 (crit_includeRole criteria) (crit_includePhases criteria);
  mret (mkPage totalCount page perPage
          ((λ resource, transformResource (Some resource)
                          (crit_includeRole criteria) (crit_includePhases criteria))
           <$> resources)).
End search.

End ResourceService.

(** ** RoleService (migration guide) *)

Module RoleService.

(** The request body of [createRole]; the flags are absent or booleans. *)
Record Input : Type := mkInput {
  name : jsval;
  fullAccess : option bool;
  selfObtainable : option bool;
  createdBy : jsval;
  updatedBy : jsval;
  legacyId : jsval
}.

Definition createRole (data : Input) : M Role :=
  id ← generateUUID;
  prisma.role.create
    (prisma.role.mkData (JStr id) (name data)
       (default false (fullAccess data))
       (default false (selfObtainable data))
       None (createdBy data) None (updatedBy data) JUndefined).

Definition getRole (id : string) : M Role :=
  role ← prisma.role.findUnique id;
  match role with
  | None => throw NotFoundError
  | Some role => mret role
  end.

(** The patch of [updateRole]. *)
Record Patch : Type := mkPatch {
  patch_name : jsval;
  patch_fullAccess : option bool;
  patch_selfObtainable : option bool;
  patch_updatedBy : jsval
}.

(** [x !== undefined ? x : old] on a string field. *)
Definition defined_or_name (v : jsval) (old : string) : jsval :=
  if isUndefined v then JStr old else v.

Definition updateRole (id : string) (data : Patch) : M Role :=
  role ← getRole id;
  prisma.role.update id
    (prisma.role.mkChanges
       (defined_or_name (patch_name data) (role_name role))
       (Some (default (role_fullAccess role) (patch_fullAccess data)))
       (Some (default (role_selfObtainable role) (patch_selfObtainable data)))
       (patch_updatedBy data)).

Definition deleteRole (id : string) : M unit :=
  getRole id;;
  resourceCount ← prisma.resource.count (mkResourceWhere (Some id) None None None);
  if (0 <? resourceCount)%nat then throw ConflictError
  else prisma.role.delete id.

End RoleService.

(** ** resource-role-service: the full role service *)

Module ResourceRoleService.

(** The request body of [createRole]. *)
Record Input : Type := mkInput {
  id : jsval;
  name : jsval;
  fullAccess : option bool;
  selfObtainable : option bool;
  created : option nat;
  createdBy : jsval;
  updated : option nat;
  updatedBy : jsval;
  legacyId : jsval
}.

Definition buildDBRole (role : Input) : M prisma.role.Data :=
  created_ ← date_or_now (created role);
  updated_ ← date_or_now (updated role);
  mret (prisma.role.mkData (id role) (name role)
          (default false (fullAccess role))
          (default false (selfObtainable role))
          (Some created_) (createdBy role) (Some updated_) (updatedBy role)
          (legacyId role)).

Definition transformRole (role : option Role) : option Role := role.

Definition schema (isGuid : string → bool) (role : Input) : bool :=
  ResourceService.joi_uuid isGuid (id role)
  && ResourceService.joi_string_required (name role)
  && ResourceService.joi_string_required (createdBy role)
  && ResourceService.joi_string_null (updatedBy role)
  && ResourceService.joi_string_null (legacyId role).

Definition validateRole (isGuid : string → bool) (role : Input) : M unit :=
  if negb (schema isGuid role) then throw ValidationError else mret tt.

Definition with_id (i : string) (x : prisma.role.Data) : prisma.role.Data :=
  prisma.role.mkData (JStr i) (prisma.role.data_name x)
    (prisma.role.data_fullAccess x) (prisma.role.data_selfObtainable x)
    (prisma.role.data_created x) (prisma.role.data_createdBy x)
    (prisma.role.data_updated x) (prisma.role.data_updatedBy x)
    (prisma.role.data_legacyId x).

Definition getRole (id : string) : M (option Role) :=
  role ← prisma.role.findUnique id;
  match role with
  | None => throw NotFoundError
  | Some _ => mret (transformRole role)
  end.

Definition createRole (isGuid : string → bool) (role : Input) : M (option Role) :=
  validateRole isGuid role;;
  name_ ← prisma.arg (name role);
  existingRole ← prisma.role.findUniqueByName name_;
  match existingRole with
  | Some _ => throw ConflictError
  | None =>
      dbRole ← buildDBRole role;
      dbRole ← (if negb (truthy (prisma.role.data_id dbRole))
                then i ← generateUUID; mret (with_id i dbRole)
                else mret dbRole);
      created ← prisma.role.create dbRole;
      mret (transformRole (Some created))
  end.

End ResourceRoleService.

(** * Observations on the store *)

(** The phases a resource is attached to. *)
Definition attached (d : Tables) (resourceId : string) : gset string :=
  list_to_set (rp_phaseId <$> find_many (rp_of_resource resourceId) (resourcePhases d)).

(** The assignment triple of a resource. *)
Definition triple (r : Resource) : string * option string * option string :=
  (res_roleId r, res_challengeId r, res_memberId r).

(** No two distinct rows of Resource agree on the triple (the schema has no
    [deleted] column: every row is a live one). *)
Definition unique_triples (d : Tables) : Prop :=
  ∀ i j r1 r2,
    resources d !! i = Some r1 → resources d !! j = Some r2 →
    triple r1 = triple r2 → i = j.

(** Some row of Resource references the role. *)
Definition role_referenced (d : Tables) (roleId : string) : Prop :=
  ∃ i r, resources d !! i = Some r ∧ res_roleId r = roleId.

(** Every listed phase id is the id of a row of Phase. *)
Definition phases_exist (d : Tables) (phaseIds : list string) : bool :=
  forallb (λ p, bool_decide (is_Some (phases d !! p))) phaseIds.

(** ** The integrity of the store

    What the schema promises of every state: a row sits under its own id,
    every foreign key resolves, an association pair occurs once and a role
    name occurs once. *)
Record consistent (d : Tables) : Prop := mkConsistent {
  role_keys : ∀ i r, roles d !! i = Some r → role_id r = i;
  phase_keys : ∀ i p, phases d !! i = Some p → phase_id p = i;
  resource_keys : ∀ i r, resources d !! i = Some r → res_id r = i;
  association_keys : ∀ i rp, resourcePhases d !! i = Some rp → rp_id rp = i;
  resource_has_role :
    ∀ i r, resources d !! i = Some r → is_Some (roles d !! res_roleId r);
  association_has_resource :
    ∀ i rp, resourcePhases d !! i = Some rp → is_Some (resources d !! rp_resourceId rp);
  association_has_phase :
    ∀ i rp, resourcePhases d !! i = Some rp → is_Some (phases d !! rp_phaseId rp);
  association_once :
    ∀ i j a b, resourcePhases d !! i = Some a → resourcePhases d !! j = Some b →
               rp_resourceId a = rp_resourceId b → rp_phaseId a = rp_phaseId b → i = j;
  role_name_once :
    ∀ i j a b, roles d !! i = Some a → roles d !! j = Some b →
               role_name a = role_name b → i = j
}.

(** The calls a client can make on the services. *)
Inductive call : Type :=
| CreateResource (resource : ResourceService.Input)
| UpdateResource (id : string) (data : ResourceService.Patch)
| DeleteResource (id : string)
| GetResource (id : string) (includeRole includePhases : bool)
| GetResourcePhases (resourceId : string)
| CreateResourcePhases (resourceId : string) (phaseIds : option (list string)) (userId : jsval)
| DeleteResourcePhase (resourceId phaseId : string)
| CreateRole (data : RoleService.Input)
| UpdateRole (id : string) (data : RoleService.Patch)
| DeleteRole (id : string)
| CreateRoleFull (role : ResourceRoleService.Input).

(** The world after a call, whether it returned or threw. *)
Definition serve (isGuid : string → bool) (c : call) (w : World) : World :=
  match c with
  | CreateResource resource => (ResourceService.createResource isGuid resource w).2
  | UpdateResource id data => (ResourceService.updateResource id data w).2
  | DeleteResource id => (ResourceService.deleteResource id w).2
  | GetResource id b1 b2 => (ResourceService.getResource id b1 b2 w).2
  | GetResourcePhases id => (ResourceDependencyService.getResourcePhases id w).2
  | CreateResourcePhases id phaseIds userId =>
      (ResourceDependencyService.createResourcePhases id phaseIds userId w).2
  | DeleteResourcePhase id phaseId =>
      (ResourceDependencyService.deleteResourcePhase id phaseId w).2
  | CreateRole data => (RoleService.createRole data w).2
  | UpdateRole id data => (RoleService.updateRole id data w).2
  | DeleteRole id => (RoleService.deleteRole id w).2
  | CreateRoleFull role => (ResourceRoleService.createRole isGuid role w).2
  end.

Definition serve_all (isGuid : string → bool) (cs : list call) (w : World) : World :=
  foldl (λ w c, serve isGuid c w) w cs.

(** * Properties of calls *)

(** [keeps I m]: a call that starts in a store satisfying [I] ends in one. *)
Definition keeps {A : Type} (I : Tables → Prop) (m : M A) : Prop :=
  ∀ w r w', I (db w) → m w = (r, w') → I (db w').


(** A call that leaves the tables as they are, whatever it returns. *)
Definition preserves_db {A : Type} (m : M A) : Prop :=
  ∀ w r w', m w = (r, w') → db w' = db w.

(** A call that leaves the tables as they are when it throws. *)
Definition fails_clean {A : Type} (m : M A) : Prop :=
  ∀ w e w', m w = (Err e, w') → db w' = db w.

(** [ok_post m Q]: when [m] returns [a], [Q] relates the tables before, the
    value and the tables after. *)
Definition ok_post {A : Type} (m : M A) (Q : Tables → A → Tables → Prop) : Prop :=
  ∀ w a w', m w = (Ok a, w') → Q (db w) a (db w').

(** [throws_only S m]: every error [m] raises is in [S]. *)
Definition throws_only {A : Type} (S : error → Prop) (m : M A) : Prop :=
  ∀ w e w', m w = (Err e, w') → S e.

(** * A worked store

    The running scenario: the role Submitter, three phases, and a resource
    of challenge C1 attached to Registration. *)

Module Scenario.

(** The canonical 8-4-4-4-12 form, one of the forms Joi accepts. *)
Definition is_hex (c : Ascii.ascii) : bool :=
  let n := Ascii.nat_of_ascii c in
  ((48 <=? n) && (n <=? 57) || (65 <=? n) && (n <=? 70)
   || (97 <=? n) && (n <=? 102))%nat.

Definition canonical_guid (s : string) : bool :=
  bool_decide (String.length s = 36%nat)
  && forallb (λ ic, if bool_decide (ic.1 ∈ [8; 13; 18; 23]%nat)
                    then bool_decide (ic.2 = Ascii.ascii_of_nat 45)
                    else is_hex ic.2)
       (imap pair (String.list_ascii_of_string s)).

(** An identity generator: a fresh string at every position. *)
Fixpoint uuids (n : nat) : string :=
  match n with
  | O => "generated"
  | S n' => uuids n' +:+ "+"
  end.

Definition R1 : string := "R1".
Definition P1 : string := "11111111-1111-4111-8111-111111111111".
Definition P2 : string := "22222222-2222-4222-8222-222222222222".
Definition P3 : string := "33333333-3333-4333-8333-333333333333".
(** The id of no phase. *)
Definition P9 : string := "99999999-9999-4999-8999-999999999999".

Definition submitter : Role := mkRole R1 "Submitter" false false 1 "u1" 1 None None.
Definition registration : Phase := mkPhase P1 "Registration" None 1 "u1" 1 None.
Definition review : Phase := mkPhase P2 "Review" None 1 "u1" 1 None.
Definition appeals : Phase := mkPhase P3 "Appeals" None 1 "u1" 1 None.

Definition world_of (d : Tables) : World := mkWorld d uuids 0 5 [].

(** Nothing yet. *)
Definition empty : World := world_of (mkTables ∅ ∅ ∅ ∅).

(** The reference data, no resource yet. *)
Definition reference : World :=
  world_of (mkTables {[ R1 := submitter ]}
              {[ P1 := registration; P2 := review; P3 := appeals ]} ∅ ∅).

(** One resource, attached to Registration. *)
Definition assigned_row : Resource :=
  mkResource "res-1" (Some "C1") None None R1 2 "u1" 2 (Some "u1") None.

Definition assigned : World :=
  world_of (mkTables {[ R1 := submitter ]}
              {[ P1 := registration; P2 := review; P3 := appeals ]}
              {[ "res-1" := assigned_row ]}
              {[ "rp-1" := mkResourcePhase "rp-1" "res-1" P1 2 "u1" 2 None ]}).

(** [{ roleId: R1, challengeId, memberId, createdBy: "u1", phases }] *)
Definition request (challenge member : jsval) (phases : option (list string))
    : ResourceService.Input :=
  ResourceService.mkInput JUndefined challenge member JUndefined (JStr R1)
    None (JStr "u1") None JUndefined JUndefined phases.

(** [{ phases }] *)
Definition patch_phases_only (phases : list string) : ResourceService.Patch :=
  ResourceService.mkPatch JUndefined JUndefined JUndefined JUndefined
    JUndefined JUndefined (Some phases).

(** [{ challengeId: null }] *)
Definition patch_clear_challenge : ResourceService.Patch :=
  ResourceService.mkPatch JNull JUndefined JUndefined JUndefined
    JUndefined JUndefined None.

(** The store after two assignments of member M1 in role R1: one without
    a challenge, then one in challenge C1. *)
Definition two_assignments : World :=
  (ResourceService.createResource canonical_guid
     (request (JStr "C1") (JStr "M1") None)
     (ResourceService.createResource canonical_guid
        (request JUndefined (JStr "M1") None) reference).2).2.

(** [{ name: "Submitter", createdBy: "u1", legacyId: "L1" }] *)
Definition role_request : RoleService.Input :=
  RoleService.mkInput (JStr "Submitter") None None (JStr "u1") JUndefined (JStr "L1").

(** The same body, for the full role service. *)
Definition full_role_request : ResourceRoleService.Input :=
  ResourceRoleService.mkInput JUndefined (JStr "Submitter") None None None
    (JStr "u1") None JUndefined (JStr "L1").

(** [{ challengeId: "C1" }] *)
Definition patch_set_challenge : ResourceService.Patch :=
  ResourceService.mkPatch (JStr "C1") JUndefined JUndefined JUndefined
    JUndefined JUndefined None.

(** [{ name: "Reviewer" }] *)
Definition role_rename : RoleService.Patch :=
  RoleService.mkPatch (JStr "Reviewer") None None JUndefined.

(** The reference data and one resource created through the service,
    attached to Registration: the resource gets the first generated id,
    its association the second. *)
Definition created : World :=
  serve canonical_guid
    (CreateResource (request (JStr "C1") JUndefined (Some [P1]))) reference.

(** A session on the reference data. *)
Definition session : list call :=
  [ CreateResource (request (JStr "C1") JUndefined (Some [P1]));
    CreateResourcePhases "generated" (Some [P2]) (JStr "u1");
    UpdateResource "generated" (patch_phases_only [P3]);
    DeleteResourcePhase "generated" P1;
    GetResourcePhases "generated";
    UpdateRole R1 role_rename;
    DeleteRole R1;
    DeleteResource "generated";
    DeleteRole R1;
    CreateRole role_request ].

(** Everything, however old. *)
Definition all_resources : ResourceService.Criteria :=
  ResourceService.mkCriteria None None JUndefined JUndefined JUndefined
    JUndefined JUndefined false false.

End Scenario.

(** * Facts about the queries *)

Section table_facts.
Context {A : Type}.
Implicit Types (P : A → bool) (m : gmap string A) (x : A).

Lemma elem_of_find_many P m x :
  x ∈ find_many P m ↔ P x = true ∧ ∃ i, m !! i = Some x.
Proof.
  unfold find_many. rewrite list_elem_of_In, filter_In, <- list_elem_of_In.
  rewrite list_elem_of_fmap. split.
  - intros [[[i y] [-> Hin]] HP]. apply elem_of_map_to_list in Hin. eauto.
  - intros [HP [i Hi]]. split; [|done].
    exists (i, x). split; [done|]. by apply elem_of_map_to_list.
Qed.

Lemma find_first_None P m :
  find_first P m = None ↔ ∀ i x, m !! i = Some x → P x = false.
Proof.
  unfold find_first. rewrite head_None. split.
  - intros Hnil i x Hi. destruct (P x) eqn:HP; [|done].
    assert (x ∈ find_many P m) as Hin by (apply elem_of_find_many; eauto).
    rewrite Hnil in Hin. by apply elem_of_nil in Hin.
  - intros Hall. destruct (find_many P m) as [|x l] eqn:E; [done|].
    assert (x ∈ find_many P m) as Hin by (rewrite E; left).
    apply elem_of_find_many in Hin as [HP [i Hi]].
    rewrite (Hall i x Hi) in HP. done.
Qed.

Lemma find_first_Some P m x :
  find_first P m = Some x → P x = true ∧ ∃ i, m !! i = Some x.
Proof.
  unfold find_first. intros Hhd. apply elem_of_find_many.
  destruct (find_many P m); simplify_eq/=. left.
Qed.

Lemma count_rows_pos P m :
  (0 <? count_rows P m)%nat = true ↔ ∃ i x, m !! i = Some x ∧ P x = true.
Proof.
  unfold count_rows. rewrite Nat.ltb_lt. split.
  - intros Hlen. destruct (find_many P m) as [|x l] eqn:E; [simpl in Hlen; lia|].
    assert (x ∈ find_many P m) as Hin by (rewrite E; left).
    apply elem_of_find_many in Hin as [HP [i Hi]]. eauto.
  - intros (i & x & Hi & HP).
    assert (x ∈ find_many P m) as Hin by (apply elem_of_find_many; eauto).
    destruct (find_many P m); [by apply elem_of_nil in Hin | simpl; lia].
Qed.

Lemma count_rows_zero P m :
  (0 <? count_rows P m)%nat = false ↔ ∀ i x, m !! i = Some x → P x = false.
Proof.
  rewrite <- not_true_iff_false, count_rows_pos. split.
  - intros Hno i x Hi. destruct (P x) eqn:HP; [|done]. destruct Hno; eauto.
  - intros Hall (i & x & Hi & HP). rewrite (Hall i x Hi) in HP. done.
Qed.

Lemma lookup_delete_many P m i :
  delete_many P m !! i = x ← m !! i; if P x then None else Some x.
Proof.
  unfold delete_many. destruct (m !! i) as [x|] eqn:Hi; simpl.
  - destruct (P x) eqn:HP.
    + apply map_lookup_filter_None. right. intros y Hy. simplify_eq/=. congruence.
    + apply map_lookup_filter_Some. done.
  - apply map_lookup_filter_None. left. done.
Qed.
End table_facts.

Lemma elem_of_attached d resourceId p :
  p ∈ attached d resourceId ↔
  ∃ i rp, resourcePhases d !! i = Some rp
          ∧ rp_resourceId rp = resourceId ∧ rp_phaseId rp = p.
Proof.
  unfold attached. rewrite elem_of_list_to_set, list_elem_of_fmap. split.
  - intros (rp & -> & Hin). apply elem_of_find_many in Hin as [HP [i Hi]].
    apply bool_decide_eq_true in HP. eauto.
  - intros (i & rp & Hi & Hr & Hp). exists rp. split; [done|].
    apply elem_of_find_many. split; [|eauto]. by apply bool_decide_eq_true.
Qed.

(** * Running a service call *)

Lemma bind_run {A B : Type} (m : M A) (k : A → M B) (w : World) :
  (m ≫= k) w =
  match m w with
  | (Ok a, w') => k a w'
  | (Err e, w') => (Err e, w')
  end.
Proof. reflexivity. Qed.

Lemma bind_Ok {A B : Type} (m : M A) (k : A → M B) w b w2 :
  (m ≫= k) w = (Ok b, w2) ↔ ∃ a w1, m w = (Ok a, w1) ∧ k a w1 = (Ok b, w2).
Proof.
  rewrite bind_run. destruct (m w) as [[a|e] w1]; split.
  - eauto.
  - by intros (? & ? & [= <- <-] & ?).
  - done.
  - by intros (? & ? & [=] & ?).
Qed.

Lemma bind_Err {A B : Type} (m : M A) (k : A → M B) w e w2 :
  (m ≫= k) w = (Err e, w2) ↔
  m w = (Err e, w2) ∨ ∃ a w1, m w = (Ok a, w1) ∧ k a w1 = (Err e, w2).
Proof.
  rewrite bind_run. destruct (m w) as [[a|e'] w1]; split.
  - eauto.
  - by intros [[=] | (? & ? & [= <- <-] & ?)].
  - intros [= -> ->]. by left.
  - by intros [[= -> ->] | (? & ? & [=] & ?)].
Qed.

(** * Validation comes first *)

Section createResource_validation.
Import ResourceService.
Variable isGuid : string → bool.

Lemma validateResource_rejects resource w :
  (truthy (challengeId resource) = false ∧ truthy (memberId resource) = false)
  ∨ joi_string_required (roleId resource) = false
  ∨ joi_string_required (createdBy resource) = false →
  validateResource isGuid resource w = (Err ValidationError, w).
Proof.
  unfold validateResource. destruct (schema isGuid resource) eqn:Hschema; [|done].
  intros [[-> ->] | Hreq]; [done|]. exfalso.
  unfold schema in Hschema. repeat (apply andb_prop in Hschema as [Hschema ?]).
  destruct Hreq; congruence.
Qed.

Lemma validateResource_accepts resource w r w' :
  validateResource isGuid resource w = (r, w') →
  r = Ok tt →
  w' = w ∧ schema isGuid resource = true
  ∧ (truthy (challengeId resource) = true ∨ truthy (memberId resource) = true).
Proof.
  unfold validateResource. destruct (schema isGuid resource); simpl; [|by intros [= <- <-]].
  destruct (truthy (challengeId resource)), (truthy (memberId resource)); simpl;
    intros [= <- <-]; intros; simplify_eq; auto.
Qed.
End createResource_validation.

(** C8: createResource raises ValidationError whenever neither challengeId
    nor memberId is set, or the required roleId or createdBy is missing, and
    it does so before the Data Store is touched: the world that comes back
    is the one that went in, tables and log of store calls alike. *)
Theorem createResource_validates_before_store
    (isGuid : string → bool) (resource : ResourceService.Input) (w : World) :
  (truthy (ResourceService.challengeId resource) = false
   ∧ truthy (ResourceService.memberId resource) = false)
  ∨ ResourceService.joi_string_required (ResourceService.roleId resource) = false
  ∨ ResourceService.joi_string_required (ResourceService.createdBy resource) = false →
  ResourceService.createResource isGuid resource w = (Err ValidationError, w).
Proof.
  intros Hbad. unfold ResourceService.createResource.
  rewrite bind_run, (validateResource_rejects isGuid resource w Hbad). done.
Qed.

(** * The dependency check *)

(** C9: with an absent or empty phase list ensureRolePhasesDependency
    returns at once without a single store call, whether or not the role
    exists; the role is looked up (and its absence reported as
    NotFoundError) only for a non-empty list. *)
Theorem ensureRolePhasesDependency_skips_empty (roleId : string) (w : World) :
  ResourceDependencyService.ensureRolePhasesDependency roleId None w = (Ok tt, w)
  ∧ ResourceDependencyService.ensureRolePhasesDependency roleId (Some []) w = (Ok tt, w)
  ∧ ∀ p l,
      roles (db w) !! roleId = None →
      ResourceDependencyService.ensureRolePhasesDependency roleId (Some (p :: l)) w
      = (Err NotFoundError, log (Query TRole OpFindUnique) w).
Proof.
  split_and!; [done | done |].
  intros p l Hrole. unfold ResourceDependencyService.ensureRolePhasesDependency.
  simpl. rewrite bind_run. unfold prisma.role.findUnique, store_read, store_call.
  simpl. rewrite Hrole. done.
Qed.

(** * Which calls can change the tables *)

Create HintDb pure_calls discriminated.

Lemma preserves_fails_clean {A : Type} (m : M A) : preserves_db m → fails_clean m.
Proof. intros Hm w e w' Hrun. eauto. Qed.

Lemma preserves_ret {A : Type} (a : A) : preserves_db (mret a).
Proof. by intros w r w' [= <- <-]. Qed.

Lemma preserves_throw {A : Type} (e : error) : preserves_db (@throw A e).
Proof. by intros w r w' [= <- <-]. Qed.

Lemma preserves_bind {A B : Type} (m : M A) (k : A → M B) :
  preserves_db m → (∀ a, preserves_db (k a)) → preserves_db (m ≫= k).
Proof.
  intros Hm Hk w r w'. rewrite bind_run.
  destruct (m w) as [[a|e] w1] eqn:E; intros Hrun.
  - rewrite (Hk a _ _ _ Hrun). eauto.
  - simplify_eq. eauto.
Qed.

Lemma fails_clean_bind {A B : Type} (m : M A) (k : A → M B) :
  preserves_db m → (∀ a, fails_clean (k a)) → fails_clean (m ≫= k).
Proof.
  intros Hm Hk w e w'. rewrite bind_run.
  destruct (m w) as [[a|e'] w1] eqn:E; intros Hrun.
  - rewrite (Hk a _ _ _ Hrun). eauto.
  - simplify_eq. eauto.
Qed.

Lemma preserves_store_read {A : Type} t o (f : Tables → A) :
  preserves_db (store_read t o f).
Proof. by intros w r w' [= <- <-]. Qed.

Lemma preserves_generateUUID : preserves_db generateUUID.
Proof. by intros w r w' [= <- <-]. Qed.

Lemma preserves_newDate : preserves_db newDate.
Proof. by intros w r w' [= <- <-]. Qed.

Lemma preserves_date_or_now t : preserves_db (date_or_now t).
Proof. destruct t as [[|k]|]; by intros w r w' [= <- <-]. Qed.

Lemma preserves_arg v : preserves_db (prisma.arg v).
Proof. destruct v; by intros w r w' [= <- <-]. Qed.

Lemma preserves_mapM {A B : Type} (f : A → M B) (l : list A) :
  (∀ a, preserves_db (f a)) → preserves_db (mapM f l).
Proof.
  intros Hf. induction l as [|a l IH]; simpl.
  - apply preserves_ret.
  - apply preserves_bind; [done|]. intros b.
    apply preserves_bind; [done|]. intros bs. apply preserves_ret.
Qed.

Lemma preserves_forM_ {A : Type} (f : A → M unit) (l : list A) :
  (∀ a, preserves_db (f a)) → preserves_db (forM_ f l).
Proof.
  intros Hf. induction l as [|a l IH]; simpl.
  - apply preserves_ret.
  - apply preserves_bind; [done|]. by intros _.
Qed.

#[local] Hint Resolve preserves_ret preserves_throw preserves_store_read
  preserves_generateUUID preserves_newDate preserves_date_or_now preserves_arg
  : pure_calls.

(** Splits a call into its steps, leaving the branches of the source. *)
Ltac pure_steps :=
  repeat first
    [ progress auto with pure_calls
    | apply preserves_bind; [|intros ?]
    | apply preserves_mapM; intros ?
    | apply preserves_forM_; intros ?
    | match goal with
      | |- preserves_db (match ?x with _ => _ end) => destruct x
      | |- preserves_db (if ?b then _ else _) => destruct b
      end ].

Lemma preserves_findUnique_role id : preserves_db (prisma.role.findUnique id).
Proof. apply preserves_store_read. Qed.

Lemma preserves_findUnique_phase id : preserves_db (prisma.phase.findUnique id).
Proof. apply preserves_store_read. Qed.

Lemma preserves_findUnique_resource id : preserves_db (prisma.resource.findUnique id).
Proof. apply preserves_store_read. Qed.

Lemma preserves_findUniqueInclude id b1 b2 :
  preserves_db (prisma.resource.findUniqueInclude id b1 b2).
Proof. apply preserves_store_read. Qed.

Lemma preserves_findFirst_resource c : preserves_db (prisma.resource.findFirst c).
Proof. apply preserves_store_read. Qed.

Lemma preserves_count_resource c : preserves_db (prisma.resource.count c).
Proof. apply preserves_store_read. Qed.

Lemma preserves_findMany_rp P : preserves_db (prisma.resourcePhase.findMany P).
Proof. apply preserves_store_read. Qed.

Lemma preserves_findFirst_rp P : preserves_db (prisma.resourcePhase.findFirst P).
Proof. apply preserves_store_read. Qed.

#[local] Hint Resolve preserves_findUnique_role preserves_findUnique_phase
  preserves_findUnique_resource preserves_findUniqueInclude
  preserves_findFirst_resource preserves_count_resource
  preserves_findMany_rp preserves_findFirst_rp : pure_calls.

Lemma preserves_validateResource isGuid resource :
  preserves_db (ResourceService.validateResource isGuid resource).
Proof. unfold ResourceService.validateResource. pure_steps. Qed.

Lemma preserves_buildDBResource resource :
  preserves_db (ResourceService.buildDBResource resource).
Proof. unfold ResourceService.buildDBResource. pure_steps. Qed.

Lemma preserves_new_rows rid c u ids :
  preserves_db (ResourceDependencyService.new_rows rid c u ids).
Proof. unfold ResourceDependencyService.new_rows. pure_steps. Qed.

Lemma preserves_lookup_phases ids :
  preserves_db (ResourceDependencyService.lookup_phases ids).
Proof. unfold ResourceDependencyService.lookup_phases. pure_steps. Qed.

Lemma preserves_ensureRolePhasesDependency roleId phaseIds :
  preserves_db (ResourceDependencyService.ensureRolePhasesDependency roleId phaseIds).
Proof. unfold ResourceDependencyService.ensureRolePhasesDependency. pure_steps. Qed.

#[local] Hint Resolve preserves_validateResource preserves_buildDBResource
  preserves_new_rows preserves_lookup_phases
  preserves_ensureRolePhasesDependency : pure_calls.

(** A statement that fails changes nothing; a transaction that fails is
    rolled back. *)
Lemma fails_clean_store_call {A : Type} t o (f : Tables → result (A * Tables)) :
  fails_clean (store_call t o f).
Proof.
  intros w e w'. unfold store_call. simpl.
  destruct (f (db w)) as [[a d]|e']; by intros [= <- <-].
Qed.

Lemma fails_clean_createMany data : fails_clean (prisma.resourcePhase.createMany data).
Proof.
  unfold prisma.resourcePhase.createMany.
  destruct (mapM _ data); [apply fails_clean_store_call|].
  apply preserves_fails_clean, preserves_throw.
Qed.

Lemma fails_clean_transaction {A : Type} (body : M A) : fails_clean (transaction body).
Proof.
  intros w e w'. unfold transaction.
  destruct (body (log TxBegin w)) as [[a|e'] w1]; by intros [= <- <-].
Qed.

Lemma transaction_Ok {A : Type} (body : M A) w a w' :
  transaction body w = (Ok a, w') →
  ∃ w1, body (log TxBegin w) = (Ok a, w1) ∧ db w' = db w1.
Proof.
  unfold transaction.
  destruct (body (log TxBegin w)) as [[a'|e'] w1]; intros [= <- <-]. eauto.
Qed.

Lemma fails_clean_bind_ret {A B : Type} (m : M A) (f : A → B) :
  fails_clean m → fails_clean (m ≫= λ a, mret (f a)).
Proof.
  intros Hm w e w'. rewrite bind_run.
  destruct (m w) as [[a|e'] w1] eqn:E; intros [= <- <-]. eauto.
Qed.

(** Splits a call whose last step is the only one that writes. *)
Ltac clean_steps :=
  repeat first
    [ apply fails_clean_transaction
    | apply fails_clean_createMany
    | apply fails_clean_store_call
    | apply preserves_fails_clean; solve [pure_steps]
    | apply fails_clean_bind; [solve [pure_steps]|intros ?]
    | apply fails_clean_bind_ret
    | match goal with
      | |- fails_clean (match ?x with _ => _ end) => destruct x
      | |- fails_clean (if ?b then _ else _) => destruct b
      | |- fails_clean (let _ := _ in _) => cbv zeta
      end ].

(** Every failure of createResource leaves the tables as they were. *)
Lemma createResource_fails_clean isGuid resource :
  fails_clean (ResourceService.createResource isGuid resource).
Proof. unfold ResourceService.createResource. clean_steps. Qed.

(** So does every failure of updateResource. *)
Lemma updateResource_fails_clean id data :
  fails_clean (ResourceService.updateResource id data).
Proof. unfold ResourceService.updateResource. clean_steps. Qed.

(** And every failure of createResourcePhases: its only write is the last
    statement. *)
Lemma createResourcePhases_fails_clean resourceId phaseIds userId :
  fails_clean (ResourceDependencyService.createResourcePhases resourceId phaseIds userId).
Proof. unfold ResourceDependencyService.createResourcePhases. clean_steps. Qed.

(** * What a successful call did to the tables *)

Lemma ok_post_bind_pure {A B : Type} (m : M A) (k : A → M B) Q :
  preserves_db m → (∀ a, ok_post (k a) Q) → ok_post (m ≫= k) Q.
Proof.
  intros Hm Hk w b w2 Hrun. apply bind_Ok in Hrun as (a & w1 & Hrun1 & Hrun2).
  rewrite <- (Hm _ _ _ Hrun1). by apply (Hk a).
Qed.

Lemma ok_post_bind_ret {A B : Type} (m : M A) (f : A → B) (Q : Tables → B → Tables → Prop) :
  ok_post m (λ d a d', Q d (f a) d') → ok_post (m ≫= λ a, mret (f a)) Q.
Proof.
  intros Hm w b w2 Hrun. apply bind_Ok in Hrun as (a & w1 & Hrun1 & [= <- <-]).
  by apply Hm.
Qed.

Lemma ok_post_throw {A : Type} (e : error) Q : ok_post (@throw A e) Q.
Proof. by intros w a w'. Qed.

Lemma ok_post_transaction {A : Type} (body : M A) Q :
  ok_post body Q → ok_post (transaction body) Q.
Proof.
  intros Hbody w a w' Hrun. apply transaction_Ok in Hrun as (w1 & Hrun & ->).
  by apply Hbody in Hrun.
Qed.

(** Walks through the reads in front of the first write. *)
Ltac skip_reads :=
  repeat first
    [ apply ok_post_throw
    | apply ok_post_bind_pure; [solve [pure_steps]|intros ?]
    | match goal with
      | |- ok_post (match ?x with _ => _ end) _ => destruct x eqn:?
      | |- ok_post (if ?b then _ else _) _ => destruct b eqn:?
      | |- ok_post (let _ := _ in _) _ => cbv zeta
      end ].

(** ** The writes, one by one *)

Lemma row_of_resource_data x r :
  prisma.resource.row_of x = Some r →
  prisma.resource.data_id x = JStr (res_id r)
  ∧ prisma.resource.data_roleId x = JStr (res_roleId r)
  ∧ res_challengeId r = to_column (prisma.resource.data_challengeId x)
  ∧ res_memberId r = to_column (prisma.resource.data_memberId x).
Proof.
  unfold prisma.resource.row_of. intros Hrow.
  repeat case_match; simplify_eq/=. done.
Qed.

Lemma resource_create_Ok x w r w' :
  prisma.resource.create x w = (Ok r, w') →
  prisma.resource.row_of x = Some r
  ∧ resources (db w) !! res_id r = None
  ∧ is_Some (roles (db w) !! res_roleId r)
  ∧ db w' = with_resources (<[res_id r := r]> (resources (db w))) (db w).
Proof.
  unfold prisma.resource.create. destruct (prisma.resource.row_of x) as [r'|]; [|done].
  unfold store_call. simpl. repeat case_bool_decide; intros ?; simplify_eq/=.
  split_and!; try done. by apply eq_None_not_Some.
Qed.

Lemma resource_update_Ok id f w r' w' :
  prisma.resource.update id f w = (Ok r', w') →
  ∃ r, resources (db w) !! id = Some r ∧ r' = f r
       ∧ db w' = with_resources (<[id := r']> (resources (db w))) (db w).
Proof.
  unfold prisma.resource.update, store_call. simpl.
  destruct (resources (db w) !! id) as [r|]; [|done].
  destruct (bool_decide _ || bool_decide _); intros ?; simplify_eq/=. by exists r.
Qed.

Lemma insert_row_Ok rp m m' :
  prisma.resourcePhase.insert_row rp m = Ok m' →
  m !! rp_id rp = None ∧ m' = <[rp_id rp := rp]> m.
Proof.
  unfold prisma.resourcePhase.insert_row. case_bool_decide; [done|].
  case_match; intros ?; simplify_eq. split; [|done]. by apply eq_None_not_Some.
Qed.

Lemma insert_rows_Ok rows m m' :
  prisma.resourcePhase.insert_rows rows m = Ok m' →
  ∀ i rp, m' !! i = Some rp ↔ m !! i = Some rp ∨ (rp ∈ rows ∧ rp_id rp = i).
Proof.
  revert m. induction rows as [|x rows IH]; simpl; intros m Hins i rp.
  - simplify_eq. split; [by left|]. intros [?|[Hin _]]; [done|].
    by apply elem_of_nil in Hin.
  - destruct (prisma.resourcePhase.insert_row x m) as [m1|] eqn:Hrow; [|done].
    apply insert_row_Ok in Hrow as [Hfresh ->].
    rewrite (IH _ Hins), elem_of_cons. rewrite lookup_insert.
    case_decide as Hi; split; intros H.
    + destruct H as [?|[? ?]]; simplify_eq; eauto.
    + destruct H as [?|[[->|?] ?]]; simplify_eq; eauto.
    + destruct H as [?|[? ?]]; eauto.
    + destruct H as [?|[[->|?] ?]]; eauto. done.
Qed.

Lemma createMany_Ok data w n w' :
  prisma.resourcePhase.createMany data w = (Ok n, w') →
  ∃ rows m',
    mapM prisma.resourcePhase.row_of data = Some rows
    ∧ prisma.resourcePhase.insert_rows rows (resourcePhases (db w)) = Ok m'
    ∧ forallb (prisma.resourcePhase.references_ok (db w)) rows = true
    ∧ db w' = with_resourcePhases m' (db w).
Proof.
  unfold prisma.resourcePhase.createMany.
  destruct (mapM _ data) as [rows|]; [|done].
  unfold store_call. simpl.
  destruct (prisma.resourcePhase.insert_rows _ _) as [m'|] eqn:Hins; [|done].
  destruct (forallb _ rows) eqn:Hrefs; intros ?; simplify_eq/=. by exists rows, m'.
Qed.

(** The rows made for a list of phase ids: one per id, in order, all of
    the given resource. *)
Lemma new_rows_Ok rid c u ids w data w' :
  ResourceDependencyService.new_rows rid c u ids w = (Ok data, w') →
  prisma.resourcePhase.data_phaseId <$> data = ids
  ∧ Forall (λ x, prisma.resourcePhase.data_resourceId x = rid) data.
Proof.
  unfold ResourceDependencyService.new_rows.
  revert w data. induction ids as [|p ids IH]; simpl; intros w data Hrun.
  - injection Hrun as <- <-. by split.
  - apply bind_Ok in Hrun as (x & w1 & Hx & Hrun).
    apply bind_Ok in Hrun as (xs & w2 & Hxs & [= <- <-]).
    apply IH in Hxs as [<- Hall].
    repeat (apply bind_Ok in Hx as (? & ? & [= <- <-] & Hx)).
    injection Hx as <- <-. simpl. split; [done|]. by constructor.
Qed.

Lemma rows_of_data data rows :
  mapM prisma.resourcePhase.row_of data = Some rows →
  rp_phaseId <$> rows = prisma.resourcePhase.data_phaseId <$> data
  ∧ rp_resourceId <$> rows = prisma.resourcePhase.data_resourceId <$> data.
Proof.
  rewrite mapM_Some. induction 1 as [|x rp data rows Hrow _ [IH1 IH2]]; [done|].
  unfold prisma.resourcePhase.row_of in Hrow.
  destruct (prisma.resourcePhase.data_createdBy x); simplify_eq/=.
  by rewrite IH1, IH2.
Qed.

(** The rows that go in for phase ids [ids] of resource [rid]. *)
Lemma rows_for rid c u ids w data w' rows :
  ResourceDependencyService.new_rows rid c u ids w = (Ok data, w') →
  mapM prisma.resourcePhase.row_of data = Some rows →
  rp_phaseId <$> rows = ids ∧ Forall (λ rp, rp_resourceId rp = rid) rows.
Proof.
  intros [Hids Hrid]%new_rows_Ok [Hp Hr]%rows_of_data. split; [congruence|].
  apply Forall_forall. intros rp Hin.
  assert (rp_resourceId rp ∈ rp_resourceId <$> rows) as Hin'
    by (apply list_elem_of_fmap; eauto).
  rewrite Hr in Hin'. apply list_elem_of_fmap in Hin' as (x & -> & Hx).
  rewrite Forall_forall in Hrid. by apply Hrid.
Qed.

(** The phase rows written inside the transactions of createResource and
    updateResource. *)
Lemma write_phases_Ok rid c u ids w w' :
  (if (0 <? length ids)%nat
   then
     resourcePhases ← ResourceDependencyService.new_rows rid c u ids;
     prisma.resourcePhase.createMany resourcePhases;;
     mret tt
   else mret tt) w = (Ok tt, w') →
  ∃ rows m',
    rp_phaseId <$> rows = ids
    ∧ Forall (λ rp, rp_resourceId rp = rid) rows
    ∧ prisma.resourcePhase.insert_rows rows (resourcePhases (db w)) = Ok m'
    ∧ Forall (λ p, is_Some (phases (db w) !! p)) ids
    ∧ db w' = with_resourcePhases m' (db w).
Proof.
  destruct (0 <? length ids)%nat eqn:Hlen.
  - intros Hrun.
    apply bind_Ok in Hrun as (data & w1 & Hdata & Hrun).
    apply bind_Ok in Hrun as (n & w2 & Hmany & [= <-]).
    apply createMany_Ok in Hmany as (rows & m' & Hrows & Hins & Hrefs & Hdb).
    pose proof (preserves_new_rows _ _ _ _ _ _ _ Hdata) as Hw1.
    destruct (rows_for _ _ _ _ _ _ _ _ Hdata Hrows) as [Hp Hr].
    exists rows, m'. rewrite <- Hw1. split_and!; try done.
    rewrite <- Hp. apply Forall_fmap, Forall_forall. intros rp Hin.
    rewrite forallb_forall in Hrefs. apply list_elem_of_In, Hrefs in Hin.
    apply andb_prop in Hin as [_ Hin]. by apply bool_decide_eq_true in Hin.
  - intros [= <-]. destruct ids as [|p ids]; [|done].
    exists [], (resourcePhases (db w)). split_and!; try done.
    by destruct (db w).
Qed.

Lemma attached_inserted rows m m' d rid p :
  prisma.resourcePhase.insert_rows rows m = Ok m' →
  resourcePhases d = m' →
  Forall (λ rp, rp_resourceId rp = rid) rows →
  p ∈ rp_phaseId <$> rows →
  p ∈ attached d rid.
Proof.
  intros Hins Hd Hrid (rp & -> & Hin)%list_elem_of_fmap.
  apply elem_of_attached. exists (rp_id rp), rp. split_and!; [|by eapply Forall_forall in Hrid|done].
  rewrite Hd. apply (insert_rows_Ok _ _ _ Hins). by right.
Qed.

(** What a successful createResource wrote. *)
Lemma createResource_ok_post isGuid resource :
  ok_post (ResourceService.createResource isGuid resource)
    (λ d out d',
       ∃ r, ResourceService.out_resource <$> out = Some r
            ∧ resources d !! res_id r = None
            ∧ resources d' !! res_id r = Some r
            ∧ ∀ p, p ∈ default [] (ResourceService.phases resource) →
                   is_Some (phases d !! p) ∧ p ∈ attached d' (res_id r)).
Proof.
  unfold ResourceService.createResource. skip_reads.
  apply ok_post_bind_ret, ok_post_transaction. intros w result w' Hrun.
  apply bind_Ok in Hrun as (row & w1 & Hcreate & Hrun).
  apply bind_Ok in Hrun as ([] & w2 & Hphases & Hfind).
  apply resource_create_Ok in Hcreate as (_ & Hfresh & _ & Hw1).
  apply write_phases_Ok in Hphases as (rows & m' & Hp & Hrid & Hins & Hrefs & Hw2).
  pose proof (preserves_findUniqueInclude _ _ _ _ _ _ Hfind) as Hw'.
  injection Hfind as <- _. simpl. rewrite Hw'.
  assert (resources (db w2) !! res_id row = Some row) as Hrow.
  { rewrite Hw2, Hw1. simpl. apply lookup_insert_eq. }
  exists row. rewrite Hrow. simpl. split_and!; try done.
  intros p Hin. split.
  - rewrite Forall_forall in Hrefs. apply Hrefs in Hin. by rewrite Hw1 in Hin.
  - eapply attached_inserted; [exact Hins| |exact Hrid|by rewrite Hp].
    by rewrite Hw2.
Qed.

(** * Resource and phases are written as one unit *)

(** C1: createResource persists the Resource row and its ResourcePhase rows
    atomically. When it returns, the new resource is in the store together
    with an association for every requested phase; when it throws, at
    whatever step, the tables are those of before the call, so a resource
    without its phases is never left behind. *)
Theorem createResource_atomic
    (isGuid : string → bool) (resource : ResourceService.Input) (w : World) :
  match ResourceService.createResource isGuid resource w with
  | (Ok out, w') =>
      ∃ r, ResourceService.out_resource <$> out = Some r
           ∧ resources (db w) !! res_id r = None
           ∧ resources (db w') !! res_id r = Some r
           ∧ ∀ p, p ∈ default [] (ResourceService.phases resource) →
                  p ∈ attached (db w') (res_id r)
  | (Err e, w') => db w' = db w
  end.
Proof.
  destruct (ResourceService.createResource isGuid resource w) as [[out|e] w'] eqn:Hrun.
  - apply createResource_ok_post in Hrun as (r & ? & ? & ? & Hall).
    exists r. split_and!; [done..|]. intros p Hp. by apply Hall.
  - by apply createResource_fails_clean in Hrun.
Qed.

(** * updateResource and the phase set *)

Lemma deleteMany_Ok P w u w' :
  prisma.resourcePhase.deleteMany P w = (Ok u, w') →
  db w' = with_resourcePhases (delete_many P (resourcePhases (db w))) (db w).
Proof. by intros [= _ <-]. Qed.

(** What a successful updateResource did to the table of associations:
    with a non-empty list, the rows of the resource are deleted and one row
    per listed phase goes in; otherwise the table is left alone. *)
Lemma updateResource_ok_post id data :
  ok_post (ResourceService.updateResource id data)
    (λ d out d',
       let ids := default [] (ResourceService.patch_phases data) in
       ∃ rows,
         rp_phaseId <$> rows = ids
         ∧ Forall (λ rp, rp_resourceId rp = id) rows
         ∧ prisma.resourcePhase.insert_rows rows
             (if (0 <? length ids)%nat
              then delete_many (rp_of_resource id) (resourcePhases d)
              else resourcePhases d)
           = Ok (resourcePhases d')).
Proof.
  unfold ResourceService.updateResource. skip_reads.
  all: apply ok_post_bind_ret, ok_post_transaction; intros w result w' Hrun.
  all: apply bind_Ok in Hrun as (row & w1 & Hupdate & Hrun).
  all: apply bind_Ok in Hrun as ([] & w2 & Hphases & Hfind).
  all: apply resource_update_Ok in Hupdate as (old & _ & _ & Hw1).
  all: apply preserves_findUniqueInclude in Hfind as Hw'.
  all: cbv zeta; rewrite Hw'.
  all: destruct (0 <? length (default [] (ResourceService.patch_phases data)))%nat eqn:Hlen.
  - apply bind_Ok in Hphases as ([] & w1' & Hdel%deleteMany_Ok & Hphases).
    pose proof (write_phases_Ok id
                  (js_or (ResourceService.patch_updatedBy data) (of_column (res_updatedBy r)))
                  (js_or (ResourceService.patch_updatedBy data) (of_column (res_updatedBy r)))
                  (default [] (ResourceService.patch_phases data)) w1' w2) as Hwrite.
    rewrite Hlen in Hwrite.
    apply Hwrite in Hphases as (rows & m' & Hp & Hrid & Hins & _ & Hw2).
    exists rows. split_and!; [done..|].
    rewrite Hw2, Hdel, Hw1 in *. done.
  - injection Hphases as <-.
    destruct (default [] (ResourceService.patch_phases data)); [|done].
    exists []. rewrite Hw1. done.
Qed.

Lemma attached_replaced rows m' d d' id :
  prisma.resourcePhase.insert_rows rows
    (delete_many (rp_of_resource id) (resourcePhases d)) = Ok m' →
  resourcePhases d' = m' →
  Forall (λ rp, rp_resourceId rp = id) rows →
  attached d' id = list_to_set (rp_phaseId <$> rows).
Proof.
  intros Hins Hd' Hrid. apply set_eq. intros p.
  rewrite elem_of_attached, elem_of_list_to_set, list_elem_of_fmap. split.
  - intros (i & rp & Hi & Hr & Hp). rewrite Hd' in Hi.
    apply (insert_rows_Ok _ _ _ Hins) in Hi as [Hold|[Hin _]]; [|eauto].
    rewrite lookup_delete_many in Hold.
    destruct (resourcePhases d !! i) as [rp'|]; simplify_eq/=.
    unfold rp_of_resource in Hold. case_bool_decide; simplify_eq/=.
  - intros (rp & -> & Hin). exists (rp_id rp), rp.
    split_and!; [|by eapply Forall_forall in Hrid|done].
    rewrite Hd'. apply (insert_rows_Ok _ _ _ Hins). by right.
Qed.

(** X16: the replacement is one unit. When updateResource is given a
    non-empty phases list and returns, the resource is attached to exactly
    the listed phases, whatever it was attached to before; when it throws,
    nothing was changed. *)
Theorem updateResource_replaces_phases
    (id : string) (data : ResourceService.Patch) (phaseIds : list string) (w : World) :
  ResourceService.patch_phases data = Some phaseIds →
  phaseIds ≠ [] →
  match ResourceService.updateResource id data w with
  | (Ok out, w') => attached (db w') id = list_to_set phaseIds
  | (Err e, w') => db w' = db w
  end.
Proof.
  intros Hphases Hne.
  destruct (ResourceService.updateResource id data w) as [[out|e] w'] eqn:Hrun.
  - apply updateResource_ok_post in Hrun as (rows & Hp & Hrid & Hins).
    rewrite Hphases in Hp, Hins. simpl in Hp, Hins.
    destruct phaseIds as [|p l]; [done|]. simpl in Hins.
    rewrite <- Hp. by eapply attached_replaced.
  - by apply updateResource_fails_clean in Hrun.
Qed.

(** The objects made for a list of phase ids carry the given author. *)
Lemma new_rows_createdBy rid c u ids w data w' :
  ResourceDependencyService.new_rows rid c u ids w = (Ok data, w') →
  Forall (λ x, prisma.resourcePhase.data_createdBy x = c) data.
Proof.
  unfold ResourceDependencyService.new_rows.
  revert w data. induction ids as [|p ids IH]; simpl; intros w data Hrun.
  - injection Hrun as <- <-. done.
  - apply bind_Ok in Hrun as (x & w1 & Hx & Hrun).
    apply bind_Ok in Hrun as (xs & w2 & Hxs & [= <- <-]).
    apply bind_Ok in Hx as (i & ? & _ & Hx).
    apply bind_Ok in Hx as (t1 & ? & _ & Hx).
    apply bind_Ok in Hx as (t2 & ? & _ & [= <- _]).
    constructor; [done|]. by eapply IH.
Qed.

(** createMany sends nothing when the author of the rows is not a
    string. *)
Lemma createMany_needs_createdBy data c w n w' :
  prisma.resourcePhase.createMany data w = (Ok n, w') →
  Forall (λ x, prisma.resourcePhase.data_createdBy x = c) data →
  data ≠ [] →
  ∃ s, c = JStr s.
Proof.
  intros (rows & m' & Hrows & _)%createMany_Ok Hby Hne.
  destruct data as [|x data]; [done|].
  apply Forall_cons in Hby as [Hx _].
  apply mapM_Some in Hrows. inversion Hrows as [|? rp ? ? Hrow]; subst.
  unfold prisma.resourcePhase.row_of in Hrow.
  destruct (prisma.resourcePhase.data_createdBy x) as [| |s]; [done..|]. by exists s.
Qed.

(** C4: updateResource with a non-empty phases list does not replace the
    phase set of a resource whose updatedBy is NULL (a resource made by
    createResource from a request without updatedBy) unless the patch
    carries a truthy updatedBy: the call throws and the resource stays
    attached to the phases it had. The new association rows take their
    required createdBy from [data.updatedBy || existingResource.updatedBy],
    which is null here, so createMany is refused and the transaction,
    removal of the old rows included, is rolled back. *)
Theorem updateResource_phases_need_updatedBy
    (id : string) (data : ResourceService.Patch) (phaseIds : list string) (w : World) :
  res_updatedBy <$> resources (db w) !! id = Some None →
  truthy (ResourceService.patch_updatedBy data) = false →
  ResourceService.patch_phases data = Some phaseIds →
  phaseIds ≠ [] →
  ∃ e w',
    ResourceService.updateResource id data w = (Err e, w')
    ∧ db w' = db w
    ∧ attached (db w') id = attached (db w) id.
Proof.
  intros Hold Hby Hphases Hne.
  destruct (ResourceService.updateResource id data w) as [[out|e] w'] eqn:Hrun.
  2:{ apply updateResource_fails_clean in Hrun. exists e, w'. by rewrite Hrun. }
  exfalso. unfold ResourceService.updateResource in Hrun.
  apply bind_Ok in Hrun as (existing & w1 & [= <- <-] & Hrun).
  destruct (resources (db w) !! id) as [old|]; [|done].
  injection Hold as Hold.
  apply bind_Ok in Hrun as ([] & w2 & _ & Hrun).
  apply bind_Ok in Hrun as ([] & w3 & _ & Hrun).
  cbv zeta in Hrun.
  apply bind_Ok in Hrun as (now & w4 & _ & Hrun).
  apply bind_Ok in Hrun as (result & w5 & Htx & _).
  apply transaction_Ok in Htx as (w6 & Hbody & _).
  apply bind_Ok in Hbody as (new & w7 & _ & Hbody).
  apply bind_Ok in Hbody as ([] & w8 & Hwrite & _).
  rewrite Hphases in Hwrite. cbn [default] in Hwrite.
  destruct phaseIds as [|p ids]; [done|]. cbn [length Nat.ltb Nat.leb] in Hwrite.
  apply bind_Ok in Hwrite as ([] & w9 & _ & Hwrite).
  apply bind_Ok in Hwrite as (rows & w10 & Hrows & Hwrite).
  apply bind_Ok in Hwrite as (n & w11 & Hmany & _).
  pose proof (new_rows_createdBy _ _ _ _ _ _ _ Hrows) as Hauthor.
  apply new_rows_Ok in Hrows as [Hids _].
  destruct (createMany_needs_createdBy _ _ _ _ _ Hmany Hauthor) as [s Hs].
  { intros ->. done. }
  unfold js_or in Hs. rewrite Hby, Hold in Hs. done.
Qed.

(** C10: updateResource with an explicitly empty phases list does not
    clear the phase set: the associations of the resource (of every
    resource) are after the call what they were before it, whether the call
    returns or throws. *)
Theorem updateResource_empty_phases_keeps_set
    (id : string) (data : ResourceService.Patch) (w : World) :
  ResourceService.patch_phases data = Some [] →
  resourcePhases (db (ResourceService.updateResource id data w).2)
  = resourcePhases (db w)
  ∧ attached (db (ResourceService.updateResource id data w).2) id
    = attached (db w) id.
Proof.
  intros Hphases.
  assert (resourcePhases (db (ResourceService.updateResource id data w).2)
          = resourcePhases (db w)) as Heq.
  { destruct (ResourceService.updateResource id data w) as [[out|e] w'] eqn:Hrun; simpl.
    - apply updateResource_ok_post in Hrun as (rows & Hp & _ & Hins).
      rewrite Hphases in Hp, Hins. simpl in Hp, Hins.
      apply fmap_nil_inv in Hp as ->. simpl in Hins. congruence.
    - apply updateResource_fails_clean in Hrun. by rewrite Hrun. }
  split; [done|]. unfold attached. by rewrite Heq.
Qed.

(** * Adding phases to a resource *)

Lemma lookup_phases_cons p ids w :
  ResourceDependencyService.lookup_phases (p :: ids) w =
  match phases (db w) !! p with
  | None => (Err NotFoundError, log (Query TPhase OpFindUnique) w)
  | Some ph =>
      match ResourceDependencyService.lookup_phases ids (log (Query TPhase OpFindUnique) w) with
      | (Ok ps, w') => (Ok (ph :: ps), w')
      | (Err e, w') => (Err e, w')
      end
  end.
Proof.
  unfold ResourceDependencyService.lookup_phases. cbn [mapM]. rewrite !bind_run.
  unfold prisma.phase.findUnique at 1, store_read at 1.
  destruct (phases (db w) !! p); reflexivity.
Qed.

Lemma lookup_phases_run ids w :
  ∃ w', db w' = db w
        ∧ if phases_exist (db w) ids
          then ∃ ps, ResourceDependencyService.lookup_phases ids w = (Ok ps, w')
          else ResourceDependencyService.lookup_phases ids w = (Err NotFoundError, w').
Proof.
  revert w. induction ids as [|p ids IH]; intros w.
  - exists w. split; [done|]. by exists [].
  - rewrite lookup_phases_cons. unfold phases_exist. cbn [forallb].
    destruct (phases (db w) !! p) as [ph|] eqn:Hp.
    + destruct (IH (log (Query TPhase OpFindUnique) w)) as (w' & Hdb & Hrun).
      exists w'. split; [done|].
      rewrite bool_decide_eq_true_2 by done. cbn [andb].
      change (db (log (Query TPhase OpFindUnique) w)) with (db w) in Hrun.
      unfold phases_exist in Hrun. destruct (forallb _ ids).
      * destruct Hrun as [ps ->]. by exists (ph :: ps).
      * by rewrite Hrun.
    + eexists. split; [|rewrite bool_decide_eq_false_2 by (by intros [? ?]); done].
      done.
Qed.

(** C3 (amended): when resource R is attached to phase A and the request
    list contains A, createResourcePhases fails and attaches nothing: with
    ConflictError when every requested phase id exists, with NotFoundError
    when some requested phase id does not (the existence of the phases is
    checked before the duplicates). In both cases the tables are unchanged,
    so the phases of R are those of before the call. *)
Theorem createResourcePhases_all_or_nothing
    (resourceId a : string) (r : Resource) (phaseIds : list string)
    (userId : jsval) (w : World) :
  resources (db w) !! resourceId = Some r →
  a ∈ attached (db w) resourceId →
  a ∈ phaseIds →
  ∃ w',
    ResourceDependencyService.createResourcePhases resourceId (Some phaseIds) userId w
    = (Err (if phases_exist (db w) phaseIds then ConflictError else NotFoundError), w')
    ∧ db w' = db w
    ∧ attached (db w') resourceId = attached (db w) resourceId.
Proof.
  intros Hres Hattached Hin.
  cut (∃ w', ResourceDependencyService.createResourcePhases resourceId (Some phaseIds) userId w
             = (Err (if phases_exist (db w) phaseIds then ConflictError else NotFoundError), w')).
  { intros [w' Hrun]. exists w'. split; [done|].
    apply createResourcePhases_fails_clean in Hrun as Hdb. by rewrite Hdb. }
  unfold ResourceDependencyService.createResourcePhases.
  destruct phaseIds as [|p0 ids]; [by apply elem_of_nil in Hin|].
  cbn [ResourceDependencyService.no_phases default from_option id]. rewrite bind_run.
  unfold prisma.resource.findUniqueInclude, store_read. rewrite Hres. cbn [mbind option_bind].
  rewrite bind_run.
  destruct (lookup_phases_run (p0 :: ids) (log (Query TResource OpFindUnique) w))
    as (w1 & Hw1 & Hlookup).
  change (db (log (Query TResource OpFindUnique) w)) with (db w) in Hlookup, Hw1.
  destruct (phases_exist (db w) (p0 :: ids)); [|rewrite Hlookup; eauto].
  destruct Hlookup as [ps ->]. rewrite bind_run.
  unfold prisma.resourcePhase.findMany, store_read.
  assert ((0 <? length (find_many (rp_in resourceId (p0 :: ids)) (resourcePhases (db w1))))%nat
          = true) as ->; [|eauto].
  apply count_rows_pos. rewrite Hw1.
  apply elem_of_attached in Hattached as (i & rp & Hi & Hr & Ha).
  exists i, rp. split; [done|]. unfold rp_in.
  rewrite !bool_decide_eq_true_2; [done|by rewrite Ha|done].
Qed.

(** * Roles *)

Lemma getRole_run id w :
  RoleService.getRole id w =
  (match roles (db w) !! id with
   | None => Err NotFoundError
   | Some role => Ok role
   end, log (Query TRole OpFindUnique) w).
Proof.
  unfold RoleService.getRole. rewrite bind_run.
  unfold prisma.role.findUnique, store_read.
  destruct (roles (db w) !! id); reflexivity.
Qed.

Lemma resource_matches_role id r :
  resource_matches (mkResourceWhere (Some id) None None None) r
  = bool_decide (res_roleId r = id).
Proof. unfold resource_matches. simpl. by rewrite !andb_true_r. Qed.

(** C6: deleteRole first checks that the role exists (NotFoundError
    otherwise); it then fails with ConflictError, leaving the role and
    everything else in place, whenever some Resource row references the
    role, and removes the role and succeeds once no Resource references
    it. *)
Theorem deleteRole_blocked_while_referenced (id : string) (w : World) :
  (roles (db w) !! id = None →
   ∃ w', RoleService.deleteRole id w = (Err NotFoundError, w') ∧ db w' = db w)
  ∧ (is_Some (roles (db w) !! id) → role_referenced (db w) id →
     ∃ w', RoleService.deleteRole id w = (Err ConflictError, w') ∧ db w' = db w)
  ∧ (is_Some (roles (db w) !! id) → ¬ role_referenced (db w) id →
     ∃ w', RoleService.deleteRole id w = (Ok tt, w')
           ∧ roles (db w') = delete id (roles (db w))
           ∧ phases (db w') = phases (db w)
           ∧ resources (db w') = resources (db w)
           ∧ resourcePhases (db w') = resourcePhases (db w)).
Proof.
  unfold RoleService.deleteRole. rewrite bind_run, getRole_run.
  split_and!.
  - intros ->. eauto.
  - intros [role ->] Href. rewrite bind_run.
    unfold prisma.resource.count, store_read. cbn [db log].
    erewrite (proj2 (count_rows_pos _ _)); [eauto|].
    destruct Href as (i & r & Hi & Hr). exists i, r.
    by rewrite resource_matches_role, bool_decide_eq_true.
  - intros [role Hrole] Href. rewrite Hrole, bind_run.
    unfold prisma.resource.count, store_read. cbn [db log].
    assert (∀ i x, resources (db w) !! i = Some x →
                   bool_decide (res_roleId x = id) = false) as Hnone.
    { intros i x Hi. apply bool_decide_eq_false. intros Hx. apply Href.
      by exists i, x. }
    erewrite (proj2 (count_rows_zero _ _)); last first.
    { intros i x Hi. rewrite resource_matches_role. eauto. }
    unfold prisma.role.delete, store_call. cbn [db log]. rewrite Hrole.
    rewrite (proj2 (count_rows_zero _ _) Hnone). eauto 10.
Qed.

(** C7: on the role service of the migration guide, createRole followed
    by getRole on the returned id gives back the created role, equal to the
    input on name, fullAccess, selfObtainable, createdBy and updatedBy; the
    legacyId of the input is not passed to the store, so the role read back
    has none, whatever the caller supplied. *)
Theorem createRole_getRole_loses_legacyId
    (data : RoleService.Input) (w : World) (role : Role) (w' : World) :
  RoleService.createRole data w = (Ok role, w') →
  (RoleService.getRole (role_id role) w').1 = Ok role
  ∧ RoleService.name data = JStr (role_name role)
  ∧ default false (RoleService.fullAccess data) = role_fullAccess role
  ∧ default false (RoleService.selfObtainable data) = role_selfObtainable role
  ∧ RoleService.createdBy data = JStr (role_createdBy role)
  ∧ to_column (RoleService.updatedBy data) = role_updatedBy role
  ∧ role_legacyId role = None.
Proof.
  unfold RoleService.createRole. intros Hrun.
  apply bind_Ok in Hrun as (i & w1 & [= <- <-] & Hrun).
  unfold prisma.role.create in Hrun.
  apply bind_Ok in Hrun as (now & w2 & [= <- <-] & Hrun).
  unfold prisma.role.row_of in Hrun. cbn in Hrun.
  destruct (RoleService.name data) as [| |name_]; try done.
  destruct (RoleService.createdBy data) as [| |by_]; try done.
  unfold store_call in Hrun. cbn in Hrun.
  case_bool_decide; [done|].
  destruct (count_rows _ (roles (db w))); [|done]. injection Hrun as <- <-.
  rewrite getRole_run. cbn. rewrite lookup_insert_eq. done.
Qed.

(** * Which errors a call can raise *)

Section throws_only.
Context (S : error → Prop).

Lemma throws_ret {A : Type} (a : A) : throws_only S (mret a).
Proof. by intros w e w'. Qed.

Lemma throws_throw {A : Type} (e : error) : S e → throws_only S (@throw A e).
Proof. by intros He w e' w' [= <- <-]. Qed.

Lemma throws_bind {A B : Type} (m : M A) (k : A → M B) :
  throws_only S m → (∀ a, throws_only S (k a)) → throws_only S (m ≫= k).
Proof.
  intros Hm Hk w e w' [Hrun|(a & w1 & _ & Hrun)]%bind_Err.
  - by eapply Hm.
  - by eapply Hk.
Qed.

Lemma throws_store_read {A : Type} t o (f : Tables → A) :
  throws_only S (store_read t o f).
Proof. by intros w e w'. Qed.

Lemma throws_store_call {A : Type} t o (f : Tables → result (A * Tables)) :
  (∀ d e, f d = Err e → S e) → throws_only S (store_call t o f).
Proof.
  intros Hf w e w'. unfold store_call.
  destruct (f (db (log (Query t o) w))) as [[a d]|e'] eqn:E; intros [= <- <-]. eauto.
Qed.

Lemma throws_generateUUID : throws_only S generateUUID.
Proof. by intros w e w'. Qed.

Lemma throws_newDate : throws_only S newDate.
Proof. by intros w e w'. Qed.

Lemma throws_mapM {A B : Type} (f : A → M B) (l : list A) :
  (∀ a, throws_only S (f a)) → throws_only S (mapM f l).
Proof.
  intros Hf. induction l as [|a l IH]; cbn [mapM].
  - apply throws_ret.
  - apply throws_bind; [done|]. intros b.
    apply throws_bind; [done|]. intros bs. apply throws_ret.
Qed.

Lemma throws_transaction {A : Type} (body : M A) :
  throws_only S body → throws_only S (transaction body).
Proof.
  intros Hbody w e w'. unfold transaction.
  destruct (body (log TxBegin w)) as [[a|e'] w1] eqn:E; intros [= <- <-]. eauto.
Qed.
End throws_only.

Lemma insert_rows_Err rows m e :
  prisma.resourcePhase.insert_rows rows m = Err e → e = PrismaError P2002.
Proof.
  revert m. induction rows as [|rp rows IH]; intros m; cbn; [done|].
  unfold prisma.resourcePhase.insert_row.
  case_bool_decide; [by intros [= <-]|].
  destruct (0 <? _)%nat; [by intros [= <-]|]. apply IH.
Qed.

(** The errors createResource can raise: its own three kinds and the
    errors of the Prisma client. NotFoundError is not among them. *)
Lemma createResource_never_NotFound isGuid resource :
  throws_only (λ e, e ≠ NotFoundError) (ResourceService.createResource isGuid resource).
Proof.
  unfold ResourceService.createResource, ResourceService.validateResource,
    ResourceService.buildDBResource, date_or_now,
    ResourceDependencyService.new_rows, prisma.arg, prisma.role.findUnique, prisma.resource.findFirst,
    prisma.resource.findUniqueInclude, prisma.resource.create,
    prisma.resourcePhase.createMany.
  repeat first
    [ apply throws_ret | apply throws_store_read | apply throws_generateUUID
    | apply throws_newDate | apply throws_throw; done
    | apply throws_transaction
    | apply throws_bind; [|intros ?]
    | apply throws_mapM; intros ?
    | match goal with
      | |- throws_only _ (match ?x with _ => _ end) => destruct x
      | |- throws_only _ (if ?b then _ else _) => destruct b
      | |- throws_only _ (let _ := _ in _) => cbv zeta
      end ].
  all: apply throws_store_call; intros d e.
  all: repeat case_bool_decide; try by intros [= <-].
  all: destruct (prisma.resourcePhase.insert_rows _ _) as [m'|e'] eqn:Hins;
    [destruct (forallb _ _); by intros [= <-]|].
  all: apply insert_rows_Err in Hins as ->; by intros [= <-].
Qed.

(** C5: a createResource call that names a phase id which does not exist
    does not succeed and leaves the tables unchanged, but the error it
    raises is never NotFoundError: createResource looks no phase up and
    runs no dependency check, the call fails at the foreign key of the
    association rows, inside the transaction, after the resource row went
    in. *)
Theorem createResource_missing_phase_not_checked
    (isGuid : string → bool) (resource : ResourceService.Input)
    (phaseIds : list string) (p : string) (w : World) :
  ResourceService.phases resource = Some phaseIds →
  p ∈ phaseIds →
  phases (db w) !! p = None →
  ∃ e w',
    ResourceService.createResource isGuid resource w = (Err e, w')
    ∧ e ≠ NotFoundError
    ∧ db w' = db w.
Proof.
  intros Hphases Hin Hmissing.
  destruct (ResourceService.createResource isGuid resource w) as [[out|e] w'] eqn:Hrun.
  - apply createResource_ok_post in Hrun as (r & _ & _ & _ & Hall).
    rewrite Hphases in Hall. destruct (Hall p Hin) as [[ph Hph] _]. congruence.
  - exists e, w'. split_and!; [done| |].
    + by apply createResource_never_NotFound in Hrun.
    + by apply createResource_fails_clean in Hrun.
Qed.

(** * The assignment triple stays unique under createResource *)

Lemma truthy_string_column v c :
  ResourceService.truthy_string v = Some c → to_column v = Some c.
Proof. unfold ResourceService.truthy_string. by destruct (truthy v). Qed.

Lemma buildDBResource_Ok resource w x w' :
  ResourceService.buildDBResource resource w = (Ok x, w') →
  db w' = db w
  ∧ prisma.resource.data_roleId x = ResourceService.roleId resource
  ∧ prisma.resource.data_challengeId x = ResourceService.challengeId resource
  ∧ prisma.resource.data_memberId x = ResourceService.memberId resource.
Proof.
  intros Hrun. split; [by eapply preserves_buildDBResource|].
  unfold ResourceService.buildDBResource in Hrun.
  apply bind_Ok in Hrun as (c & w1 & _ & Hrun).
  apply bind_Ok in Hrun as (u & w2 & _ & [= <- _]). done.
Qed.

(** The row that goes in conflicts with no row the duplicate check let
    pass. *)
Lemma no_match_no_twin role_ cid mid (m : gmap string Resource) r i r' :
  find_first
    (resource_matches
       (mkResourceWhere (Some role_) None
          (ResourceService.truthy_string cid) (ResourceService.truthy_string mid))) m
  = None →
  res_roleId r = role_ →
  res_challengeId r = to_column cid →
  res_memberId r = to_column mid →
  m !! i = Some r' →
  triple r ≠ triple r'.
Proof.
  intros Hnone Hrole Hcid Hmid Hi [= Hr Hc Hm].
  rewrite find_first_None in Hnone. specialize (Hnone i r' Hi).
  unfold resource_matches in Hnone. cbn in Hnone.
  rewrite <- Hr, Hrole, bool_decide_eq_true_2 in Hnone by done.
  assert (where_eq_null (ResourceService.truthy_string cid) (res_challengeId r') = true)
    as Hc'.
  { unfold where_eq_null. destruct (ResourceService.truthy_string cid) as [c|] eqn:E; [|done].
    apply truthy_string_column in E. apply bool_decide_eq_true. congruence. }
  assert (where_eq_null (ResourceService.truthy_string mid) (res_memberId r') = true)
    as Hm'.
  { unfold where_eq_null. destruct (ResourceService.truthy_string mid) as [c|] eqn:E; [|done].
    apply truthy_string_column in E. apply bool_decide_eq_true. congruence. }
  rewrite Hc', Hm' in Hnone. done.
Qed.

Lemma createResource_preserves_unique_triples isGuid resource w out w' :
  unique_triples (db w) →
  ResourceService.createResource isGuid resource w = (Ok out, w') →
  unique_triples (db w').
Proof.
  intros Huniq Hrun. unfold ResourceService.createResource in Hrun.
  apply bind_Ok in Hrun as ([] & w1 & Hval & Hrun).
  apply validateResource_accepts in Hval as (-> & Hschema & _); [|done].
  apply bind_Ok in Hrun as (roleId_ & w1 & Harg & Hrun).
  destruct (ResourceService.roleId resource) as [| |s] eqn:Hrole; try done.
  injection Harg as <- <-.
  apply bind_Ok in Hrun as (role & w1 & [= <- <-] & Hrun).
  destruct (roles (db w) !! s) as [role|]; [|done].
  cbv zeta in Hrun.
  apply bind_Ok in Hrun as (existing & w1 & [= <- <-] & Hrun).
  cbn [db log] in Hrun.
  destruct (find_first _ _) as [|] eqn:Hnone in Hrun; [done|].
  apply bind_Ok in Hrun as (x & w1 & Hbuild & Hrun).
  apply bind_Ok in Hrun as (x' & w2 & Hid & Hrun).
  apply bind_Ok in Hrun as (result & w3 & Htx & [= <- <-]).
  apply buildDBResource_Ok in Hbuild as (Hw1 & Hxr & Hxc & Hxm). cbn [db log] in Hw1.
  assert (db w2 = db w
          ∧ prisma.resource.data_roleId x' = JStr s
          ∧ prisma.resource.data_challengeId x' = ResourceService.challengeId resource
          ∧ prisma.resource.data_memberId x' = ResourceService.memberId resource)
    as (Hw2 & Hxr' & Hxc' & Hxm').
  { destruct (negb _).
    - apply bind_Ok in Hid as (i & w1' & [= <- <-] & [= <- <-]). cbn.
      by rewrite Hw1, Hxr, Hxc, Hxm, Hrole.
    - injection Hid as <- <-. by rewrite Hw1, Hxr, Hxc, Hxm, Hrole. }
  apply transaction_Ok in Htx as (w4 & Hbody & ->).
  apply bind_Ok in Hbody as (row & w5 & Hcreate & Hbody).
  apply bind_Ok in Hbody as ([] & w6 & Hphases & Hfind).
  apply resource_create_Ok in Hcreate as (Hrow & Hfresh & _ & Hw5).
  cbn [db log] in Hfresh, Hw5.
  apply write_phases_Ok in Hphases as (rows & m' & _ & _ & _ & _ & Hw6).
  apply preserves_findUniqueInclude in Hfind as ->.
  apply row_of_resource_data in Hrow as (_ & Hr & Hc & Hm).
  assert (res_roleId row = s) as Hr' by congruence.
  rewrite Hxc' in Hc. rewrite Hxm' in Hm.
  rewrite Hw6, Hw5, Hw2 in *. clear Hw6 Hw5 Hw2.
  intros i j r1 r2 Hi Hj Ht. cbn in Hi, Hj.
  destruct (decide (res_id row = i)) as [<-|Hni], (decide (res_id row = j)) as [<-|Hnj].
  - done.
  - rewrite lookup_insert_eq in Hi. rewrite lookup_insert_ne in Hj by done.
    injection Hi as <-. exfalso.
    by eapply (no_match_no_twin _ _ _ _ row j r2 Hnone).
  - rewrite lookup_insert_eq in Hj. rewrite lookup_insert_ne in Hi by done.
    injection Hj as <-. exfalso. symmetry in Ht.
    by eapply (no_match_no_twin _ _ _ _ row i r1 Hnone).
  - rewrite lookup_insert_ne in Hi, Hj by done. by eapply Huniq.
Qed.

Lemma createResource_keeps_unique_triples isGuid resource w :
  unique_triples (db w) →
  unique_triples (db (ResourceService.createResource isGuid resource w).2).
Proof.
  intros Huniq.
  destruct (ResourceService.createResource isGuid resource w) as [[out|e] w'] eqn:Hrun.
  - by eapply createResource_preserves_unique_triples.
  - apply createResource_fails_clean in Hrun. cbn. by rewrite Hrun.
Qed.

(** * The worked store, call by call *)

(** Creating a resource with one phase: the first call succeeds with the
    phase attached, the same request again is a conflict. *)
Example create_then_duplicate :
  let first := ResourceService.createResource Scenario.canonical_guid
                 (Scenario.request (JStr "C1") JUndefined (Some [Scenario.P1]))
                 Scenario.reference in
  succeeded first.1 = true
  ∧ elements (attached (db first.2) "generated") = [Scenario.P1]
  ∧ (ResourceService.createResource Scenario.canonical_guid
       (Scenario.request (JStr "C1") JUndefined (Some [Scenario.P1])) first.2).1
    = Err ConflictError.
Proof. vm_compute. done. Qed.

(** A phase listed twice: the resource row goes in, the second association
    breaks the composite unique pair, and the transaction takes the
    resource row back out. *)
Example create_with_repeated_phase_rolls_back :
  let run := ResourceService.createResource Scenario.canonical_guid
               (Scenario.request (JStr "C1") JUndefined (Some [Scenario.P1; Scenario.P1]))
               Scenario.reference in
  run.1 = Err (PrismaError P2002)
  ∧ db run.2 = db Scenario.reference
  ∧ trace run.2 = [TxRollback; Query TResourcePhase OpCreateMany;
                   Query TResource OpCreate; TxBegin;
                   Query TResource OpFindFirst; Query TRole OpFindUnique].
Proof. vm_compute. done. Qed.

(** The failing call of C5, step by step: no query on Phase, the resource
    row is written, the associations hit the foreign key, the transaction
    rolls back, and the caller sees the error of the store. *)
Example create_with_missing_phase_run :
  let run := ResourceService.createResource Scenario.canonical_guid
               (Scenario.request (JStr "C1") JUndefined (Some [Scenario.P9]))
               Scenario.reference in
  run.1 = Err (PrismaError P2003)
  ∧ trace run.2 = [TxRollback; Query TResourcePhase OpCreateMany;
                   Query TResource OpCreate; TxBegin;
                   Query TResource OpFindFirst; Query TRole OpFindUnique].
Proof. vm_compute. done. Qed.

Lemma createResource_missing_phase_witness :
  ∃ e w',
    ResourceService.createResource Scenario.canonical_guid
      (Scenario.request (JStr "C1") JUndefined (Some [Scenario.P9])) Scenario.reference
    = (Err e, w')
    ∧ e ≠ NotFoundError
    ∧ db w' = db Scenario.reference.
Proof.
  apply (createResource_missing_phase_not_checked _ _ [Scenario.P9] Scenario.P9).
  - reflexivity.
  - apply list_elem_of_here.
  - vm_compute. reflexivity.
Defined.

(** C2: the triple does not stay unique under updateResource. After two
    assignments of member M1 in role R1, one without a challenge and one in
    challenge C1 (a store with unique triples), the patch
    [{ challengeId: null }] on the second is accepted: no truthy key is in
    the patch, so the duplicate check is skipped, while the update writes
    the null. Two rows then carry the triple (R1, null, M1). *)
Theorem updateResource_breaks_unique_triples :
  unique_triples (db Scenario.two_assignments)
  ∧ ∃ out w',
      ResourceService.updateResource "generated+" Scenario.patch_clear_challenge
        Scenario.two_assignments = (Ok out, w')
      ∧ ¬ unique_triples (db w').
Proof.
  split.
  - unfold Scenario.two_assignments.
    do 2 apply createResource_keeps_unique_triples.
    intros i j r1 r2 Hi. cbn in Hi. by rewrite lookup_empty in Hi.
  - eexists _, _. split; [vm_compute; reflexivity|].
    intros Huniq. cut ("generated" = "generated+"); [done|].
    eapply Huniq; [vm_compute; reflexivity..|]. vm_compute. reflexivity.
Qed.

Lemma createResourcePhases_all_or_nothing_witness :
  ∃ w',
    ResourceDependencyService.createResourcePhases "res-1"
      (Some [Scenario.P2; Scenario.P1]) (JStr "u1") Scenario.assigned
    = (Err ConflictError, w')
    ∧ db w' = db Scenario.assigned
    ∧ attached (db w') "res-1" = attached (db Scenario.assigned) "res-1".
Proof.
  apply (createResourcePhases_all_or_nothing "res-1" Scenario.P1 Scenario.assigned_row
           [Scenario.P2; Scenario.P1] (JStr "u1") Scenario.assigned).
  - vm_compute. reflexivity.
  - apply elem_of_attached. eexists "rp-1", _. split_and!; vm_compute; reflexivity.
  - apply list_elem_of_further, list_elem_of_here.
Defined.

(** C3, as stated, fails: the resource is attached to Registration and the
    request lists Registration after the id of no phase; the call fails
    with NotFoundError, not ConflictError. *)
Lemma createResourcePhases_duplicate_after_missing_phase :
  resources (db Scenario.assigned) !! "res-1" = Some Scenario.assigned_row
  ∧ Scenario.P1 ∈ attached (db Scenario.assigned) "res-1"
  ∧ Scenario.P1 ∈ [Scenario.P9; Scenario.P1]
  ∧ (ResourceDependencyService.createResourcePhases "res-1"
       (Some [Scenario.P9; Scenario.P1]) (JStr "u1") Scenario.assigned).1
    = Err NotFoundError
  ∧ (ResourceDependencyService.createResourcePhases "res-1"
       (Some [Scenario.P9; Scenario.P1]) (JStr "u1") Scenario.assigned).1
    ≠ Err ConflictError.
Proof.
  split_and!.
  - vm_compute. reflexivity.
  - apply elem_of_attached. eexists "rp-1", _. split_and!; vm_compute; reflexivity.
  - apply list_elem_of_further, list_elem_of_here.
  - vm_compute. reflexivity.
  - vm_compute. discriminate.
Qed.

Lemma updateResource_replaces_phases_witness :
  let run := ResourceService.updateResource "res-1"
               (Scenario.patch_phases_only [Scenario.P2; Scenario.P3]) Scenario.assigned in
  elements (attached (db Scenario.assigned) "res-1") = [Scenario.P1]
  ∧ succeeded run.1 = true
  ∧ attached (db run.2) "res-1" = list_to_set [Scenario.P2; Scenario.P3].
Proof.
  cbv zeta. split_and!; [vm_compute; reflexivity..|].
  assert (succeeded (ResourceService.updateResource "res-1"
            (Scenario.patch_phases_only [Scenario.P2; Scenario.P3]) Scenario.assigned).1 = true)
    as Hok by (vm_compute; reflexivity).
  pose proof (updateResource_replaces_phases "res-1"
                (Scenario.patch_phases_only [Scenario.P2; Scenario.P3])
                [Scenario.P2; Scenario.P3] Scenario.assigned eq_refl
                ltac:(discriminate)) as Hspec.
  destruct (ResourceService.updateResource "res-1" _ Scenario.assigned) as [[out|e] w'].
  - exact Hspec.
  - discriminate Hok.
Defined.

Lemma updateResource_phases_need_updatedBy_witness :
  elements (attached (db Scenario.created) "generated") = [Scenario.P1]
  ∧ (ResourceService.updateResource "generated"
       (Scenario.patch_phases_only [Scenario.P2; Scenario.P3]) Scenario.created).1
    = Err (PrismaError PInvalid)
  ∧ ∃ e w',
      ResourceService.updateResource "generated"
        (Scenario.patch_phases_only [Scenario.P2; Scenario.P3]) Scenario.created
      = (Err e, w')
      ∧ db w' = db Scenario.created
      ∧ attached (db w') "generated" = attached (db Scenario.created) "generated".
Proof.
  split; [vm_compute; reflexivity|].
  split; [vm_compute; reflexivity|].
  apply (updateResource_phases_need_updatedBy "generated"
           (Scenario.patch_phases_only [Scenario.P2; Scenario.P3])
           [Scenario.P2; Scenario.P3] Scenario.created).
  - vm_compute. reflexivity.
  - reflexivity.
  - reflexivity.
  - discriminate.
Defined.

Lemma updateResource_empty_phases_keeps_set_witness :
  let run := ResourceService.updateResource "res-1"
               (Scenario.patch_phases_only []) Scenario.assigned in
  elements (attached (db Scenario.assigned) "res-1") = [Scenario.P1]
  ∧ succeeded run.1 = true
  ∧ attached (db run.2) "res-1" = attached (db Scenario.assigned) "res-1".
Proof.
  cbv zeta. split_and!; [vm_compute; reflexivity..|].
  apply (updateResource_empty_phases_keeps_set "res-1"
           (Scenario.patch_phases_only []) Scenario.assigned eq_refl).
Defined.

Lemma deleteRole_blocked_while_referenced_witness :
  (∃ w', RoleService.deleteRole Scenario.R1 Scenario.empty = (Err NotFoundError, w')
         ∧ db w' = db Scenario.empty)
  ∧ (∃ w', RoleService.deleteRole Scenario.R1 Scenario.assigned = (Err ConflictError, w')
           ∧ db w' = db Scenario.assigned)
  ∧ (∃ w', RoleService.deleteRole Scenario.R1 Scenario.reference = (Ok tt, w')
           ∧ roles (db w') = delete Scenario.R1 (roles (db Scenario.reference))).
Proof.
  split_and!.
  - apply (deleteRole_blocked_while_referenced Scenario.R1 Scenario.empty).
    vm_compute. reflexivity.
  - apply (deleteRole_blocked_while_referenced Scenario.R1 Scenario.assigned).
    + exists Scenario.submitter. vm_compute. reflexivity.
    + exists "res-1", Scenario.assigned_row. split; vm_compute; reflexivity.
  - destruct (deleteRole_blocked_while_referenced Scenario.R1 Scenario.reference)
      as (_ & _ & Hfree).
    destruct Hfree as (w' & Hrun & Hroles & _).
    + exists Scenario.submitter. vm_compute. reflexivity.
    + intros (i & r & Hi & _). cbn in Hi. by rewrite lookup_empty in Hi.
    + by exists w'.
Defined.

Lemma createRole_getRole_loses_legacyId_witness :
  RoleService.legacyId Scenario.role_request = JStr "L1"
  ∧ ∃ role w',
      RoleService.createRole Scenario.role_request Scenario.empty = (Ok role, w')
      ∧ (RoleService.getRole (role_id role) w').1 = Ok role
      ∧ role_name role = "Submitter"
      ∧ role_legacyId role = None.
Proof.
  split; [reflexivity|].
  assert (succeeded (RoleService.createRole Scenario.role_request Scenario.empty).1 = true)
    as Hok by (vm_compute; reflexivity).
  destruct (RoleService.createRole Scenario.role_request Scenario.empty)
    as [[role|e] w'] eqn:Hrun; [|discriminate Hok].
  exists role, w'.
  destruct (createRole_getRole_loses_legacyId _ _ _ _ Hrun)
    as (Hget & Hname & _ & _ & _ & _ & Hlegacy).
  split_and!; [done..| |done]. cbn in Hname. congruence.
Defined.

Lemma createResource_validates_before_store_witness :
  ResourceService.createResource Scenario.canonical_guid
    (Scenario.request JUndefined JNull (Some [Scenario.P1])) Scenario.assigned
  = (Err ValidationError, Scenario.assigned).
Proof.
  apply createResource_validates_before_store. left. split; reflexivity.
Defined.

Lemma ensureRolePhasesDependency_skips_empty_witness :
  ResourceDependencyService.ensureRolePhasesDependency "no-such-role" None Scenario.reference
  = (Ok tt, Scenario.reference)
  ∧ ResourceDependencyService.ensureRolePhasesDependency "no-such-role"
      (Some [Scenario.P1]) Scenario.reference
    = (Err NotFoundError, log (Query TRole OpFindUnique) Scenario.reference).
Proof.
  destruct (ensureRolePhasesDependency_skips_empty "no-such-role" Scenario.reference)
    as (Habsent & _ & Hlist).
  split; [exact Habsent|]. apply Hlist. vm_compute. reflexivity.
Defined.

(** * The full role service keeps what the guide's createRole drops *)

(** X17: the createRole of the full role service stores the legacyId of
    the request, and getRole on the id of the role it returns reads the
    same role back. *)
Lemma full_createRole_keeps_legacyId isGuid role w out w' :
  ResourceRoleService.createRole isGuid role w = (Ok out, w') →
  ∃ r, out = Some r
       ∧ role_legacyId r = to_column (ResourceRoleService.legacyId role)
       ∧ (ResourceRoleService.getRole (role_id r) w').1 = Ok (Some r).
Proof.
  unfold ResourceRoleService.createRole. intros Hrun.
  apply bind_Ok in Hrun as ([] & w1 & _ & Hrun).
  apply bind_Ok in Hrun as (name_ & w2 & _ & Hrun).
  apply bind_Ok in Hrun as (existing & w3 & _ & Hrun).
  destruct existing; [done|].
  apply bind_Ok in Hrun as (x & w4 & Hbuild & Hrun).
  apply bind_Ok in Hrun as (x' & w5 & Hid & Hrun).
  apply bind_Ok in Hrun as (r & w6 & Hcreate & [= <- <-]).
  exists r. split; [done|].
  assert (prisma.role.data_legacyId x = ResourceRoleService.legacyId role) as Hx.
  { unfold ResourceRoleService.buildDBRole in Hbuild.
    apply bind_Ok in Hbuild as (c & ? & _ & Hbuild).
    by apply bind_Ok in Hbuild as (u & ? & _ & [= <- _]). }
  assert (prisma.role.data_legacyId x' = ResourceRoleService.legacyId role) as Hx'.
  { destruct (negb _).
    - by apply bind_Ok in Hid as (i & ? & _ & [= <- _]).
    - by injection Hid as <- _. }
  unfold prisma.role.create in Hcreate.
  apply bind_Ok in Hcreate as (now & w7 & [= <- <-] & Hcreate).
  destruct (prisma.role.row_of (clock w5) x') as [r'|] eqn:Hrow; [|done].
  unfold store_call in Hcreate. cbn [db log] in Hcreate.
  case_bool_decide; [done|].
  destruct (0 <? _)%nat; [done|]. injection Hcreate as <- <-.
  unfold prisma.role.row_of in Hrow.
  destruct (prisma.role.data_id x') as [| |i]; try done.
  destruct (prisma.role.data_name x') as [| |n]; try done.
  destruct (prisma.role.data_createdBy x') as [| |by_]; try done.
  injection Hrow as <-. cbn [role_legacyId role_id].
  split; [by rewrite Hx'|].
  unfold ResourceRoleService.getRole. rewrite bind_run.
  unfold prisma.role.findUnique, store_read. cbn. by rewrite lookup_insert_eq.
Qed.

Example full_createRole_round_trip :
  match (ResourceRoleService.createRole Scenario.canonical_guid
           Scenario.full_role_request Scenario.empty).1 with
  | Ok (Some r) => role_legacyId r = Some "L1"
  | _ => False
  end.
Proof. vm_compute. reflexivity. Qed.

(** * The store stays consistent *)

Lemma keeps_pure {A : Type} (I : Tables → Prop) (m : M A) :
  preserves_db m → keeps I m.
Proof. intros Hm w r w' HI Hrun. by rewrite (Hm _ _ _ Hrun). Qed.

Lemma keeps_bind {A B : Type} (I : Tables → Prop) (m : M A) (k : A → M B) :
  keeps I m → (∀ a, keeps I (k a)) → keeps I (m ≫= k).
Proof.
  intros Hm Hk w r w' HI. rewrite bind_run.
  destruct (m w) as [[a|e] w1] eqn:E; intros Hrun.
  - eapply Hk; [|exact Hrun]. by eapply Hm.
  - simplify_eq. by eapply Hm.
Qed.

Lemma keeps_transaction {A : Type} (I : Tables → Prop) (body : M A) :
  keeps I body → keeps I (transaction body).
Proof.
  intros Hbody w r w' HI. unfold transaction.
  destruct (body (log TxBegin w)) as [[a|e] w1] eqn:E; intros [= <- <-]; [|done].
  exact (Hbody (log TxBegin w) _ _ HI E).
Qed.

Lemma keeps_store_call {A : Type} (I : Tables → Prop) t o
    (f : Tables → result (A * Tables)) :
  (∀ d a d', I d → f d = Ok (a, d') → I d') → keeps I (store_call t o f).
Proof.
  intros Hf w r w' HI. unfold store_call. cbn [db log].
  destruct (f (db w)) as [[a d']|e] eqn:E; intros [= <- <-]; [|done].
  by eapply Hf.
Qed.

(** Fewer associations, everything else the same. *)
Lemma consistent_fewer_associations d (m : gmap string ResourcePhase) :
  consistent d →
  (∀ i rp, m !! i = Some rp → resourcePhases d !! i = Some rp) →
  consistent (with_resourcePhases m d).
Proof.
  intros [] Hsub. constructor; cbn; eauto.
Qed.

Lemma consistent_role_create d r :
  consistent d →
  roles d !! role_id r = None →
  (∀ i o, roles d !! i = Some o → role_name o ≠ role_name r) →
  consistent (with_roles (<[role_id r := r]> (roles d)) d).
Proof.
  intros [] Hfresh Hname. constructor; cbn; eauto.
  - intros i o. rewrite lookup_insert. case_decide; intros; simplify_eq; eauto.
  - intros i o Hi. rewrite lookup_insert_is_Some. destruct (decide (role_id r = res_roleId o)); eauto.
  - intros i j a b. rewrite !lookup_insert.
    repeat case_decide; intros; simplify_eq; eauto.
    + by edestruct Hname.
    + edestruct Hname; eauto.
Qed.

Lemma consistent_role_update d id r r' :
  consistent d →
  roles d !! id = Some r →
  role_id r' = role_id r →
  (∀ i o, roles d !! i = Some o → i ≠ id → role_name o ≠ role_name r') →
  consistent (with_roles (<[id := r']> (roles d)) d).
Proof.
  intros [] Hr Hid Hname. constructor; cbn; eauto.
  - intros i o. rewrite lookup_insert. case_decide; intros; simplify_eq; eauto.
    rewrite Hid. eauto.
  - intros i o Hi. rewrite lookup_insert_is_Some. destruct (decide (id = res_roleId o)); eauto.
  - intros i j a b. rewrite !lookup_insert.
    repeat case_decide; intros; simplify_eq; eauto.
    + by edestruct Hname.
    + edestruct Hname; eauto.
Qed.

Lemma consistent_role_delete d id :
  consistent d →
  (∀ i r, resources d !! i = Some r → res_roleId r ≠ id) →
  consistent (with_roles (delete id (roles d)) d).
Proof.
  intros [] Hfree. constructor; cbn; eauto.
  - intros i o [_ ?]%lookup_delete_Some. eauto.
  - intros i o Hi. rewrite lookup_delete_ne by (intros ->; by eapply Hfree). eauto.
  - intros i j a b [_ ?]%lookup_delete_Some [_ ?]%lookup_delete_Some. eauto.
Qed.

Lemma consistent_resource_insert d i r :
  consistent d →
  res_id r = i →
  is_Some (roles d !! res_roleId r) →
  consistent (with_resources (<[i := r]> (resources d)) d).
Proof.
  intros [] Hid Hrole. constructor; cbn; eauto.
  - intros j o. rewrite lookup_insert. case_decide; intros; simplify_eq; eauto.
  - intros j o. rewrite lookup_insert. case_decide; intros; simplify_eq; eauto.
  - intros j rp Hj. rewrite lookup_insert_is_Some.
    destruct (decide (i = rp_resourceId rp)); [by left|right; eauto].
Qed.

Lemma consistent_resource_delete d id :
  consistent d →
  consistent (mkTables (roles d) (phases d) (delete id (resources d))
                (delete_many (rp_of_resource id) (resourcePhases d))).
Proof.
  intros []. 
  assert (∀ i rp, delete_many (rp_of_resource id) (resourcePhases d) !! i = Some rp →
                  resourcePhases d !! i = Some rp ∧ rp_resourceId rp ≠ id) as Hkept.
  { intros i rp. rewrite lookup_delete_many.
    destruct (resourcePhases d !! i) as [x|]; cbn; [|done].
    unfold rp_of_resource. case_bool_decide; intros; simplify_eq. done. }
  constructor; cbn; eauto.
  - intros i o [_ ?]%lookup_delete_Some. eauto.
  - intros i rp [? _]%Hkept. eauto.
  - intros i o [_ ?]%lookup_delete_Some. eauto.
  - intros i rp [? ?]%Hkept. rewrite lookup_delete_ne by done. eauto.
  - intros i rp [? _]%Hkept. eauto.
  - intros i j a b [? _]%Hkept [? _]%Hkept. eauto.
Qed.

(** An INSERT that went through: ids still match, pairs still occur once. *)
Lemma insert_rows_once rows m m' :
  prisma.resourcePhase.insert_rows rows m = Ok m' →
  (∀ i rp, m !! i = Some rp → rp_id rp = i) →
  (∀ i j a b, m !! i = Some a → m !! j = Some b →
              rp_resourceId a = rp_resourceId b → rp_phaseId a = rp_phaseId b → i = j) →
  (∀ i rp, m' !! i = Some rp → rp_id rp = i)
  ∧ (∀ i j a b, m' !! i = Some a → m' !! j = Some b →
                rp_resourceId a = rp_resourceId b → rp_phaseId a = rp_phaseId b → i = j).
Proof.
  revert m. induction rows as [|x rows IH]; cbn; intros m Hins Hkeys Honce.
  - by simplify_eq.
  - destruct (prisma.resourcePhase.insert_row x m) as [m1|] eqn:Hrow; [|done].
    apply (IH m1 Hins); clear IH Hins.
    + apply insert_row_Ok in Hrow as [_ ->].
      intros i rp. rewrite lookup_insert. case_decide; intros; simplify_eq; eauto.
    + unfold prisma.resourcePhase.insert_row in Hrow.
      case_bool_decide; [done|].
      destruct (0 <? _)%nat eqn:Hcount; [done|]. simplify_eq.
      rewrite count_rows_zero in Hcount.
      assert (∀ i rp, m !! i = Some rp → rp_resourceId rp = rp_resourceId x →
                      rp_phaseId rp = rp_phaseId x → False) as Hnew.
      { intros i rp Hi Hr Hp. specialize (Hcount i rp Hi). unfold rp_pair in Hcount.
        by rewrite !bool_decide_eq_true_2 in Hcount. }
      intros i j a b. rewrite !lookup_insert.
      repeat case_decide; intros; simplify_eq; eauto.
      * exfalso. eapply Hnew; eauto.
      * exfalso. eapply Hnew; eauto.
Qed.

Lemma consistent_createMany d rows m' :
  consistent d →
  prisma.resourcePhase.insert_rows rows (resourcePhases d) = Ok m' →
  forallb (prisma.resourcePhase.references_ok d) rows = true →
  consistent (with_resourcePhases m' d).
Proof.
  intros Hd Hins Hrefs. pose proof Hd as [].
  destruct (insert_rows_once _ _ _ Hins) as [Hkeys Honce]; [done..|].
  assert (∀ i rp, m' !! i = Some rp →
                  is_Some (resources d !! rp_resourceId rp)
                  ∧ is_Some (phases d !! rp_phaseId rp)) as Hfk.
  { intros i rp [Hold|[Hin _]]%(insert_rows_Ok _ _ _ Hins); [eauto|].
    rewrite forallb_forall in Hrefs. apply list_elem_of_In, Hrefs in Hin.
    apply andb_prop in Hin as [H1 H2].
    by apply bool_decide_eq_true in H1, H2. }
  constructor; cbn; eauto.
  - intros i rp Hi. by apply Hfk in Hi as [? _].
  - intros i rp Hi. by apply Hfk in Hi as [_ ?].
Qed.

Lemma keeps_role_create x : keeps consistent (prisma.role.create x).
Proof.
  unfold prisma.role.create. apply keeps_bind; [apply keeps_pure; pure_steps|].
  intros now. destruct (prisma.role.row_of now x) as [r|];
    [|apply keeps_pure; pure_steps].
  apply keeps_store_call. intros d a d' Hd.
  case_bool_decide as Hfresh; [done|].
  destruct (0 <? _)%nat eqn:Hcount; [done|]. intros [= <- <-].
  rewrite count_rows_zero in Hcount.
  apply consistent_role_create; [done|by apply eq_None_not_Some|].
  intros i o Hi Hname. specialize (Hcount i o Hi).
  by rewrite bool_decide_eq_true_2 in Hcount.
Qed.

Lemma keeps_role_update id x : keeps consistent (prisma.role.update id x).
Proof.
  unfold prisma.role.update. apply keeps_bind; [apply keeps_pure; pure_steps|].
  intros now. destruct (negb _); [apply keeps_pure; pure_steps|].
  apply keeps_store_call. intros d a d' Hd.
  destruct (roles d !! id) as [old|] eqn:Hr; [|done]. cbv zeta.
  destruct (0 <? _)%nat eqn:Hcount; [done|]. intros [= <- <-].
  rewrite count_rows_zero in Hcount.
  eapply consistent_role_update; [done|exact Hr|done|].
  intros i o Hi Hne Hname. specialize (Hcount i o Hi).
  rewrite bool_decide_eq_true_2 in Hcount by done.
  rewrite bool_decide_eq_false_2 in Hcount; [done|].
  rewrite (role_keys _ Hd _ _ Hi), (role_keys _ Hd _ _ Hr). done.
Qed.

Lemma keeps_role_delete id : keeps consistent (prisma.role.delete id).
Proof.
  apply keeps_store_call. intros d a d' Hd.
  destruct (roles d !! id); [|done].
  destruct (0 <? _)%nat eqn:Hcount; [done|]. intros [= _ <-].
  rewrite count_rows_zero in Hcount.
  apply consistent_role_delete; [done|].
  intros i o Hi Hrole. specialize (Hcount i o Hi).
  by rewrite bool_decide_eq_true_2 in Hcount.
Qed.

Lemma keeps_resource_create x : keeps consistent (prisma.resource.create x).
Proof.
  unfold prisma.resource.create.
  destruct (prisma.resource.row_of x) as [r|]; [|apply keeps_pure; pure_steps].
  apply keeps_store_call. intros d a d' Hd.
  case_bool_decide; [done|]. case_bool_decide; [|done]. intros [= <- <-].
  by apply consistent_resource_insert.
Qed.

Lemma keeps_resource_update id f :
  (∀ r, res_id (f r) = res_id r) → keeps consistent (prisma.resource.update id f).
Proof.
  intros Hf. apply keeps_store_call. intros d a d' Hd.
  destruct (resources d !! id) as [r|] eqn:Hr; [|done]. cbv zeta.
  destruct (_ || _) eqn:Hrole; [|done]. intros [= <- <-].
  apply consistent_resource_insert; [done| |].
  - rewrite Hf. by eapply resource_keys.
  - apply orb_prop in Hrole as [Hsame|Hsome].
    + apply bool_decide_eq_true in Hsame. rewrite Hsame.
      by eapply resource_has_role.
    + by apply bool_decide_eq_true in Hsome.
Qed.

Lemma keeps_resource_delete id : keeps consistent (prisma.resource.delete id).
Proof.
  apply keeps_store_call. intros d a d' Hd.
  destruct (resources d !! id); [|done]. intros [= _ <-].
  by apply consistent_resource_delete.
Qed.

Lemma keeps_createMany data : keeps consistent (prisma.resourcePhase.createMany data).
Proof.
  unfold prisma.resourcePhase.createMany.
  destruct (mapM _ data) as [rows|]; [|apply keeps_pure; pure_steps].
  apply keeps_store_call. intros d a d' Hd.
  destruct (prisma.resourcePhase.insert_rows _ _) as [m'|] eqn:Hins; [|done].
  destruct (forallb _ rows) eqn:Hrefs; [|done]. intros [= _ <-].
  by eapply consistent_createMany.
Qed.

Lemma keeps_deleteMany P : keeps consistent (prisma.resourcePhase.deleteMany P).
Proof.
  apply keeps_store_call. intros d a d' Hd [= _ <-].
  apply consistent_fewer_associations; [done|].
  intros i rp. rewrite lookup_delete_many.
  destruct (resourcePhases d !! i); cbn; [|done]. by destruct (P _).
Qed.

Lemma keeps_association_delete id : keeps consistent (prisma.resourcePhase.delete id).
Proof.
  apply keeps_store_call. intros d a d' Hd.
  destruct (resourcePhases d !! id); [|done]. intros [= _ <-].
  apply consistent_fewer_associations; [done|].
  by intros i rp [_ ?]%lookup_delete_Some.
Qed.

(** Splits a call into its steps; the reads keep anything, the writes keep
    the integrity of the store. *)
Ltac keeps_steps :=
  repeat first
    [ apply keeps_pure; solve [pure_steps]
    | apply keeps_transaction
    | apply keeps_role_create | apply keeps_role_update | apply keeps_role_delete
    | apply keeps_resource_create | apply keeps_resource_delete
    | apply keeps_resource_update; done
    | apply keeps_createMany | apply keeps_deleteMany | apply keeps_association_delete
    | apply keeps_bind; [|intros ?]
    | match goal with
      | |- keeps _ (match ?x with _ => _ end) => destruct x
      | |- keeps _ (if ?b then _ else _) => destruct b
      | |- keeps _ (let _ := _ in _) => cbv zeta
      end ].

Lemma keeps_createResource isGuid resource :
  keeps consistent (ResourceService.createResource isGuid resource).
Proof. unfold ResourceService.createResource. keeps_steps. Qed.

Lemma keeps_updateResource id data :
  keeps consistent (ResourceService.updateResource id data).
Proof. unfold ResourceService.updateResource. keeps_steps. Qed.

Lemma keeps_deleteResource id : keeps consistent (ResourceService.deleteResource id).
Proof. unfold ResourceService.deleteResource. keeps_steps. Qed.

Lemma keeps_createResourcePhases resourceId phaseIds userId :
  keeps consistent
    (ResourceDependencyService.createResourcePhases resourceId phaseIds userId).
Proof. unfold ResourceDependencyService.createResourcePhases. keeps_steps. Qed.

Lemma keeps_deleteResourcePhase resourceId phaseId :
  keeps consistent (ResourceDependencyService.deleteResourcePhase resourceId phaseId).
Proof. unfold ResourceDependencyService.deleteResourcePhase. keeps_steps. Qed.

Lemma keeps_createRole data : keeps consistent (RoleService.createRole data).
Proof. unfold RoleService.createRole. keeps_steps. Qed.

Lemma keeps_updateRole id data : keeps consistent (RoleService.updateRole id data).
Proof. unfold RoleService.updateRole, RoleService.getRole. keeps_steps. Qed.

Lemma keeps_deleteRole id : keeps consistent (RoleService.deleteRole id).
Proof. unfold RoleService.deleteRole, RoleService.getRole. keeps_steps. Qed.

Lemma keeps_createRoleFull isGuid role :
  keeps consistent (ResourceRoleService.createRole isGuid role).
Proof.
  unfold ResourceRoleService.createRole, ResourceRoleService.validateRole,
    ResourceRoleService.buildDBRole, prisma.role.findUniqueByName.
  keeps_steps.
Qed.

Lemma keeps_snd {A : Type} (I : Tables → Prop) (m : M A) w :
  keeps I m → I (db w) → I (db (m w).2).
Proof. intros Hm HI. destruct (m w) as [r w'] eqn:Hrun. by eapply Hm. Qed.

Lemma keeps_serve isGuid c w :
  consistent (db w) → consistent (db (serve isGuid c w)).
Proof.
  intros Hw. destruct c; cbn [serve]; (apply keeps_snd; [|done]).
  - apply keeps_createResource.
  - apply keeps_updateResource.
  - apply keeps_deleteResource.
  - apply keeps_pure. unfold ResourceService.getResource. pure_steps.
  - apply keeps_pure. unfold ResourceDependencyService.getResourcePhases.
    pure_steps.
  - apply keeps_createResourcePhases.
  - apply keeps_deleteResourcePhase.
  - apply keeps_createRole.
  - apply keeps_updateRole.
  - apply keeps_deleteRole.
  - apply keeps_createRoleFull.
Qed.


(** * Deleting a resource, detaching a phase, listing the phases *)

Lemma attached_empty d resourceId :
  attached d resourceId = ∅ ↔
  ∀ i rp, resourcePhases d !! i = Some rp → rp_resourceId rp ≠ resourceId.
Proof.
  split.
  - intros Hempty i rp Hi Hr.
    assert (rp_phaseId rp ∈ attached d resourceId) as Hin
      by (apply elem_of_attached; eauto).
    rewrite Hempty in Hin. by apply not_elem_of_empty in Hin.
  - intros Hnone. apply set_eq. intros p. rewrite elem_of_attached. split.
    + intros (i & rp & Hi & Hr & _). by destruct (Hnone i rp Hi).
    + by intros ?%not_elem_of_empty.
Qed.

(** X2: deleteResource on an id that is not there fails with NotFoundError
    after a single lookup and changes nothing; on an existing resource it
    removes the row together with all of its associations (the cascade of
    the schema), and leaves every other resource, and the associations of
    every other resource, as they were. *)
Theorem deleteResource_cascades (id : string) (w : World) :
  match resources (db w) !! id with
  | None =>
      ResourceService.deleteResource id w
      = (Err NotFoundError, log (Query TResource OpFindUnique) w)
  | Some _ =>
      ∃ w', ResourceService.deleteResource id w = (Ok tt, w')
            ∧ resources (db w') = delete id (resources (db w))
            ∧ attached (db w') id = ∅
            ∧ (∀ other, other ≠ id → attached (db w') other = attached (db w) other)
            ∧ roles (db w') = roles (db w)
            ∧ phases (db w') = phases (db w)
  end.
Proof.
  unfold ResourceService.deleteResource. rewrite bind_run.
  unfold prisma.resource.findUnique, store_read.
  destruct (resources (db w) !! id) as [r|] eqn:Hr; [|done].
  unfold prisma.resource.delete, store_call. cbn [db log]. rewrite Hr.
  eexists. split; [done|]. cbn. split_and!; try done.
  - apply attached_empty. intros i rp. cbn. rewrite lookup_delete_many.
    destruct (resourcePhases (db w) !! i) as [x|]; cbn; [|done].
    unfold rp_of_resource. case_bool_decide; intros; simplify_eq. done.
  - intros other Hother. apply set_eq. intros p. rewrite !elem_of_attached. cbn.
    split; intros (i & rp & Hi & Hres & Hp); exists i, rp; split_and!; try done.
    + rewrite lookup_delete_many in Hi.
      destruct (resourcePhases (db w) !! i) as [x|]; cbn in Hi; [|done].
      by destruct (rp_of_resource id x); simplify_eq.
    + rewrite lookup_delete_many, Hi. cbn. unfold rp_of_resource.
      rewrite bool_decide_eq_false_2; [done|]. congruence.
Qed.

Lemma deleteResourcePhase_run resourceId phaseId w :
  ∃ w0, db w0 = db w ∧
  ResourceDependencyService.deleteResourcePhase resourceId phaseId w =
  match resources (db w) !! resourceId, phases (db w) !! phaseId,
        find_first (rp_pair resourceId phaseId) (resourcePhases (db w)) with
  | Some _, Some _, Some rp => prisma.resourcePhase.delete (rp_id rp) w0
  | _, _, _ => (Err NotFoundError, w0)
  end.
Proof.
  unfold ResourceDependencyService.deleteResourcePhase. rewrite bind_run.
  unfold prisma.resource.findUnique, store_read at 1.
  destruct (resources (db w) !! resourceId);
    [|eexists; (split; [|reflexivity]); reflexivity].
  rewrite bind_run. unfold prisma.phase.findUnique, store_read at 1. cbn [db log].
  destruct (phases (db w) !! phaseId);
    [|eexists; (split; [|reflexivity]); reflexivity].
  rewrite bind_run. unfold prisma.resourcePhase.findFirst, store_read. cbn [db log].
  destruct (find_first _ _); eexists; (split; [|reflexivity]); reflexivity.
Qed.

(** X3: deleteResourcePhase fails with NotFoundError, changing nothing,
    when the resource does not exist, when the phase does not exist, or
    when the resource is not attached to the phase (an association that
    was never created). *)
Theorem deleteResourcePhase_not_found (resourceId phaseId : string) (w : World) :
  resources (db w) !! resourceId = None
  ∨ phases (db w) !! phaseId = None
  ∨ phaseId ∉ attached (db w) resourceId →
  ∃ w', ResourceDependencyService.deleteResourcePhase resourceId phaseId w
        = (Err NotFoundError, w')
        ∧ db w' = db w.
Proof.
  intros Hmissing.
  destruct (deleteResourcePhase_run resourceId phaseId w) as (w0 & Hw0 & ->).
  exists w0. split; [|done].
  destruct (resources (db w) !! resourceId); [|done].
  destruct (phases (db w) !! phaseId); [|done].
  destruct (find_first _ _) as [rp|] eqn:Hfind; [|done].
  exfalso. destruct Hmissing as [?|[?|Hnot]]; [done..|]. apply Hnot.
  apply find_first_Some in Hfind as [Hpair [i Hi]].
  apply andb_prop in Hpair as [?%bool_decide_eq_true ?%bool_decide_eq_true].
  apply elem_of_attached. eauto.
Qed.

(** X4: in a consistent store, deleteResourcePhase on an existing
    resource, an existing phase and an existing association succeeds and
    detaches exactly that phase: the phases of the resource are those of
    before without it, the phases of every other resource are unchanged,
    and no other table is touched. *)
Theorem deleteResourcePhase_detaches (resourceId phaseId : string) (w : World) :
  consistent (db w) →
  is_Some (resources (db w) !! resourceId) →
  is_Some (phases (db w) !! phaseId) →
  phaseId ∈ attached (db w) resourceId →
  ∃ w', ResourceDependencyService.deleteResourcePhase resourceId phaseId w = (Ok tt, w')
        ∧ attached (db w') resourceId = attached (db w) resourceId ∖ {[phaseId]}
        ∧ (∀ other, other ≠ resourceId →
                    attached (db w') other = attached (db w) other)
        ∧ roles (db w') = roles (db w)
        ∧ phases (db w') = phases (db w)
        ∧ resources (db w') = resources (db w).
Proof.
  intros Hd [r Hr] [ph Hph] Hin.
  destruct (deleteResourcePhase_run resourceId phaseId w) as (w0 & Hw0 & ->).
  rewrite Hr, Hph.
  destruct (find_first _ _) as [rp|] eqn:Hfind.
  2:{ exfalso. rewrite find_first_None in Hfind.
      apply elem_of_attached in Hin as (i & x & Hi & Hres & Hp).
      specialize (Hfind i x Hi). unfold rp_pair in Hfind.
      by rewrite !bool_decide_eq_true_2 in Hfind. }
  apply find_first_Some in Hfind as [Hpair [i Hi]].
  apply andb_prop in Hpair as [Hres%bool_decide_eq_true Hp%bool_decide_eq_true].
  pose proof (association_keys _ Hd _ _ Hi) as Hkey.
  unfold prisma.resourcePhase.delete, store_call. cbn [db log].
  rewrite Hw0, Hkey, Hi. eexists. split; [done|]. cbn.
  split_and!; try done.
  - apply set_eq. intros p.
    rewrite elem_of_difference, !elem_of_attached, not_elem_of_singleton. cbn.
    split.
    + intros (j & x & [Hne Hj]%lookup_delete_Some & Hxr & Hxp).
      split; [eauto|]. intros ->. apply Hne.
      eapply (association_once _ Hd); eauto; congruence.
    + intros [(j & x & Hj & Hxr & Hxp) Hne]. exists j, x. split_and!; try done.
      apply lookup_delete_Some. split; [|done]. intros <-. by simplify_eq.
  - intros other Hother. apply set_eq. intros p. rewrite !elem_of_attached. cbn.
    split.
    + intros (j & x & [_ Hj]%lookup_delete_Some & ? & ?). eauto.
    + intros (j & x & Hj & Hxr & Hxp). exists j, x. split_and!; try done.
      apply lookup_delete_Some. split; [|done]. intros <-. by simplify_eq.
Qed.

(** X5: getResourcePhases fails with NotFoundError when the resource does
    not exist; otherwise, in a consistent store, it returns one summary per
    attached phase: the ids of the summaries are exactly the phases the
    resource is attached to, and each summary carries the name and the
    description of the phase row of its id. *)
Theorem getResourcePhases_lists_attached (resourceId : string) (w : World) :
  consistent (db w) →
  match resources (db w) !! resourceId with
  | None =>
      ResourceDependencyService.getResourcePhases resourceId w
      = (Err NotFoundError, log (Query TResource OpFindUnique) w)
  | Some _ =>
      ∃ l, ResourceDependencyService.getResourcePhases resourceId w
           = (Ok l, log (Query TResource OpFindUnique) w)
           ∧ list_to_set (ResourceDependencyService.info_id <$> l)
             = attached (db w) resourceId
           ∧ Forall (λ x, ∃ ph,
                       phases (db w) !! ResourceDependencyService.info_id x = Some ph
                       ∧ ResourceDependencyService.info_name x = phase_name ph
                       ∧ ResourceDependencyService.info_description x
                         = phase_description ph) l
  end.
Proof.
  intros Hd. unfold ResourceDependencyService.getResourcePhases. rewrite bind_run.
  unfold prisma.resource.findUniqueInclude, store_read.
  destruct (resources (db w) !! resourceId) as [r|]; [|done]. cbn.
  eexists. split; [done|].
  assert (∀ x : ResourcePhase * Phase,
            x ∈ prisma.resource.joined_phases (db w) resourceId ↔
            rp_resourceId x.1 = resourceId
            ∧ (∃ i, resourcePhases (db w) !! i = Some x.1)
            ∧ phases (db w) !! rp_phaseId x.1 = Some x.2) as Hjoined.
  { intros [rp ph]. unfold prisma.resource.joined_phases.
    rewrite list_elem_of_omap. cbn. split.
    - intros (rp' & Hin & Hsome). apply elem_of_find_many in Hin as [Hres Hi].
      apply bool_decide_eq_true in Hres.
      destruct (phases (db w) !! rp_phaseId rp') eqn:Hph; simplify_eq/=. done.
    - intros (Hres & Hi & Hph). exists rp. split.
      + apply elem_of_find_many. split; [by apply bool_decide_eq_true|done].
      + by rewrite Hph. }
  split.
  - apply set_eq. intros p.
    rewrite elem_of_list_to_set, elem_of_attached, <- list_fmap_compose,
      list_elem_of_fmap.
    split.
    + intros ([rp ph] & -> & (Hres & [i Hi] & Hph)%Hjoined). cbn in *.
      exists i, rp. split_and!; [done..|]. by rewrite (phase_keys _ Hd _ _ Hph).
    + intros (i & rp & Hi & Hres & Hp).
      destruct (association_has_phase _ Hd _ _ Hi) as [ph Hph].
      exists (rp, ph). split; [|apply Hjoined; cbn; eauto].
      cbn. by rewrite (phase_keys _ Hd _ _ Hph).
  - apply Forall_fmap, Forall_forall. intros [rp ph] (_ & _ & Hph)%Hjoined.
    cbn in *. exists ph. rewrite (phase_keys _ Hd _ _ Hph). done.
Qed.

(** * Attaching phases *)

Lemma lookup_phases_Ok ids w ps w' :
  ResourceDependencyService.lookup_phases ids w = (Ok ps, w') →
  Forall2 (λ p ph, phases (db w) !! p = Some ph) ids ps.
Proof.
  revert w ps. induction ids as [|p ids IH]; intros w ps.
  - intros [= <- _]. constructor.
  - rewrite lookup_phases_cons.
    destruct (phases (db w) !! p) as [ph|] eqn:Hp; [|done].
    destruct (ResourceDependencyService.lookup_phases ids _) as [[l|e] w1] eqn:Hrest;
      intros [= <- <-].
    constructor; [done|]. by apply IH in Hrest.
Qed.

Lemma attached_added rows d d' rid :
  prisma.resourcePhase.insert_rows rows (resourcePhases d) = Ok (resourcePhases d') →
  Forall (λ rp, rp_resourceId rp = rid) rows →
  attached d' rid = attached d rid ∪ list_to_set (rp_phaseId <$> rows)
  ∧ ∀ other, other ≠ rid → attached d' other = attached d other.
Proof.
  intros Hins Hrid. rewrite Forall_forall in Hrid. split.
  - apply set_eq. intros p.
    rewrite elem_of_union, !elem_of_attached, elem_of_list_to_set, list_elem_of_fmap.
    split.
    + intros (i & rp & [Hold|[Hin _]]%(insert_rows_Ok _ _ _ Hins) & Hr & Hp); eauto 10.
    + intros [(i & rp & Hi & Hr & Hp)|(rp & -> & Hin)].
      * exists i, rp. split_and!; [|done..]. apply (insert_rows_Ok _ _ _ Hins). by left.
      * exists (rp_id rp), rp. split_and!; [|by apply Hrid|done].
        apply (insert_rows_Ok _ _ _ Hins). by right.
  - intros other Hother. apply set_eq. intros p. rewrite !elem_of_attached. split.
    + intros (i & rp & [Hold|[Hin _]]%(insert_rows_Ok _ _ _ Hins) & Hr & Hp); [eauto|].
      apply Hrid in Hin. congruence.
    + intros (i & rp & Hi & Hr & Hp).
      exists i, rp. split_and!; [|done..]. apply (insert_rows_Ok _ _ _ Hins). by left.
Qed.

(** X6: when createResourcePhases returns, the resource is attached to
    the phases it had plus the requested ones, none of which it had before;
    the value returned is the list of the phase rows of the requested ids,
    in the order of the request; the phases of every other resource and the
    other three tables are unchanged. *)
Theorem createResourcePhases_attaches
    (resourceId : string) (phaseIds : option (list string)) (userId : jsval)
    (w : World) (ps : list Phase) (w' : World) :
  ResourceDependencyService.createResourcePhases resourceId phaseIds userId w
  = (Ok ps, w') →
  attached (db w') resourceId
  = attached (db w) resourceId ∪ list_to_set (default [] phaseIds)
  ∧ (∀ p, p ∈ default [] phaseIds → p ∉ attached (db w) resourceId)
  ∧ Forall2 (λ p ph, phases (db w) !! p = Some ph) (default [] phaseIds) ps
  ∧ (∀ other, other ≠ resourceId → attached (db w') other = attached (db w) other)
  ∧ roles (db w') = roles (db w)
  ∧ phases (db w') = phases (db w)
  ∧ resources (db w') = resources (db w).
Proof.
  unfold ResourceDependencyService.createResourcePhases.
  destruct (ResourceDependencyService.no_phases phaseIds) eqn:Hnone.
  { intros [= <- <-].
    assert (default [] phaseIds = []) as -> by (by destruct phaseIds as [[|]|]).
    split_and!; try done.
    - rewrite list_to_set_nil. by rewrite (right_id_L ∅ (∪)).
    - intros p Hp. by apply elem_of_nil in Hp. }
  cbv zeta. generalize (default [] phaseIds). intros ids Hrun.
  apply bind_Ok in Hrun as (resource & w1 & Hres & Hrun).
  apply preserves_findUniqueInclude in Hres as Hw1.
  destruct resource as [resource|]; [|done].
  apply bind_Ok in Hrun as (found & w2 & Hlookup & Hrun).
  apply preserves_lookup_phases in Hlookup as Hw2.
  apply lookup_phases_Ok in Hlookup.
  apply bind_Ok in Hrun as (existing & w3 & [= <- <-] & Hrun).
  destruct (0 <? _)%nat eqn:Hcount in Hrun; [done|].
  apply bind_Ok in Hrun as ([] & w4 & Hensure & Hrun).
  apply preserves_ensureRolePhasesDependency in Hensure as Hw4.
  apply bind_Ok in Hrun as (data & w5 & Hdata & Hrun).
  apply preserves_new_rows in Hdata as Hw5.
  apply bind_Ok in Hrun as (n & w6 & Hmany & [= -> ->]).
  apply createMany_Ok in Hmany as (rows & m' & Hrows & Hins & _ & Hw6).
  destruct (rows_for _ _ _ _ _ _ _ _ Hdata Hrows) as [Hp Hrid].
  cbn [db log] in *.
  assert (db w5 = db w) as Hw by congruence. rewrite Hw in *.
  assert (resourcePhases (db w') = m') as Hm' by (by rewrite Hw6).
  rewrite <- Hm' in Hins.
  destruct (attached_added _ _ _ _ Hins Hrid) as [Hsame Hother].
  rewrite Hp in Hsame. rewrite Hw6. cbn. split_and!; try done.
  - by rewrite <- Hsame, Hw6.
  - intros p Hin (i & rp & Hi & Hr & Hrp)%elem_of_attached.
    change (length (find_many ?P ?m)) with (count_rows P m) in Hcount.
    rewrite count_rows_zero in Hcount.
    assert (db w2 = db w) as Hw2' by congruence. rewrite Hw2' in Hcount.
    specialize (Hcount i rp Hi). unfold rp_in in Hcount.
    rewrite !bool_decide_eq_true_2 in Hcount; [done|by rewrite Hrp|done].
  - by rewrite Hw1 in Hlookup.
  - intros other Hne. by rewrite <- (Hother other Hne), Hw6.
Qed.

(** * What the dependency check checks *)

Lemma check_phases_run ids w :
  ∃ w', db w' = db w ∧
  forM_ (λ phaseId,
           phase ← prisma.phase.findUnique phaseId;
           match phase with
           | None => throw NotFoundError
           | Some _ => mret tt
           end) ids w
  = (if phases_exist (db w) ids then Ok tt else Err NotFoundError, w').
Proof.
  unfold phases_exist. revert w. induction ids as [|p ids IH]; intros w.
  - exists w. done.
  - cbn [forM_ forallb]. rewrite !bind_run.
    unfold prisma.phase.findUnique at 1, store_read at 1.
    destruct (phases (db w) !! p) as [ph|] eqn:Hp.
    + destruct (IH (log (Query TPhase OpFindUnique) w)) as (w' & Hdb & Hrun).
      exists w'. split; [done|].
      rewrite bool_decide_eq_true_2 by done. cbn [andb]. exact Hrun.
    + eexists. split; [|rewrite bool_decide_eq_false_2 by (by intros [? ?]); done].
      done.
Qed.

(** X7: for a non-empty phase list, ensureRolePhasesDependency succeeds
    exactly when the role exists and every listed phase exists, and fails
    with NotFoundError otherwise; it consults nothing else (no role-to-phase
    eligibility table) and never writes. *)
Theorem ensureRolePhasesDependency_checks_existence_only
    (roleId p : string) (ids : list string) (w : World) :
  ∃ w',
    ResourceDependencyService.ensureRolePhasesDependency roleId (Some (p :: ids)) w
    = (if bool_decide (is_Some (roles (db w) !! roleId))
          && phases_exist (db w) (p :: ids)
       then Ok tt else Err NotFoundError, w')
    ∧ db w' = db w.
Proof.
  unfold ResourceDependencyService.ensureRolePhasesDependency.
  cbn [ResourceDependencyService.no_phases default from_option id]. rewrite bind_run.
  unfold prisma.role.findUnique, store_read.
  destruct (roles (db w) !! roleId) as [role|].
  - destruct (check_phases_run (p :: ids) (log (Query TRole OpFindUnique) w))
      as (w' & Hdb & Hrun).
    exists w'. rewrite bool_decide_eq_true_2 by done. split; [exact Hrun|done].
  - eexists. rewrite bool_decide_eq_false_2 by (by intros [? ?]). done.
Qed.

(** * createResource: what it refuses, what it keeps, what it returns *)

(** The tables are the same after a step that only reads. *)
Ltac pure_run H Hw :=
  match type of H with
  | ?m _ = _ =>
      let Hpure := fresh "Hpure" in
      assert (preserves_db m) as Hpure
        by (repeat first [progress pure_steps | progress cbv zeta]);
      pose proof (Hpure _ _ _ H) as Hw; clear Hpure
  end.

Lemma ret_run {A : Type} (a : A) (w : World) : (mret a : M A) w = (Ok a, w).
Proof. reflexivity. Qed.

Lemma validateResource_passes isGuid resource w :
  ResourceService.schema isGuid resource = true →
  truthy (ResourceService.challengeId resource)
  || truthy (ResourceService.memberId resource) = true →
  ResourceService.validateResource isGuid resource w = (Ok tt, w).
Proof.
  intros Hschema Hset. unfold ResourceService.validateResource. rewrite Hschema. cbn.
  destruct (truthy (ResourceService.challengeId resource)),
    (truthy (ResourceService.memberId resource)); done.
Qed.

(** X8: a createResource request that passes validation is refused with
    BadRequestError when its role does not exist, and with ConflictError
    when some stored resource has the same role and agrees with the request
    on each of challengeId and memberId that the request sets: an id the
    request leaves unset is not compared, so the stored row need not carry
    the same triple. Nothing is written in either case. *)
Theorem createResource_rejects
    (isGuid : string → bool) (resource : ResourceService.Input)
    (role_ : string) (w : World) :
  ResourceService.schema isGuid resource = true →
  truthy (ResourceService.challengeId resource)
  || truthy (ResourceService.memberId resource) = true →
  ResourceService.roleId resource = JStr role_ →
  match roles (db w) !! role_ with
  | None =>
      ∃ w', ResourceService.createResource isGuid resource w = (Err BadRequestError, w')
            ∧ db w' = db w
  | Some _ =>
      (∃ i r, resources (db w) !! i = Some r
              ∧ res_roleId r = role_
              ∧ (truthy (ResourceService.challengeId resource) = true →
                 res_challengeId r = to_column (ResourceService.challengeId resource))
              ∧ (truthy (ResourceService.memberId resource) = true →
                 res_memberId r = to_column (ResourceService.memberId resource))) →
      ∃ w', ResourceService.createResource isGuid resource w = (Err ConflictError, w')
            ∧ db w' = db w
  end.
Proof.
  intros Hschema Hset Hrole.
  assert (∀ e, (∃ w', ResourceService.createResource isGuid resource w = (Err e, w')) →
               ∃ w', ResourceService.createResource isGuid resource w = (Err e, w')
                     ∧ db w' = db w) as Hclean.
  { intros e [w' Hrun]. exists w'. split; [done|].
    by apply createResource_fails_clean in Hrun. }
  unfold ResourceService.createResource in *.
  rewrite bind_run, (validateResource_passes _ _ _ Hschema Hset), Hrole in *.
  cbn [prisma.arg] in *. rewrite bind_run, ret_run, bind_run in *.
  unfold prisma.role.findUnique, store_read in *.
  destruct (roles (db w) !! role_) as [role|]; [|apply Hclean; eauto].
  intros (i & r & Hi & Hr & Hc & Hm). apply Hclean. cbv zeta. rewrite bind_run.
  unfold prisma.resource.findFirst, store_read. cbn [db log].
  destruct (find_first _ _) as [found|] eqn:Hfind; [eauto|]. exfalso.
  rewrite find_first_None in Hfind. specialize (Hfind i r Hi).
  unfold resource_matches in Hfind. cbn in Hfind.
  rewrite bool_decide_eq_true_2 in Hfind by done.
  unfold ResourceService.truthy_string, where_eq_null in Hfind.
  destruct (truthy (ResourceService.challengeId resource)).
  - rewrite Hc in Hfind by done.
    destruct (to_column (ResourceService.challengeId resource)) eqn:Hcol.
    + rewrite bool_decide_eq_true_2 in Hfind by done.
      destruct (truthy (ResourceService.memberId resource)); [|done].
      rewrite Hm in Hfind by done.
      destruct (to_column (ResourceService.memberId resource)); [|done].
      by rewrite bool_decide_eq_true_2 in Hfind.
    + destruct (truthy (ResourceService.memberId resource)); [|done].
      rewrite Hm in Hfind by done.
      destruct (to_column (ResourceService.memberId resource)); [|done].
      by rewrite bool_decide_eq_true_2 in Hfind.
  - cbn in Hfind.
    destruct (truthy (ResourceService.memberId resource)); [|done].
    rewrite Hm in Hfind by done.
    destruct (to_column (ResourceService.memberId resource)); [|done].
    by rewrite bool_decide_eq_true_2 in Hfind.
Qed.

(** X9: createResource keeps the assignment triple unique: in a store
    where no two resources agree on (roleId, challengeId, memberId), a
    createResource call that returns leaves a store with the same
    property. *)
Theorem createResource_keeps_triples_unique
    (isGuid : string → bool) (resource : ResourceService.Input)
    (w : World) (out : option ResourceService.Output) (w' : World) :
  unique_triples (db w) →
  ResourceService.createResource isGuid resource w = (Ok out, w') →
  unique_triples (db w').
Proof. apply createResource_preserves_unique_triples. Qed.

Lemma getResource_run id b1 b2 w :
  ResourceService.getResource id b1 b2 w =
  (match (prisma.resource.findUniqueInclude id b1 b2 w).1 with
   | Ok (Some r) => Ok (ResourceService.transformResource (Some r) b1 b2)
   | _ => Err NotFoundError
   end, log (Query TResource OpFindUnique) w).
Proof.
  unfold ResourceService.getResource. rewrite bind_run.
  unfold prisma.resource.findUniqueInclude, store_read. cbn [fst].
  by destruct (resources (db w) !! id).
Qed.

(** X10: what createResource returns is what getResource reads back: after
    a createResource call that returns, getResource on the id of the
    returned resource, with role and phases included, returns the same
    value. *)
Theorem createResource_getResource
    (isGuid : string → bool) (resource : ResourceService.Input)
    (w : World) (out : option ResourceService.Output) (w' : World) :
  ResourceService.createResource isGuid resource w = (Ok out, w') →
  ∃ o, out = Some o
       ∧ (ResourceService.getResource (res_id (ResourceService.out_resource o))
            true true w').1 = Ok out.
Proof.
  revert w out w'.
  cut (ok_post (ResourceService.createResource isGuid resource)
         (λ _ out d', ∃ o, out = Some o ∧
            ∀ w', db w' = d' →
                  (ResourceService.getResource
                     (res_id (ResourceService.out_resource o)) true true w').1 = Ok out)).
  { intros Hpost w out w' Hrun. destruct (Hpost _ _ _ Hrun) as (o & -> & Hget). eauto. }
  unfold ResourceService.createResource. skip_reads.
  apply ok_post_bind_ret, ok_post_transaction. intros w result w' Hrun.
  apply bind_Ok in Hrun as (row & w1 & Hcreate & Hrun).
  apply bind_Ok in Hrun as ([] & w2 & Hphases & Hfind).
  apply resource_create_Ok in Hcreate as (_ & _ & _ & Hw1).
  apply write_phases_Ok in Hphases as (rows & m' & _ & _ & _ & _ & Hw2).
  apply preserves_findUniqueInclude in Hfind as Hw'.
  injection Hfind as <- _.
  assert (resources (db w2) !! res_id row = Some row) as Hrow.
  { rewrite Hw2, Hw1. cbn. apply lookup_insert_eq. }
  rewrite Hrow. cbn [mbind option_bind ResourceService.transformResource].
  eexists. split; [done|]. cbn [ResourceService.out_resource].
  intros w0 Hw0. rewrite getResource_run.
  unfold prisma.resource.findUniqueInclude, store_read.
  cbn [fst prisma.resource.rel_resource].
  rewrite Hw0, Hw', Hrow. done.
Qed.

(** * updateResource: what it refuses and what it writes *)

Lemma updateResource_clean id data w e :
  (∃ w', ResourceService.updateResource id data w = (Err e, w')) →
  ∃ w', ResourceService.updateResource id data w = (Err e, w') ∧ db w' = db w.
Proof.
  intros [w' Hrun]. exists w'. split; [done|].
  by apply updateResource_fails_clean in Hrun.
Qed.

(** X11: updateResource is refused, with nothing written: with
    NotFoundError when no resource has the id; with BadRequestError when
    the patch names a role that does not exist; and with ConflictError when
    the patch names a role, a challenge or a member and another resource
    has the resulting role and agrees on the resulting challengeId and
    memberId where those are set (resulting: the value of the patch when
    it is truthy, the stored value otherwise). *)
Theorem updateResource_rejects (id : string) (data : ResourceService.Patch) (w : World) :
  match resources (db w) !! id with
  | None =>
      ResourceService.updateResource id data w
      = (Err NotFoundError, log (Query TResource OpFindUnique) w)
  | Some old =>
      let role' := ResourceService.or_column (ResourceService.patch_roleId data)
                     (res_roleId old) in
      let challenge' := js_or (ResourceService.patch_challengeId data)
                          (of_column (res_challengeId old)) in
      let member' := js_or (ResourceService.patch_memberId data)
                       (of_column (res_memberId old)) in
      (truthy (ResourceService.patch_roleId data) = true →
       roles (db w) !! role' = None →
       ∃ w', ResourceService.updateResource id data w = (Err BadRequestError, w')
             ∧ db w' = db w)
      ∧ (is_Some (roles (db w) !! role') →
         truthy (ResourceService.patch_challengeId data)
         || truthy (ResourceService.patch_memberId data)
         || truthy (ResourceService.patch_roleId data) = true →
         (∃ j r, resources (db w) !! j = Some r
                 ∧ res_id r ≠ id
                 ∧ res_roleId r = role'
                 ∧ (truthy challenge' = true → res_challengeId r = to_column challenge')
                 ∧ (truthy member' = true → res_memberId r = to_column member')) →
         ∃ w', ResourceService.updateResource id data w = (Err ConflictError, w')
               ∧ db w' = db w)
  end.
Proof.
  destruct (resources (db w) !! id) as [old|] eqn:Hold.
  2:{ unfold ResourceService.updateResource. rewrite bind_run.
      unfold prisma.resource.findUnique, store_read. by rewrite Hold. }
  cbv zeta.
  assert (truthy (ResourceService.patch_roleId data) = true →
          prisma.arg (ResourceService.patch_roleId data)
          = mret (ResourceService.or_column (ResourceService.patch_roleId data)
                    (res_roleId old))) as Harg.
  { unfold ResourceService.or_column, ResourceService.truthy_string.
    intros Ht. rewrite Ht. by destruct (ResourceService.patch_roleId data). }
  split.
  - intros Ht Hrole. apply updateResource_clean.
    unfold ResourceService.updateResource. rewrite bind_run.
    unfold prisma.resource.findUnique, store_read at 1. rewrite Hold.
    rewrite bind_run, Ht, Harg by done. rewrite bind_run, ret_run, bind_run.
    unfold prisma.role.findUnique, store_read. cbn [db log]. rewrite Hrole. eauto.
  - intros [role Hrole] Hguard (j & r & Hj & Hne & Hr & Hc & Hm).
    apply updateResource_clean.
    unfold ResourceService.updateResource. rewrite bind_run.
    unfold prisma.resource.findUnique, store_read at 1. rewrite Hold.
    rewrite bind_run.
    assert (∃ w1, db w1 = db w ∧
              (if truthy (ResourceService.patch_roleId data)
               then
                 roleId_ ← prisma.arg (ResourceService.patch_roleId data);
                 role ← prisma.role.findUnique roleId_;
                 match role with
                 | None => throw BadRequestError
                 | Some _ => mret tt
                 end
               else mret tt) (log (Query TResource OpFindUnique) w) = (Ok tt, w1))
      as (w1 & Hw1 & ->).
    { destruct (truthy (ResourceService.patch_roleId data)) eqn:Ht;
        [|eexists; (split; [|reflexivity]); reflexivity].
      rewrite Harg by done. rewrite bind_run, ret_run, bind_run.
      unfold prisma.role.findUnique, store_read. cbn [db log]. rewrite Hrole.
      eexists; (split; [|reflexivity]); reflexivity. }
    rewrite bind_run, Hguard, bind_run.
    unfold prisma.resource.findFirst, store_read. rewrite Hw1.
    destruct (find_first _ _) as [found|] eqn:Hfind; [eauto|]. exfalso.
    rewrite find_first_None in Hfind. specialize (Hfind j r Hj).
    unfold resource_matches in Hfind. cbn in Hfind.
    rewrite bool_decide_eq_true_2 in Hfind by done.
    rewrite (bool_decide_eq_false_2 (res_id r = id)) in Hfind by done.
    cbn in Hfind.
    unfold ResourceService.truthy_string, where_eq_null in Hfind.
    destruct (truthy (js_or (ResourceService.patch_challengeId data) _)).
    + rewrite Hc in Hfind by done.
      destruct (to_column (js_or (ResourceService.patch_challengeId data) _)).
      * rewrite bool_decide_eq_true_2 in Hfind by done.
        destruct (truthy (js_or (ResourceService.patch_memberId data) _)); [|done].
        rewrite Hm in Hfind by done.
        destruct (to_column (js_or (ResourceService.patch_memberId data) _)); [|done].
        by rewrite bool_decide_eq_true_2 in Hfind.
      * destruct (truthy (js_or (ResourceService.patch_memberId data) _)); [|done].
        rewrite Hm in Hfind by done.
        destruct (to_column (js_or (ResourceService.patch_memberId data) _)); [|done].
        by rewrite bool_decide_eq_true_2 in Hfind.
    + destruct (truthy (js_or (ResourceService.patch_memberId data) _)); [|done].
      rewrite Hm in Hfind by done.
      destruct (to_column (js_or (ResourceService.patch_memberId data) _)); [|done].
      by rewrite bool_decide_eq_true_2 in Hfind.
Qed.

Lemma to_of_column c : to_column (of_column c) = c.
Proof. by destruct c. Qed.

(** X12: when updateResource returns, the row of the resource keeps its
    id, created and createdBy; challengeId, memberId, memberHandle and
    legacyId keep their stored value when the patch leaves the key
    undefined and take the value of the patch otherwise (null clears the
    column); roleId takes the value of the patch only when it is truthy.
    The value returned carries this row; every other resource, the roles
    and the phases are untouched. *)
Theorem updateResource_patches
    (id : string) (data : ResourceService.Patch) (w : World)
    (out : option ResourceService.Output) (w' : World) :
  ResourceService.updateResource id data w = (Ok out, w') →
  ∃ old new,
    resources (db w) !! id = Some old
    ∧ resources (db w') !! id = Some new
    ∧ ResourceService.out_resource <$> out = Some new
    ∧ res_id new = res_id old
    ∧ res_created new = res_created old
    ∧ res_createdBy new = res_createdBy old
    ∧ (∀ (get : ResourceService.Patch → jsval) (col : Resource → option string),
         (get, col) ∈ [(ResourceService.patch_challengeId, res_challengeId);
                       (ResourceService.patch_memberId, res_memberId);
                       (ResourceService.patch_memberHandle, res_memberHandle);
                       (ResourceService.patch_legacyId, res_legacyId)] →
         col new = if isUndefined (get data) then col old else to_column (get data))
    ∧ res_roleId new
      = (if truthy (ResourceService.patch_roleId data)
         then default "" (to_column (ResourceService.patch_roleId data))
         else res_roleId old)
    ∧ (∀ j, j ≠ id → resources (db w') !! j = resources (db w) !! j)
    ∧ roles (db w') = roles (db w)
    ∧ phases (db w') = phases (db w).
Proof.
  unfold ResourceService.updateResource. intros Hrun.
  apply bind_Ok in Hrun as (existing & w1 & [= <- <-] & Hrun).
  destruct (resources (db w) !! id) as [old|] eqn:Hold; [|done].
  apply bind_Ok in Hrun as ([] & w2 & Hrole & Hrun). pure_run Hrole Hw2.
  apply bind_Ok in Hrun as ([] & w3 & Hdup & Hrun). pure_run Hdup Hw3.
  cbv zeta in Hrun.
  apply bind_Ok in Hrun as (now & w4 & [= <- <-] & Hrun).
  apply bind_Ok in Hrun as (result & w5 & Htx & [= <- <-]).
  apply transaction_Ok in Htx as (w6 & Hbody & Hw5).
  apply bind_Ok in Hbody as (new & w7 & Hupdate & Hbody).
  apply bind_Ok in Hbody as ([] & w8 & Hphases & Hfind).
  apply resource_update_Ok in Hupdate as (old' & Hold' & Hnew & Hw7).
  cbn [db log] in *.
  assert (db w3 = db w) as Hw by congruence. rewrite Hw in *.
  assert (old' = old) as -> by congruence.
  assert (resources (db w8) = resources (db w7)
          ∧ roles (db w8) = roles (db w7) ∧ phases (db w8) = phases (db w7))
    as (Hres8 & Hroles8 & Hphases8).
  { destruct (0 <? _)%nat eqn:Hlen in Hphases.
    - apply bind_Ok in Hphases as ([] & w7' & Hdel%deleteMany_Ok & Hphases).
      apply bind_Ok in Hphases as (rows & w7'' & Hrows & Hphases).
      pure_run Hrows Hw7''.
      apply bind_Ok in Hphases as (n & w7''' & Hmany & [= <-]).
      apply createMany_Ok in Hmany as (? & ? & _ & _ & _ & ->).
      rewrite Hw7'', Hdel. done.
    - by injection Hphases as <-. }
  apply preserves_findUniqueInclude in Hfind as Hw6. injection Hfind as <- _.
  assert (resources (db w5) = <[id := new]> (resources (db w))) as Hres5.
  { rewrite Hw5, Hw6, Hres8, Hw7. done. }
  rewrite Hres8, Hw7. cbn [resources with_resources]. rewrite lookup_insert_eq.
  exists old, new. rewrite Hres5, lookup_insert_eq. split_and!; try done.
  1-3: by rewrite Hnew.
  - intros get col Hin. rewrite Hnew.
    repeat (apply elem_of_cons in Hin as [[= -> ->]|Hin]);
      [| | | |by apply elem_of_nil in Hin].
    all: cbn; unfold ResourceService.defined_or;
      destruct (isUndefined _); by rewrite ?to_of_column.
  - rewrite Hnew. cbn. unfold ResourceService.or_column, ResourceService.truthy_string.
    by destruct (ResourceService.patch_roleId data) as [| |s]; cbn;
      [..|destruct (negb _)].
  - intros j Hj. by rewrite lookup_insert_ne.
  - rewrite Hw5, Hw6, Hroles8, Hw7. done.
  - rewrite Hw5, Hw6, Hphases8, Hw7. done.
Qed.

(** * The role services *)

(** X13: updateRole of the migration guide fails with NotFoundError when
    the role does not exist. When it returns, the stored role is the
    returned one; it keeps its id, created, createdBy and legacyId; name,
    fullAccess and selfObtainable take the value of the patch when it has
    one and keep the stored value otherwise, and updatedBy is left alone
    when the patch has none; no other role is changed. *)
Theorem updateRole_patches (id : string) (data : RoleService.Patch) (w : World) :
  match roles (db w) !! id with
  | None =>
      RoleService.updateRole id data w
      = (Err NotFoundError, log (Query TRole OpFindUnique) w)
  | Some old =>
      ∀ role w', RoleService.updateRole id data w = (Ok role, w') →
        roles (db w') = <[id := role]> (roles (db w))
        ∧ role_id role = role_id old
        ∧ role_created role = role_created old
        ∧ role_createdBy role = role_createdBy old
        ∧ role_legacyId role = role_legacyId old
        ∧ JStr (role_name role)
          = (if isUndefined (RoleService.patch_name data)
             then JStr (role_name old) else RoleService.patch_name data)
        ∧ role_fullAccess role
          = default (role_fullAccess old) (RoleService.patch_fullAccess data)
        ∧ role_selfObtainable role
          = default (role_selfObtainable old) (RoleService.patch_selfObtainable data)
        ∧ (RoleService.patch_updatedBy data = JUndefined →
           role_updatedBy role = role_updatedBy old)
        ∧ (RoleService.patch_updatedBy data ≠ JUndefined →
           role_updatedBy role = to_column (RoleService.patch_updatedBy data))
  end.
Proof.
  unfold RoleService.updateRole. rewrite bind_run, getRole_run.
  destruct (roles (db w) !! id) as [old|] eqn:Hold; [|done].
  intros role w'. unfold prisma.role.update. rewrite bind_run.
  change (newDate (log (Query TRole OpFindUnique) w))
    with (Ok (clock w), log (Query TRole OpFindUnique) w). cbv iota.
  destruct (negb _) eqn:Hok; [done|].
  unfold store_call. cbn [db log]. rewrite Hold. cbv zeta.
  destruct (0 <? _)%nat; [done|]. intros [= <- <-]. cbn.
  split_and!; try done.
  - unfold RoleService.defined_or_name, prisma.role.changes_ok in *. cbn in Hok.
    destruct (RoleService.patch_name data); cbn in *; done.
  - by destruct (RoleService.patch_updatedBy data).
  - by destruct (RoleService.patch_updatedBy data).
Qed.

(** X14: a role name that is taken is refused by both role services, and
    nothing is written. The createRole of the migration guide makes no
    check of its own and surfaces the unique-constraint error of the store
    (P2002); the createRole of the full role service looks the name up
    first and raises ConflictError. *)
Theorem createRole_name_taken
    (isGuid : string → bool) (n by_ : string) (i : string) (o : Role)
    (data : RoleService.Input) (role : ResourceRoleService.Input) (w : World) :
  roles (db w) !! i = Some o →
  role_name o = n →
  (RoleService.name data = JStr n → RoleService.createdBy data = JStr by_ →
   ∃ w', RoleService.createRole data w = (Err (PrismaError P2002), w')
         ∧ db w' = db w)
  ∧ (ResourceRoleService.schema isGuid role = true →
     ResourceRoleService.name role = JStr n →
     ∃ w', ResourceRoleService.createRole isGuid role w = (Err ConflictError, w')
           ∧ db w' = db w).
Proof.
  intros Hi Hname. split.
  - intros Hn Hby. unfold RoleService.createRole. rewrite bind_run.
    change (generateUUID w) with
      (Ok (uuid_source w (uuid_next w)),
       mkWorld (db w) (uuid_source w) (S (uuid_next w)) (clock w) (trace w)).
    cbv iota. unfold prisma.role.create. rewrite bind_run.
    unfold newDate at 1. cbv iota beta.
    unfold prisma.role.row_of. cbn. rewrite Hn, Hby.
    unfold store_call. cbn.
    case_bool_decide; [eauto|].
    assert ((0 <? count_rows (λ r', bool_decide (role_name r' = n)) (roles (db w)))%nat
            = true) as Hcount.
    { apply count_rows_pos. exists i, o. by rewrite bool_decide_eq_true. }
    apply Nat.ltb_lt in Hcount.
    destruct (count_rows _ (roles (db w))); [lia|]. eauto.
  - intros Hschema Hn. unfold ResourceRoleService.createRole. rewrite bind_run.
    unfold ResourceRoleService.validateRole. rewrite Hschema. cbn [negb].
    rewrite ret_run, bind_run, Hn. cbn [prisma.arg]. rewrite ret_run, bind_run.
    unfold prisma.role.findUniqueByName, store_read.
    destruct (find_first _ _) as [found|] eqn:Hfind; [eauto|]. exfalso.
    rewrite find_first_None in Hfind. specialize (Hfind i o Hi).
    by rewrite bool_decide_eq_true_2 in Hfind.
Qed.

(** * Searching resources *)

#[local] Instance newer_or_same_trans : Transitive prisma.resource.newer_or_same.
Proof. unfold prisma.resource.newer_or_same. intros a b c. lia. Qed.

#[local] Instance newer_or_same_total : Total prisma.resource.newer_or_same.
Proof. unfold prisma.resource.newer_or_same. intros a b. lia. Qed.

Lemma StronglySorted_slice {A : Type} (R : relation A) (l : list A) (s n : nat) :
  StronglySorted R l → StronglySorted R (take n (drop s l)).
Proof.
  intros Hl. rewrite <- (take_drop s l) in Hl.
  apply StronglySorted_app_1_r in Hl.
  rewrite <- (take_drop n (drop s l)) in Hl.
  by apply StronglySorted_app_1_l in Hl.
Qed.

Lemma omap_fmap_Some {A B : Type} (f : A → B) (h : B → option A) (l : list A) :
  (∀ x, h (f x) = Some x) → omap h (f <$> l) = l.
Proof.
  intros Hhf. induction l as [|a l IH]; [done|].
  rewrite fmap_cons.
  change (omap h (f a :: (f <$> l)))
    with (match h (f a) with
          | Some y => y :: omap h (f <$> l)
          | None => omap h (f <$> l)
          end).
  by rewrite Hhf, IH.
Qed.

Lemma searchResources_run icontains criteria w :
  let page := ResourceService.number_or (ResourceService.crit_page criteria) 1 in
  let perPage := ResourceService.number_or (ResourceService.crit_perPage criteria) 20 in
  let P := ResourceService.whereConditions icontains criteria in
  ResourceService.searchResources icontains criteria w =
  (Ok (ResourceService.mkPage (count_rows P (resources (db w))) page perPage
         ((λ x, ResourceService.transformResource (Some x)
                  (ResourceService.crit_includeRole criteria)
                  (ResourceService.crit_includePhases criteria))
          <$> ((λ r, prisma.resource.mkWithRelations r
                       (if ResourceService.crit_includeRole criteria
                        then roles (db w) !! res_roleId r else None)
                       (if ResourceService.crit_includePhases criteria
                        then Some (prisma.resource.joined_phases (db w) (res_id r))
                        else None))
               <$> take perPage
                     (drop ((page - 1) * perPage)
                        (prisma.resource.newest_first
                           (find_many P (resources (db w)))))))),
   log (Query TResource OpFindMany) (log (Query TResource OpCount) w)).
Proof. reflexivity. Qed.

(** X15: searchResources never fails and never writes. Its result holds
    the stored resources that satisfy the criteria, newest first, from
    position (page - 1) * perPage on: min(perPage, total - (page - 1) *
    perPage) of them, so none beyond the last page; total is the number of
    all matching rows, whatever the page; page and perPage are 1 and 20
    when the criteria leave them out or give 0. *)
Theorem searchResources_page
    (icontains : string → string → bool) (criteria : ResourceService.Criteria)
    (w : World) :
  ∃ found w',
    ResourceService.searchResources icontains criteria w = (Ok found, w')
    ∧ db w' = db w
    ∧ ResourceService.page_page found
      = match ResourceService.crit_page criteria with Some (S k) => S k | _ => 1%nat end
    ∧ ResourceService.page_perPage found
      = match ResourceService.crit_perPage criteria with Some (S k) => S k | _ => 20%nat end
    ∧ ResourceService.page_total found
      = count_rows (ResourceService.whereConditions icontains criteria)
          (resources (db w))
    ∧ length (ResourceService.page_result found)
      = (ResourceService.page_perPage found
         `min` (ResourceService.page_total found
                - (ResourceService.page_page found - 1)
                  * ResourceService.page_perPage found))%nat
    ∧ Forall (λ o, ∃ out i,
                o = Some out
                ∧ resources (db w) !! i = Some (ResourceService.out_resource out)
                ∧ ResourceService.whereConditions icontains criteria
                    (ResourceService.out_resource out) = true)
        (ResourceService.page_result found)
    ∧ StronglySorted prisma.resource.newer_or_same
        (omap (fmap ResourceService.out_resource) (ResourceService.page_result found)).
Proof.
  rewrite searchResources_run. cbv zeta.
  set (page := ResourceService.number_or (ResourceService.crit_page criteria) 1).
  set (perPage := ResourceService.number_or (ResourceService.crit_perPage criteria) 20).
  set (P := ResourceService.whereConditions icontains criteria).
  set (sorted := prisma.resource.newest_first (find_many P (resources (db w)))).
  set (slice := take perPage (drop ((page - 1) * perPage) sorted)).
  assert (sorted ≡ₚ find_many P (resources (db w))) as Hperm
    by apply merge_sort_Permutation.
  assert (∀ r, r ∈ slice → P r = true ∧ ∃ i, resources (db w) !! i = Some r) as Hslice.
  { intros r Hr. apply elem_of_find_many. rewrite <- Hperm.
    by apply (subseteq_drop ((page - 1) * perPage)), (subseteq_take perPage). }
  eexists _, _. split; [reflexivity|]. cbn.
  split_and!; try done.
  - rewrite !length_fmap. unfold slice. rewrite length_take, length_drop.
    unfold count_rows. by rewrite <- Hperm.
  - apply Forall_fmap, Forall_fmap, Forall_forall. intros r [HP [i Hi]]%Hslice.
    cbn. eauto.
  - rewrite <- list_fmap_compose, omap_fmap_Some by done.
    apply StronglySorted_slice.
    apply StronglySorted_merge_sort; apply _.
Qed.

(** * The worked store, continued *)

Lemma consistent_reference : consistent (db Scenario.reference).
Proof.
  constructor; cbn.
  - intros i r [<- <-]%lookup_singleton_Some. done.
  - intros i p Hi.
    repeat (apply lookup_insert_Some in Hi as [[<- <-]|[_ Hi]]; [done|]).
    by rewrite lookup_empty in Hi.
  - intros i r Hi. by rewrite lookup_empty in Hi.
  - intros i r Hi. by rewrite lookup_empty in Hi.
  - intros i r Hi. by rewrite lookup_empty in Hi.
  - intros i r Hi. by rewrite lookup_empty in Hi.
  - intros i r Hi. by rewrite lookup_empty in Hi.
  - intros i j a b Hi. by rewrite lookup_empty in Hi.
  - intros i j a b [<- <-]%lookup_singleton_Some [<- <-]%lookup_singleton_Some. done.
Qed.

Lemma consistent_created : consistent (db Scenario.created).
Proof. apply keeps_serve, consistent_reference. Qed.


(** The session, call by call: one resource comes and goes, the role is
    renamed, cannot be deleted while the resource is there, and can after. *)
Example session_run :
  let w := serve_all Scenario.canonical_guid Scenario.session Scenario.reference in
  (map_to_list (resources (db w)), map_to_list (resourcePhases (db w)),
   role_name <$> (map_to_list (roles (db w))).*2)
  = ([], [], ["Submitter"]).
Proof. vm_compute. reflexivity. Qed.

Lemma deleteResourcePhase_not_found_witness :
  ∃ w', ResourceDependencyService.deleteResourcePhase "res-1" Scenario.P2 Scenario.assigned
        = (Err NotFoundError, w')
        ∧ db w' = db Scenario.assigned.
Proof.
  apply deleteResourcePhase_not_found. right. right.
  intros (i & rp & Hi & _ & Hp)%elem_of_attached. cbn in Hi.
  apply lookup_singleton_Some in Hi as [_ <-]. discriminate Hp.
Defined.

Lemma deleteResourcePhase_detaches_witness :
  ∃ w', ResourceDependencyService.deleteResourcePhase "generated" Scenario.P1
          Scenario.created = (Ok tt, w')
        ∧ attached (db w') "generated"
          = attached (db Scenario.created) "generated" ∖ {[Scenario.P1]}.
Proof.
  destruct (deleteResourcePhase_detaches "generated" Scenario.P1 Scenario.created)
    as (w' & Hrun & Hattached & _).
  - exact consistent_created.
  - eexists. vm_compute. reflexivity.
  - eexists. vm_compute. reflexivity.
  - apply elem_of_attached. eexists "generated+", _.
    split_and!; vm_compute; reflexivity.
  - exists w'. split; [exact Hrun|exact Hattached].
Defined.

Lemma getResourcePhases_lists_attached_witness :
  ∃ l, ResourceDependencyService.getResourcePhases "generated" Scenario.created
       = (Ok l, log (Query TResource OpFindUnique) Scenario.created)
       ∧ list_to_set (ResourceDependencyService.info_id <$> l)
         = attached (db Scenario.created) "generated".
Proof.
  pose proof (getResourcePhases_lists_attached "generated" Scenario.created
                consistent_created) as Hspec.
  assert (is_Some (resources (db Scenario.created) !! "generated")) as [r Hrow]
    by (eexists; vm_compute; reflexivity).
  rewrite Hrow in Hspec.
  destruct Hspec as (l & Hrun & Hids & _). exists l. split; [exact Hrun|exact Hids].
Defined.

Lemma createResourcePhases_attaches_witness :
  ∃ ps w',
    ResourceDependencyService.createResourcePhases "res-1"
      (Some [Scenario.P2; Scenario.P3]) (JStr "u1") Scenario.assigned = (Ok ps, w')
    ∧ attached (db w') "res-1"
      = attached (db Scenario.assigned) "res-1"
        ∪ list_to_set [Scenario.P2; Scenario.P3].
Proof.
  assert (succeeded (ResourceDependencyService.createResourcePhases "res-1"
                       (Some [Scenario.P2; Scenario.P3]) (JStr "u1")
                       Scenario.assigned).1 = true)
    as Hok by (vm_compute; reflexivity).
  destruct (ResourceDependencyService.createResourcePhases "res-1" _ _ Scenario.assigned)
    as [[ps|e] w'] eqn:Hrun; [|discriminate Hok].
  exists ps, w'. split; [done|].
  by destruct (createResourcePhases_attaches _ _ _ _ _ _ Hrun) as [Hattached _].
Defined.

Lemma createResource_rejects_witness :
  ∃ w', ResourceService.createResource Scenario.canonical_guid
          (Scenario.request (JStr "C1") JUndefined None) Scenario.two_assignments
        = (Err ConflictError, w')
        ∧ db w' = db Scenario.two_assignments.
Proof.
  pose proof (createResource_rejects Scenario.canonical_guid
                (Scenario.request (JStr "C1") JUndefined None) Scenario.R1
                Scenario.two_assignments eq_refl eq_refl eq_refl) as Hspec.
  destruct (roles (db Scenario.two_assignments) !! Scenario.R1) eqn:Hrole.
  - apply Hspec. eexists "generated+", _.
    split; [vm_compute; reflexivity|]. split_and!; [reflexivity|reflexivity|].
    intros Hset. discriminate Hset.
  - vm_compute in Hrole. discriminate Hrole.
Defined.

Lemma createResource_keeps_triples_unique_witness :
  ∃ out w',
    ResourceService.createResource Scenario.canonical_guid
      (Scenario.request (JStr "C1") JUndefined (Some [Scenario.P1])) Scenario.reference
    = (Ok out, w')
    ∧ unique_triples (db w').
Proof.
  assert (succeeded (ResourceService.createResource Scenario.canonical_guid
                       (Scenario.request (JStr "C1") JUndefined (Some [Scenario.P1]))
                       Scenario.reference).1 = true)
    as Hok by (vm_compute; reflexivity).
  destruct (ResourceService.createResource Scenario.canonical_guid _ Scenario.reference)
    as [[out|e] w'] eqn:Hrun; [|discriminate Hok].
  exists out, w'. split; [done|].
  eapply createResource_keeps_triples_unique; [|exact Hrun].
  intros i j r1 r2 Hi. cbn in Hi. by rewrite lookup_empty in Hi.
Defined.

Lemma createResource_getResource_witness :
  ∃ o w',
    ResourceService.createResource Scenario.canonical_guid
      (Scenario.request (JStr "C1") JUndefined (Some [Scenario.P1])) Scenario.reference
    = (Ok (Some o), w')
    ∧ (ResourceService.getResource (res_id (ResourceService.out_resource o))
         true true w').1 = Ok (Some o).
Proof.
  assert (succeeded (ResourceService.createResource Scenario.canonical_guid
                       (Scenario.request (JStr "C1") JUndefined (Some [Scenario.P1]))
                       Scenario.reference).1 = true)
    as Hok by (vm_compute; reflexivity).
  destruct (ResourceService.createResource Scenario.canonical_guid _ Scenario.reference)
    as [[out|e] w'] eqn:Hrun; [|discriminate Hok].
  destruct (createResource_getResource _ _ _ _ _ Hrun) as (o & -> & Hget).
  by exists o, w'.
Defined.

Lemma updateResource_rejects_witness :
  ∃ w', ResourceService.updateResource "generated" Scenario.patch_set_challenge
          Scenario.two_assignments = (Err ConflictError, w')
        ∧ db w' = db Scenario.two_assignments.
Proof.
  pose proof (updateResource_rejects "generated" Scenario.patch_set_challenge
                Scenario.two_assignments) as Hspec.
  destruct (resources (db Scenario.two_assignments) !! "generated") as [old|] eqn:Hold.
  2:{ vm_compute in Hold. discriminate Hold. }
  assert (res_roleId old = Scenario.R1 ∧ res_memberId old = Some "M1") as [Hr Hm].
  { vm_compute in Hold. injection Hold as <-. done. }
  cbv zeta in Hspec. destruct Hspec as [_ Hconflict]. apply Hconflict.
  - rewrite Hr. eexists. vm_compute. reflexivity.
  - reflexivity.
  - eexists "generated+", _. split; [vm_compute; reflexivity|].
    rewrite Hr, Hm. split_and!; [discriminate|reflexivity|reflexivity|reflexivity].
Defined.

Lemma updateResource_patches_witness :
  ∃ out w' new,
    ResourceService.updateResource "res-1" Scenario.patch_clear_challenge
      Scenario.assigned = (Ok out, w')
    ∧ resources (db w') !! "res-1" = Some new
    ∧ res_challengeId new = None
    ∧ res_roleId new = Scenario.R1.
Proof.
  assert (succeeded (ResourceService.updateResource "res-1"
                       Scenario.patch_clear_challenge Scenario.assigned).1 = true)
    as Hok by (vm_compute; reflexivity).
  destruct (ResourceService.updateResource "res-1" _ Scenario.assigned)
    as [[out|e] w'] eqn:Hrun; [|discriminate Hok].
  destruct (updateResource_patches _ _ _ _ _ Hrun)
    as (old & new & Hold & Hnew & _ & _ & _ & _ & Hcols & Hrole & _).
  exists out, w', new. split_and!; [done..| |].
  - apply (Hcols ResourceService.patch_challengeId res_challengeId), list_elem_of_here.
  - rewrite Hrole. cbn. vm_compute in Hold. by injection Hold as <-.
Defined.

Lemma updateRole_patches_witness :
  ∃ role w',
    RoleService.updateRole Scenario.R1 Scenario.role_rename Scenario.reference
    = (Ok role, w')
    ∧ role_name role = "Reviewer"
    ∧ role_createdBy role = "u1".
Proof.
  assert (succeeded (RoleService.updateRole Scenario.R1 Scenario.role_rename
                       Scenario.reference).1 = true)
    as Hok by (vm_compute; reflexivity).
  destruct (RoleService.updateRole Scenario.R1 _ Scenario.reference)
    as [[role|e] w'] eqn:Hrun; [|discriminate Hok].
  pose proof (updateRole_patches Scenario.R1 Scenario.role_rename Scenario.reference)
    as Hspec.
  destruct (roles (db Scenario.reference) !! Scenario.R1) as [old|] eqn:Hold.
  2:{ vm_compute in Hold. discriminate Hold. }
  destruct (Hspec role w' Hrun) as (_ & _ & _ & Hby & _ & Hname & _).
  exists role, w'. split_and!; [done| |].
  - cbn in Hname. by injection Hname.
  - rewrite Hby. vm_compute in Hold. by injection Hold as <-.
Defined.

Lemma createRole_name_taken_witness :
  (∃ w', RoleService.createRole Scenario.role_request Scenario.reference
         = (Err (PrismaError P2002), w')
         ∧ db w' = db Scenario.reference)
  ∧ (∃ w', ResourceRoleService.createRole Scenario.canonical_guid
             Scenario.full_role_request Scenario.reference
           = (Err ConflictError, w')
           ∧ db w' = db Scenario.reference).
Proof.
  destruct (createRole_name_taken Scenario.canonical_guid "Submitter" "u1"
              Scenario.R1 Scenario.submitter Scenario.role_request
              Scenario.full_role_request Scenario.reference)
    as [Hguide Hfull].
  - vm_compute. reflexivity.
  - reflexivity.
  - split; [by apply Hguide|]. apply Hfull; [vm_compute|]; reflexivity.
Defined.

(** No criteria on two stored resources: both come back, the newer or
    equally new one first, and the total is two. *)
Example search_everything :
  let found := (ResourceService.searchResources (λ _ _, true) Scenario.all_resources
                  Scenario.two_assignments).1 in
  match found with
  | Ok page =>
      ResourceService.page_total page = 2%nat
      ∧ ResourceService.page_perPage page = 20%nat
      ∧ length (ResourceService.page_result page) = 2%nat
  | Err _ => False
  end.
Proof. vm_compute. done. Qed.

Lemma full_createRole_keeps_legacyId_witness :
  ∃ r w',
    ResourceRoleService.createRole Scenario.canonical_guid
      Scenario.full_role_request Scenario.empty = (Ok (Some r), w')
    ∧ role_legacyId r = Some "L1"
    ∧ (ResourceRoleService.getRole (role_id r) w').1 = Ok (Some r).
Proof.
  assert (succeeded (ResourceRoleService.createRole Scenario.canonical_guid
                       Scenario.full_role_request Scenario.empty).1 = true)
    as Hok by (vm_compute; reflexivity).
  destruct (ResourceRoleService.createRole Scenario.canonical_guid _ Scenario.empty)
    as [[out|e] w'] eqn:Hrun; [|discriminate Hok].
  destruct (full_createRole_keeps_legacyId _ _ _ _ _ Hrun) as (r & -> & Hlegacy & Hget).
  exists r, w'. split_and!; [reflexivity|exact Hlegacy|exact Hget].
Defined.
